(** * Service-recommendation system: rule evaluator and case-decision pipeline

    A shallow embedding of [business_rules/decision_engine.py] and of the
    pipeline stages of [agents.py] / [graph.py], with the properties of the
    specification stated and proved (or refuted) over it.

    Modelling conventions.
    - A Python [dict] is an association list in insertion order.
    - A Python exception is a value of [exn]; code that may raise returns
      [result].
    - A Python [int] is a [Z].  A Python [float] is modelled by the rational
      number it denotes: arithmetic on [Q] is exact, rounding is not modelled.
    - The range of a [float] is not modelled either.  Where the source
      converts an integer that is too large for a float, or is left with a
      power or a quotient that is, Python raises [OverflowError] while the
      model returns a rational.  This concerns the device age in
      [simulate_pim_integration], [technical_analyst_agent],
      [economic_analyst_agent] and [estimate_trade_in_value], and the
      numbers of a catalog or of a record that are divided or turned into
      floats.  Likewise the text of an integer of more than 4300 digits
      raises [ValueError].  So the model returns wherever the source does,
      and a statement that asserts that such a computation returns is made
      for integers that are [float_sized] (for ages from 0 on where a power
      of the age is taken) and for draws in the ranges they are drawn
      from; a statement about a result that is given needs no such
      proviso.
    - A Python [str] is a [string]; [str.lower] lowers the ASCII letters.
    - The random source and the clock are explicit arguments. *)

From Stdlib Require Import ZArith QArith Qminmax Qround Qpower Lqa Lia.
From Stdlib Require Import Bool List String Ascii DecimalString Sorted Permutation.
Import ListNotations.

Set Warnings "-register-all".

Local Open Scope string_scope.
Local Open Scope list_scope.
Local Open Scope Z_scope.

(** ** Python values and builtins *)

Module Py.

Inductive exn : Type :=
| KeyError
| TypeError
| AttributeError
| ZeroDivisionError.

Inductive result (A : Type) : Type :=
| Ok (a : A)
| Raise (e : exn).

Arguments Ok {A} a.
Arguments Raise {A} e.

Definition bind {A B : Type} (m : result A) (k : A -> result B) : result B :=
  match m with
  | Ok a => k a
  | Raise e => Raise e
  end.

(** JSON-shaped Python values. *)
Inductive value : Type :=
| VNone
| VBool (b : bool)
| VInt (z : Z)
| VFloat (q : Q)
| VStr (s : string)
| VList (l : list value)
| VDict (d : list (string * value)).

Definition pydict : Type := list (string * value).

(** [d.get(k)] / [k in d] / [d[k]] on a dict with string keys. *)
Fixpoint lookup {A : Type} (k : string) (d : list (string * A)) : option A :=
  match d with
  | [] => None
  | (k', v) :: d' => if String.eqb k k' then Some v else lookup k d'
  end.

Definition get_default {A : Type} (k : string) (d : list (string * A)) (dflt : A) : A :=
  match lookup k d with
  | Some v => v
  | None => dflt
  end.

(** *** Strings *)

Definition lower_ascii (c : ascii) : ascii :=
  let n := nat_of_ascii c in
  if (Nat.leb 65 n && Nat.leb n 90)%bool then ascii_of_nat (n + 32) else c.

(** [s.lower()] *)
Fixpoint lower (s : string) : string :=
  match s with
  | EmptyString => EmptyString
  | String c s' => String (lower_ascii c) (lower s')
  end.

(** [needle in hay] for two strings. *)
Fixpoint str_contains (needle hay : string) : bool :=
  (String.prefix needle hay ||
   match hay with
   | EmptyString => false
   | String _ hay' => str_contains needle hay'
   end)%bool.

(** [s.split(sep)] for a one-character separator. *)
Fixpoint split_on (sep : ascii) (s : string) : list string :=
  match s with
  | EmptyString => [EmptyString]
  | String c s' =>
      if Ascii.eqb c sep then EmptyString :: split_on sep s'
      else match split_on sep s' with
           | [] => [String c EmptyString]
           | w :: ws => String c w :: ws
           end
  end.

Definition is_space (c : ascii) : bool :=
  let n := nat_of_ascii c in
  (Nat.eqb n 32 || (Nat.leb 9 n && Nat.leb n 13) || (Nat.leb 28 n && Nat.leb n 31))%bool.

(** [s.split()]: split on runs of whitespace, no empty words. *)
Fixpoint split_ws_aux (cur : string) (s : string) : list string :=
  match s with
  | EmptyString =>
      match cur with EmptyString => [] | _ => [cur] end
  | String c s' =>
      if is_space c
      then match cur with
           | EmptyString => split_ws_aux EmptyString s'
           | _ => cur :: split_ws_aux EmptyString s'
           end
      else split_ws_aux (cur ++ String c EmptyString) s'
  end.

Definition split_ws (s : string) : list string := split_ws_aux EmptyString s.

(** [x in l] for a list of strings. *)
Definition str_in_list (x : string) (l : list string) : bool :=
  existsb (String.eqb x) l.

(** [any(k in s for k in keywords)] *)
Definition any_keyword_in (keywords : list string) (s : string) : bool :=
  existsb (fun k => str_contains k s) keywords.

(** [str(n)] for an [int]. *)
Definition str_of_Z (n : Z) : string := NilZero.string_of_int (Z.to_int n).

(** *** Comparisons *)

(** [bool], [int] and [float] compare with each other as numbers. *)
Definition as_number (v : value) : option Q :=
  match v with
  | VBool b => Some (if b then 1%Q else 0%Q)
  | VInt z => Some (inject_Z z)
  | VFloat q => Some q
  | _ => None
  end.

(** [a == b]: never raises on these values. *)
Fixpoint py_eq (a b : value) {struct a} : bool :=
  match a, b with
  | VNone, VNone => true
  | VStr s, VStr t => String.eqb s t
  | VList l, VList m =>
      (fix go (l m : list value) {struct l} : bool :=
         match l, m with
         | [], [] => true
         | x :: l', y :: m' => (py_eq x y && go l' m')%bool
         | _, _ => false
         end) l m
  | VDict d, VDict e =>
      (Nat.eqb (List.length d) (List.length e) &&
       (fix go (d : list (string * value)) {struct d} : bool :=
          match d with
          | [] => true
          | (k, v) :: d' =>
              (match lookup k e with
               | Some w => py_eq v w
               | None => false
               end && go d')%bool
          end) d)%bool
  | _, _ =>
      match as_number a, as_number b with
      | Some p, Some q => Qeq_bool p q
      | _, _ => false
      end
  end.

Inductive cmpop : Type := OpLt | OpGt | OpLe | OpGe.

Definition Qlt_bool (p q : Q) : bool := negb (Qle_bool q p).

Definition num_cmp (op : cmpop) (p q : Q) : bool :=
  match op with
  | OpLt => Qlt_bool p q
  | OpGt => Qlt_bool q p
  | OpLe => Qle_bool p q
  | OpGe => Qle_bool q p
  end.

Definition str_cmp (op : cmpop) (s t : string) : bool :=
  match op with
  | OpLt => String.ltb s t
  | OpGt => String.ltb t s
  | OpLe => String.leb s t
  | OpGe => String.leb t s
  end.

Definition len_cmp (op : cmpop) (n m : nat) : bool :=
  match op with
  | OpLt => Nat.ltb n m
  | OpGt => Nat.ltb m n
  | OpLe => Nat.leb n m
  | OpGe => Nat.leb m n
  end.

(** [a < b], [a > b], [a <= b], [a >= b]: numbers with numbers, strings
    with strings, lists with lists (lexicographic); anything else is a
    [TypeError]. *)
Fixpoint py_compare (op : cmpop) (a b : value) {struct a} : result bool :=
  match a, b with
  | VStr s, VStr t => Ok (str_cmp op s t)
  | VList l, VList m =>
      (fix go (l m : list value) {struct l} : result bool :=
         match l, m with
         | x :: l', y :: m' =>
             if py_eq x y then go l' m' else py_compare op x y
         | _, _ => Ok (len_cmp op (List.length l) (List.length m))
         end) l m
  | _, _ =>
      match as_number a, as_number b with
      | Some p, Some q => Ok (num_cmp op p q)
      | _, _ => Raise TypeError
      end
  end.

(** [x in c] *)
Definition py_in (x c : value) : result bool :=
  match c with
  | VList l => Ok (existsb (py_eq x) l)
  | VStr s =>
      match x with
      | VStr n => Ok (str_contains n s)
      | _ => Raise TypeError
      end
  | VDict d =>
      match x with
      | VStr k => Ok (match lookup k d with Some _ => true | None => false end)
      | VList _ | VDict _ => Raise TypeError
      | _ => Ok false
      end
  | _ => Raise TypeError
  end.

(** [repr] on [None], booleans and integers; the examples of this file
    print no other value. *)
Definition repr_atom (v : value) : string :=
  match v with
  | VNone => "None"
  | VBool true => "True"
  | VBool false => "False"
  | VInt z => str_of_Z z
  | _ => ""
  end.

End Py.

Import Py.

Declare Scope py_scope.
Notation "x <- m ;; k" := (bind m (fun x => k))
  (at level 61, m at next level, right associativity) : py_scope.
Local Open Scope py_scope.

(** [sorted(l, key=...)] with the order given as a boolean comparison:
    a stable insertion sort.  [le x y] says that [x] may stay before [y]. *)
Section StableSort.
Context {A : Type} (le : A -> A -> bool).

Fixpoint insert_stable (x : A) (l : list A) : list A :=
  match l with
  | [] => [x]
  | y :: l' => if le x y then x :: y :: l' else y :: insert_stable x l'
  end.

Fixpoint py_sorted (l : list A) : list A :=
  match l with
  | [] => []
  | x :: l' => insert_stable x (py_sorted l')
  end.
End StableSort.

(** ** The rule evaluator ([business_rules/decision_engine.py]) *)

Module Rules.

(** A condition of a rule: [expected_value] is [condition.get("value")]
    ([VNone] when the key is absent), [value_field] is
    [condition.get("value_field")]. *)
Record Condition : Type := mkCondition {
  field : string;
  operator : string;
  expected_value : value;
  value_field : option string;
  match_any : bool
}.

Record Rule : Type := mkRule {
  name : string;
  conditions : list Condition;
  action : string;
  reasoning : string;
  weight : option Z;
  override : bool
}.

Record RuleSet : Type := mkRuleSet {
  priority : option Z;
  rules : list Rule
}.

(** [self.rules["rule_sets"]]: a dict from names to rule sets. *)
Definition RuleSets : Type := list (string * RuleSet).

Record AppliedRule : Type := mkApplied {
  ar_rule_set : string;
  ar_rule_name : string;
  ar_action : string;
  ar_reasoning : string;
  ar_weight : Z;
  ar_override : bool
}.

Record Results : Type := mkResults {
  final_recommendation : option string;
  confidence_score : Q;
  applied_rules : list AppliedRule;
  rule_weights : list (string * Z);
  override_applied : bool;
  reasoning_chain : list string
}.

(** [_action_to_recommendation] *)
Definition action_mapping : list (string * string) :=
  [ ("recommend_repair", "repair");
    ("recommend_replace", "replace");
    ("refer_manufacturer", "manufacturer");
    ("manual_review", "manual");
    ("escalate", "manual") ].

Definition action_to_recommendation (action : string) : string :=
  get_default action action_mapping "repair".

(** [_get_nested_value]: walk the dotted path; [VNone] as soon as a segment
    is not a key of a dict. *)
Fixpoint walk_keys (keys : list string) (v : value) : value :=
  match keys with
  | [] => v
  | key :: keys' =>
      match v with
      | VDict d =>
          match lookup key d with
          | Some v' => walk_keys keys' v'
          | None => VNone
          end
      | _ => VNone
      end
  end.

Definition get_nested_value (data : value) (field_path : string) : value :=
  walk_keys (split_on "."%char field_path) data.

Definition is_none (v : value) : bool :=
  match v with VNone => true | _ => false end.

Section Engine.

(** [repr] of a value that is not a string (a Python builtin). *)
Variable py_repr : value -> string.

(** [str(v)] *)
Definition py_str (v : value) : string :=
  match v with
  | VStr s => s
  | _ => py_repr v
  end.

(** [any(val.lower() in hay for val in vals)] *)
Fixpoint contains_any (vals : list value) (hay : string) : result bool :=
  match vals with
  | [] => Ok false
  | VStr s :: vals' =>
      if str_contains (lower s) hay then Ok true else contains_any vals' hay
  | _ :: _ => Raise AttributeError
  end.

(** [all(val.lower() in hay for val in vals)] *)
Fixpoint contains_all (vals : list value) (hay : string) : result bool :=
  match vals with
  | [] => Ok true
  | VStr s :: vals' =>
      if str_contains (lower s) hay then contains_all vals' hay else Ok false
  | _ :: _ => Raise AttributeError
  end.

(** [_evaluate_single_condition] *)
Definition evaluate_single_condition (condition : Condition) (case_data : value)
  : result bool :=
  let actual_value := get_nested_value case_data (field condition) in
  if is_none actual_value then Ok false
  else
    let dynamic :=
      match value_field condition with
      | Some vf => negb (String.eqb vf "")
      | None => false
      end in
    let expected :=
      if dynamic
      then match value_field condition with
           | Some vf => get_nested_value case_data vf
           | None => VNone
           end
      else expected_value condition in
    if (dynamic && is_none expected)%bool then Ok false
    else
      let op := operator condition in
      if String.eqb op "equals" then Ok (py_eq actual_value expected)
      else if String.eqb op "gt" then py_compare OpGt actual_value expected
      else if String.eqb op "lt" then py_compare OpLt actual_value expected
      else if String.eqb op "gte" then py_compare OpGe actual_value expected
      else if String.eqb op "lte" then py_compare OpLe actual_value expected
      else if String.eqb op "contains" then
        match expected with
        | VList vals =>
            if match_any condition
            then contains_any vals (lower (py_str actual_value))
            else contains_all vals (lower (py_str actual_value))
        | _ =>
            Ok (str_contains (lower (py_str expected))
                             (lower (py_str actual_value)))
        end
      else if String.eqb op "in_list" then py_in actual_value expected
      else if String.eqb op "not_in_list" then
        b <- py_in actual_value expected ;; Ok (negb b)
      else Ok false.

(** [_evaluate_rule_conditions]: the first false condition ends the loop. *)
Fixpoint evaluate_rule_conditions (conds : list Condition) (case_data : value)
  : result bool :=
  match conds with
  | [] => Ok true
  | c :: conds' =>
      b <- evaluate_single_condition c case_data ;;
      if b then evaluate_rule_conditions conds' case_data else Ok false
  end.

(** [d[k] += w] *)
Fixpoint dict_add (k : string) (w : Z) (d : list (string * Z))
  : result (list (string * Z)) :=
  match d with
  | [] => Raise KeyError
  | (k', v) :: d' =>
      if String.eqb k k' then Ok ((k', v + w) :: d')
      else d'' <- dict_add k w d' ;; Ok ((k', v) :: d'')
  end.

(** The local variables of [evaluate_rules] that the loop updates. *)
Record LoopState : Type := mkLoop {
  results : Results;
  total_weight : Z;
  recommendation_weights : list (string * Z)
}.

Definition initial_results : Results :=
  {| final_recommendation := None;
     confidence_score := 0%Q;
     applied_rules := [];
     rule_weights := [];
     override_applied := false;
     reasoning_chain := [] |}.

Definition initial_state : LoopState :=
  {| results := initial_results;
     total_weight := 0;
     recommendation_weights :=
       [("repair", 0); ("replace", 0); ("manufacturer", 0); ("manual", 0)] |}.

(** The operators that [_evaluate_single_condition] knows. *)
Definition known_operators : list string :=
  ["equals"; "gt"; "lt"; "gte"; "lte"; "contains"; "in_list"; "not_in_list"].

(** What one iteration of the inner loop does: [Returned] is the [return]
    inside the loop. *)
Inductive Step : Type :=
| Returned (r : Results)
| Running (st : LoopState).

Definition applied_entry (rule_set_name : string) (rule : Rule) : AppliedRule :=
  {| ar_rule_set := rule_set_name;
     ar_rule_name := name rule;
     ar_action := action rule;
     ar_reasoning := reasoning rule;
     ar_weight := match weight rule with Some w => w | None => 0 end;
     ar_override := override rule |}.

Definition rule_step (case_data : value) (st : LoopState)
           (entry : string * Rule) : result Step :=
  let (rule_set_name, rule) := entry in
  b <- evaluate_rule_conditions (conditions rule) case_data ;;
  if b then
    let res := results st in
    let applied := applied_rules res ++ [applied_entry rule_set_name rule] in
    if override rule then
      Ok (Returned
            {| final_recommendation := Some (action_to_recommendation (action rule));
               confidence_score := 1%Q;
               applied_rules := applied;
               rule_weights := rule_weights res;
               override_applied := true;
               reasoning_chain := reasoning_chain res ++ [reasoning rule] |})
    else
      let w := match weight rule with Some w => w | None => 0 end in
      if w >? 0 then
        rw <- dict_add (action_to_recommendation (action rule)) w
                       (recommendation_weights st) ;;
        Ok (Running
              {| results :=
                   {| final_recommendation := final_recommendation res;
                      confidence_score := confidence_score res;
                      applied_rules := applied;
                      rule_weights := rule_weights res;
                      override_applied := override_applied res;
                      reasoning_chain := reasoning_chain res ++ [reasoning rule] |};
                 total_weight := total_weight st + w;
                 recommendation_weights := rw |})
      else
        Ok (Running
              {| results :=
                   {| final_recommendation := final_recommendation res;
                      confidence_score := confidence_score res;
                      applied_rules := applied;
                      rule_weights := rule_weights res;
                      override_applied := override_applied res;
                      reasoning_chain := reasoning_chain res |};
                 total_weight := total_weight st;
                 recommendation_weights := recommendation_weights st |})
  else Ok (Running st).

(** The two nested [for] loops, over the rules in scan order. *)
Fixpoint scan (case_data : value) (entries : list (string * Rule))
         (st : LoopState) : result Step :=
  match entries with
  | [] => Ok (Running st)
  | entry :: entries' =>
      s <- rule_step case_data st entry ;;
      match s with
      | Returned r => Ok (Returned r)
      | Running st' => scan case_data entries' st'
      end
  end.

Definition priority_of (item : string * RuleSet) : Z :=
  match priority (snd item) with
  | Some p => p
  | None => 999
  end.

(** [sorted(self.rules["rule_sets"].items(), key=priority)] *)
Definition sorted_rule_sets (rule_sets : RuleSets) : RuleSets :=
  py_sorted (fun x y => priority_of x <=? priority_of y) rule_sets.

(** The order in which the loops visit the rules. *)
Definition scan_order (rule_sets : RuleSets) : list (string * Rule) :=
  flat_map (fun item => map (fun r => (fst item, r)) (rules (snd item)))
           (sorted_rule_sets rule_sets).

(** [max(d.values())] on a non-empty dict, [0] on the empty one (which the
    evaluator never builds). *)
Definition max_value (d : list (string * Z)) : Z :=
  match d with
  | [] => 0
  | (_, v) :: d' => fold_left (fun m kv => Z.max m (snd kv)) d' v
  end.

(** [[k for k, v in d.items() if v == m][0]] *)
Fixpoint first_key_with (m : Z) (d : list (string * Z)) : option string :=
  match d with
  | [] => None
  | (k, v) :: d' => if v =? m then Some k else first_key_with m d'
  end.

(** The four keys of [recommendation_weights], in insertion order. *)
Definition categories : list string :=
  ["repair"; "replace"; "manufacturer"; "manual"].

Definition default_reasoning : string :=
  "No specific rules matched - using default recommendation".

(** The code after the loops. *)
Definition finalize (st : LoopState) : Results :=
  let res := results st in
  if total_weight st >? 0 then
    let max_weight := max_value (recommendation_weights st) in
    {| final_recommendation := first_key_with max_weight (recommendation_weights st);
       confidence_score :=
         Qmin (inject_Z max_weight / inject_Z (total_weight st)) 1;
       applied_rules := applied_rules res;
       rule_weights := recommendation_weights st;
       override_applied := override_applied res;
       reasoning_chain := reasoning_chain res |}
  else
    {| final_recommendation := Some "repair";
       confidence_score := 1 # 2;
       applied_rules := applied_rules res;
       rule_weights := rule_weights res;
       override_applied := override_applied res;
       reasoning_chain := reasoning_chain res ++ [default_reasoning] |}.

(** [BusinessRulesEngine.evaluate_rules] *)
Definition evaluate_rules (rule_sets : RuleSets) (case_data : value)
  : result Results :=
  s <- scan case_data (scan_order rule_sets) initial_state ;;
  match s with
  | Returned r => Ok r
  | Running st => Ok (finalize st)
  end.

(** *** Vocabulary of the statements about the evaluator *)

(** The lookup of [key] in [v] fails: [v] is not a dict or lacks the key. *)
Definition segment_missing (key : string) (v : value) : Prop :=
  match v with
  | VDict d => lookup key d = None
  | _ => True
  end.

(** The nested lookup of [field_path] fails at some segment. *)
Definition path_fails (data : value) (field_path : string) : Prop :=
  exists pre key post,
    split_on "."%char field_path = pre ++ key :: post
    /\ segment_missing key (walk_keys pre data).

(** The condition compares with another field of the case data. *)
Definition dynamic_field (c : Condition) (vf : string) : Prop :=
  value_field c = Some vf /\ vf <> "".

(** [recommendation_weights] still has its four keys. *)
Definition weights_ok (st : LoopState) : Prop :=
  map fst (recommendation_weights st) = categories.

(** The conditions of the rule all hold. *)
Definition matches (case_data : value) (rule : Rule) : Prop :=
  evaluate_rule_conditions (conditions rule) case_data = Ok true.

(** The evaluator gets past the rule: its conditions evaluate without
    raising, and it is not a matching override rule. *)
Definition passes (case_data : value) (entry : string * Rule) : Prop :=
  exists b,
    evaluate_rule_conditions (conditions (snd entry)) case_data = Ok b
    /\ (b = true -> override (snd entry) = false).

(** [passes], decided. *)
Definition passesb (case_data : value) (entry : string * Rule) : bool :=
  match evaluate_rule_conditions (conditions (snd entry)) case_data with
  | Ok b => negb (b && override (snd entry))
  | Raise _ => false
  end.

Definition fires (case_data : value) (rule : Rule) : bool :=
  match evaluate_rule_conditions (conditions rule) case_data with
  | Ok true => true
  | _ => false
  end.

(** The weight a rule adds to the tally of its category. *)
Definition counted_weight (case_data : value) (rule : Rule) : Z :=
  if (fires case_data rule && negb (override rule))%bool
  then match weight rule with
       | Some w => if w >? 0 then w else 0
       | None => 0
       end
  else 0.

(** The tally of a category over the rules in scan order. *)
Definition tally (case_data : value) (entries : list (string * Rule))
           (category : string) : Z :=
  fold_right
    (fun e acc =>
       (if String.eqb (action_to_recommendation (action (snd e))) category
        then counted_weight case_data (snd e) else 0) + acc)
    0 entries.

(** The total weight across all categories. *)
Definition total_tally (case_data : value) (entries : list (string * Rule)) : Z :=
  fold_right (fun e acc => counted_weight case_data (snd e) + acc) 0 entries.

End Engine.

(** The rule sets written by [_load_rules] when no configuration file
    exists. *)
Definition cond (f op : string) (v : value) : Condition :=
  mkCondition f op v None false.

Definition strs (l : list string) : value := VList (map VStr l).

Definition safety_rules : RuleSet :=
  mkRuleSet (Some 1)
    [ mkRule "smoke_fire_emergency"
        [ mkCondition "error_description" "contains"
            (strs ["smoke"; "fire"; "burning"; "gas leak"]) None true ]
        "refer_manufacturer"
        "Safety concern detected - immediate manufacturer attention required"
        None true;
      mkRule "electrical_hazard"
        [ mkCondition "error_description" "contains"
            (strs ["electric shock"; "sparks"; "burning smell from electrical"])
            None true ]
        "refer_manufacturer"
        "Electrical safety hazard - requires immediate professional attention"
        None true ].

Definition warranty_rules : RuleSet :=
  mkRuleSet (Some 2)
    [ mkRule "under_warranty_new"
        [ cond "age" "lte" (VInt 1);
          cond "device_type" "in_list" (strs ["oven"; "refrigerator"; "dishwasher"]) ]
        "refer_manufacturer"
        "Device under warranty - manufacturer responsibility"
        None false ].

Definition economic_rules : RuleSet :=
  mkRuleSet (Some 3)
    [ mkRule "high_value_customer_repair_preference"
        [ cond "customer_tier" "in_list" (strs ["Gold"; "Platinum"]);
          cond "repair_cost" "lte" (VInt 800);
          cond "repair_probability" "gte" (VFloat (7 # 10)) ]
        "recommend_repair"
        "Premium customer - prioritize repair when feasible"
        (Some 20) false;
      mkRule "cost_ceiling_exceeded"
        [ mkCondition "repair_cost" "gt" VNone (Some "cost_ceiling") false ]
        "recommend_replace"
        "Repair cost exceeds economic threshold"
        (Some 30) false;
      mkRule "high_margin_replacement"
        [ cond "replacement_margin" "gt" (VInt 500);
          cond "repair_probability" "lt" (VFloat (8 # 10)) ]
        "recommend_replace"
        "High margin replacement opportunity with repair uncertainty"
        (Some 25) false ].

Definition technical_rules : RuleSet :=
  mkRuleSet (Some 4)
    [ mkRule "very_old_device"
        [ cond "age" "gte" (VInt 15) ]
        "recommend_replace"
        "Device exceeds typical lifespan"
        (Some 25) false;
      mkRule "low_repair_probability"
        [ cond "repair_probability" "lt" (VFloat (6 # 10)) ]
        "recommend_replace"
        "Low technical success probability"
        (Some 20) false;
      mkRule "high_success_repair"
        [ cond "repair_probability" "gte" (VFloat (9 # 10));
          cond "repair_cost" "lte" (VInt 500) ]
        "recommend_repair"
        "High success probability with reasonable cost"
        (Some 25) false ].

Definition sustainability_rules : RuleSet :=
  mkRuleSet (Some 5)
    [ mkRule "young_device_sustainability"
        [ cond "age" "lt" (VInt 8);
          cond "repair_probability" "gte" (VFloat (7 # 10)) ]
        "recommend_repair"
        "Environmental benefit from extending device lifespan"
        (Some 15) false ].

Definition default_rules : RuleSets :=
  [ ("safety_rules", safety_rules);
    ("warranty_rules", warranty_rules);
    ("economic_rules", economic_rules);
    ("technical_rules", technical_rules);
    ("sustainability_rules", sustainability_rules) ].

(** *** Example configurations and case data *)

(** Two rules of weights 30 (repair) and 20 (replace). *)
Definition two_rules : RuleSets :=
  [ ("economic_rules",
     mkRuleSet (Some 3)
       [ mkRule "young_device" [ cond "age" "lt" (VInt 8) ]
           "recommend_repair" "Device is young" (Some 30) false;
         mkRule "costly_repair" [ cond "repair_cost" "gt" (VInt 100) ]
           "recommend_replace" "Repair is costly" (Some 20) false ]) ].

Definition young_costly_case : value :=
  VDict [ ("age", VInt 3); ("repair_cost", VInt 250) ].

(** Sparks: the second safety rule matches, the first does not. *)
Definition sparks_case : value :=
  VDict [ ("device_type", VStr "oven"); ("age", VInt 4);
          ("error_description", VStr "Sparks behind the panel") ].

(** An override rule for flagged customers, added as a custom rule. *)
Definition vip_rule : Rule :=
  mkRule "vip_customer" [ cond "vip" "equals" (VBool true) ]
    "manual_review" "Flagged customer - handled by account manager" None true.

(** Case data whose age is text. *)
Definition text_age_case : value :=
  VDict [ ("vip", VBool true); ("age", VStr "three") ].

(** Case data whose repair probability is text. *)
Definition text_probability_case : value :=
  VDict [ ("age", VInt 20); ("repair_probability", VStr "high") ].

(** Two rules of equal weight, for replace and for repair, in that order. *)
Definition tied_rules : RuleSets :=
  [ ("economic_rules",
     mkRuleSet (Some 3)
       [ mkRule "costly_repair" [ cond "repair_cost" "gt" (VInt 100) ]
           "recommend_replace" "Repair is costly" (Some 20) false;
         mkRule "young_device" [ cond "age" "lt" (VInt 8) ]
           "recommend_repair" "Device is young" (Some 20) false ]) ].

(** A membership test in a number, and a list to contain with a number in
    it. *)
Definition age_in_number : Condition := cond "age" "in_list" (VInt 5).

Definition name_contains_number : Condition :=
  mkCondition "customer.name" "contains" (VList [VInt 7]) None true.

(** A condition that compares the age with a text. *)
Definition age_above_text : Condition := cond "age" "gt" (VStr "ten").

(** A condition on a nested field. *)
Definition tier_is_gold : Condition := cond "customer.tier" "equals" (VStr "Gold").

Definition case_without_tier : value :=
  VDict [ ("age", VInt 12); ("customer", VDict [ ("name", VStr "A. Muster") ]) ].

(** [add_custom_rule], without the write to the rules file. *)
Fixpoint append_rule (rule_set : string) (rule : Rule) (rule_sets : RuleSets)
  : RuleSets :=
  match rule_sets with
  | [] => [(rule_set, mkRuleSet (Some 99) [rule])]
  | (n, rs) :: rest =>
      if String.eqb rule_set n
      then (n, mkRuleSet (priority rs) (rules rs ++ [rule])) :: rest
      else (n, rs) :: append_rule rule_set rule rest
  end.

(** The default rules with the custom override rule added. *)
Definition rules_with_vip : RuleSets := append_rule "vip_rules" vip_rule default_rules.

End Rules.

(** ** The pipeline stages ([agents.py]) *)

Module Agents.

(** A number read out of a dict: anything else makes the arithmetic that
    follows raise [TypeError]. *)
Definition to_Q (v : value) : result Q :=
  match as_number v with
  | Some q => Ok q
  | None => Raise TypeError
  end.

(** [d[k]] *)
Definition getitem (k : string) (d : pydict) : result value :=
  match lookup k d with
  | Some v => Ok v
  | None => Raise KeyError
  end.

(** *** Static tables *)

Record ErrorInfo : Type := mkError {
  description : string;
  err_repair_cost : Z;
  success_rate : Q
}.

Record BrandData : Type := mkBrand {
  common_errors : list (string * ErrorInfo);
  warranty_years : Z;
  avg_lifespan : Z
}.

Definition APPLIANCE_DATA : list (string * list (string * BrandData)) :=
  [ ("cooktop",
     [ ("V-Zug",
        mkBrand
          [ ("E26", mkError "Water in machine, pump not draining" 180 (95 # 100));
            ("F7_E3", mkError "Heating element failure" 220 (90 # 100));
            ("power_issue", mkError "No power/not turning on" 150 (85 # 100)) ]
          2 12);
       ("Miele",
        mkBrand
          [ ("heating_failure", mkError "Uneven heating" 280 (88 # 100));
            ("display_error", mkError "Display not working" 320 (75 # 100));
            ("sensor_fault", mkError "Temperature sensor malfunction" 200 (92 # 100)) ]
          2 15) ]);
    ("dishwasher",
     [ ("V-Zug",
        mkBrand
          [ ("water_leak", mkError "Water leaking from door" 160 (94 # 100));
            ("not_cleaning", mkError "Poor cleaning performance" 120 (90 # 100));
            ("pump_noise", mkError "Unusual pump noise" 240 (85 # 100)) ]
          2 10) ]);
    ("oven",
     [ ("Siemens",
        mkBrand
          [ ("door_seal", mkError "Door seal damaged" 200 (95 # 100));
            ("heating_element", mkError "Heating element burned out" 300 (88 # 100));
            ("temperature_control", mkError "Temperature not accurate" 250 (90 # 100)) ]
          2 12) ]) ].

Record Product : Type := mkProduct {
  p_brand : string;
  p_model : string;
  price : Z;
  margin : Z;
  stock : string;
  energy_rating : string;
  features : list string
}.

Definition Catalog : Type := list (string * list Product).

Definition REPLACEMENT_PRODUCTS : Catalog :=
  [ ("cooktop",
     [ mkProduct "V-Zug" "AdoraID V6000 Supreme" 2400 480 "high" "A++"
         ["Induction"; "Touch Control"; "Bridge Function"];
       mkProduct "V-Zug" "AdoraID V4000" 1800 360 "medium" "A+"
         ["Induction"; "Touch Control"];
       mkProduct "Miele" "KM 7897 FL" 2800 560 "low" "A++"
         ["Induction"; "Con@ct 2.0"; "PowerFlex"];
       mkProduct "Siemens" "EX875LYC1E" 1200 240 "high" "A"
         ["Induction"; "Touch Control"] ]);
    ("dishwasher",
     [ mkProduct "V-Zug" "Adora SL V4000" 1600 320 "high" "A+++"
         ["OptiDos"; "EcoManagement"; "Silence Program"];
       mkProduct "Miele" "G 7960 SCVi" 2200 440 "medium" "A+++"
         ["AutoDos"; "Perfect GlassCare"; "3D+ Cutlery Tray"] ]);
    ("oven",
     [ mkProduct "V-Zug" "Combair V6000 Supreme" 3200 640 "medium" "A++"
         ["Steam Cooking"; "Automatic Programs"; "Moisture Plus"];
       mkProduct "Siemens" "HB678GBS6" 1800 360 "high" "A+"
         ["PerfectBake"; "coolStart"; "ecoClean Direct"] ]) ].

(** *** The case record *)

Record TriageDecision : Type := mkTriage {
  status : string;
  route : string;
  triage_reasoning : string
}.

(** [ServiceCaseState].  The four inputs are always present.  Every other
    key is optional: [None] is an absent key.  [customer_preferences] is
    [Optional[Dict]], so a present key holds [None] or a dict.  Fields of
    type [Dict] are dicts of Python values. *)
Record ServiceCaseState : Type := mkState {
  device_type : string;
  brand : string;
  age : Z;
  error_description : string;
  customer_preferences : option (option pydict);
  triage_decision : option TriageDecision;
  repair_cost : option value;
  spare_part_availability : option value;
  customer_data : option pydict;
  device_specs : option value;
  cost_ceiling : option Q;
  sap_data : option pydict;
  salesforce_data : option pydict;
  pim_data : option pydict;
  warranty_status : option string;
  damage_classification : option string;
  repair_probability : option Q;
  repair_complexity : option string;
  technical_analysis : option pydict;
  economic_viability : option string;
  economic_reasoning : option string;
  margin_analysis : option pydict;
  replacement_value : option Z
}.

(** The record a request starts from. *)
Definition initial_case (dt br : string) (a : Z) (desc : string)
           (prefs : option (option pydict)) : ServiceCaseState :=
  mkState dt br a desc prefs None None None None None None None None None
          None None None None None None None None None.

(** [state.get(k, default)] *)
Definition or_default {A : Type} (o : option A) (dflt : A) : A :=
  match o with
  | Some a => a
  | None => dflt
  end.

(** *** Triage *)

Definition safety_keywords : list string :=
  ["smoke"; "fire"; "burning"; "electric shock"; "gas leak"].

Definition str_empty (s : string) : bool :=
  match s with EmptyString => true | _ => false end.

(** [triage_agent] *)
Definition triage_agent (state : ServiceCaseState) : TriageDecision :=
  if (str_empty (device_type state) || str_empty (brand state)
      || (age state =? 0) || str_empty (error_description state))%bool
  then mkTriage "incomplete" "manual_review" "Missing mandatory field information"
  else
    let a := age state in
    let dt := lower (device_type state) in
    let error_desc := lower (error_description state) in
    if ((a <=? 1) && str_in_list dt ["oven"; "refrigerator"])%bool
    then mkTriage "complete" "manufacturer"
           ("Device age " ++ str_of_Z a
            ++ " year(s) - likely under manufacturer warranty")
    else if a >=? 15
    then mkTriage "complete" "replacement_focus"
           ("Device age " ++ str_of_Z a ++ " years exceeds typical lifespan")
    else if any_keyword_in safety_keywords error_desc
    then mkTriage "complete" "urgent_manufacturer"
           "Safety concern detected - requires immediate manufacturer attention"
    else mkTriage "complete" "normal"
           "Standard service case - proceeding with full analysis".

(** *** Enrichment *)

(** [APPLIANCE_DATA.get(device_type, {}).get(brand, {}).get("common_errors", {})] *)
Definition known_errors (dt br : string) : list (string * ErrorInfo) :=
  match lookup br (get_default dt APPLIANCE_DATA []) with
  | Some bd => common_errors bd
  | None => []
  end.

(** The test of the matching loops of the enrichment and technical stages. *)
Definition error_matches (error_desc : string) (e : string * ErrorInfo) : bool :=
  (str_contains (lower (fst e)) error_desc
   || existsb (fun word => str_contains word error_desc)
              (split_ws (lower (description (snd e)))))%bool.

(** [simulate_sap_integration]; [jitter] is the value drawn by
    [random.randint(-50, 100)]. *)
Definition simulate_sap_integration (jitter : Z) (dt br error_desc : string)
  : pydict :=
  let matched := find (error_matches error_desc) (known_errors dt br) in
  let base :=
    match matched with
    | Some (_, info) => err_repair_cost info
    | None => 300
    end in
  let parts_availability :=
    match matched with
    | Some (_, info) =>
        if Qlt_bool (9 # 10) (success_rate info) then "high" else "medium"
    | None => "medium"
    end in
  let cost := base + jitter in
  [ ("estimated_repair_cost", VInt cost);
    ("parts_availability", VStr parts_availability);
    ("labor_cost", VFloat (inject_Z cost * (4 # 10)));
    ("parts_cost", VFloat (inject_Z cost * (6 # 10)));
    ("estimated_repair_time", VStr "2-5 business days");
    ("technician_availability", VStr "next week") ].

(** [simulate_salesforce_integration]; [customer_no] is the value drawn by
    [random.randint(10000, 99999)]. *)
Definition simulate_salesforce_integration (customer_no : Z) (br : string)
  : pydict :=
  [ ("customer_id", VStr ("CUST_" ++ str_of_Z customer_no));
    ("name", VStr "Premium Customer");
    ("customer_tier", VStr "Gold");
    ("brand_loyalty", VStr br);
    ("service_history",
     VList
       [ VDict [ ("date", VStr "2023-08-15"); ("device", VStr "Dishwasher");
                 ("issue", VStr "Pump replacement");
                 ("satisfaction", VFloat (45 # 10)) ];
         VDict [ ("date", VStr "2022-11-20"); ("device", VStr "Oven");
                 ("issue", VStr "Door seal repair");
                 ("satisfaction", VFloat (48 # 10)) ] ]);
    ("preferences",
     VDict [ ("preferred_brands", VList [VStr br; VStr "V-Zug"; VStr "Miele"]);
             ("budget_range", VStr "premium");
             ("installation_preference", VStr "professional");
             ("warranty_preference", VStr "extended") ]);
    ("last_service_satisfaction", VFloat (46 # 10));
    ("total_purchases", VInt 85000) ].

Definition sum_prices (l : list Product) : Z :=
  fold_right (fun p acc => price p + acc) 0 l.

(** [simulate_pim_integration].  The source raises [OverflowError] where
    the power or the average leaves the float range (an age of -8513 or
    less, an age or a price beyond the float range); see [plausible_age]
    and [plausible_catalog]. *)
Definition simulate_pim_integration (catalog : Catalog) (dt br : string) (a : Z)
  : pydict :=
  let original_value :=
    get_default dt [("cooktop", 2000); ("dishwasher", 1500); ("oven", 2500)] 1800 in
  let depreciation_rate := (8 # 100)%Q in
  let current_value :=
    (inject_Z original_value * Qpower (1 - depreciation_rate) a)%Q in
  let replacement_options := get_default dt catalog [] in
  [ ("specifications",
     VDict
       [ ("original_purchase_price", VInt original_value);
         ("current_market_value",
          VFloat (Qmax current_value (inject_Z original_value * (1 # 10))));
         ("energy_rating", VStr (if a <? 5 then "A+" else "A"));
         ("installation_dimensions", VStr "60x60x85 cm");
         ("warranty_remaining", VInt (if a <=? 2 then Z.max 0 (2 - a) else 0)) ]);
    ("market_analysis",
     VDict
       [ ("replacement_models_available",
          VInt (Z.of_nat (List.length replacement_options)));
         ("average_replacement_cost",
          match replacement_options with
          | [] => VInt 2000
          | _ => VFloat (inject_Z (sum_prices replacement_options)
                         / inject_Z (Z.of_nat (List.length replacement_options)))
          end);
         ("inventory_status", VStr "good");
         ("delivery_time", VStr "1-2 weeks") ]);
    ("sustainability_score", VInt (Z.max (10 - a) 1)) ].

(** The partial update returned by [data_enrichment_agent]. *)
Record Enrichment : Type := mkEnrichment {
  e_repair_cost : value;
  e_spare_part_availability : value;
  e_customer_data : pydict;
  e_device_specs : value;
  e_cost_ceiling : Q;
  e_sap_data : pydict;
  e_salesforce_data : pydict;
  e_pim_data : pydict
}.

(** The cost ceiling computed from the device value read by the stage. *)
Definition cost_ceiling_of (a : Z) (device_value : Q) : Q :=
  if a >? 10
  then Qmin (Qmax (device_value * (6 # 10)) 1800) 2500
  else Qmin (device_value * (6 # 10)) 800.

(** [data_enrichment_agent]; [jitter] and [customer_no] are the two random
    draws of the stage, in the order they are made. *)
Definition data_enrichment_agent (catalog : Catalog) (jitter customer_no : Z)
           (state : ServiceCaseState) : result Enrichment :=
  let dt := lower (device_type state) in
  let br := brand state in
  let a := age state in
  let error_desc := lower (error_description state) in
  let sap := simulate_sap_integration jitter dt br error_desc in
  let salesforce := simulate_salesforce_integration customer_no br in
  let pim := simulate_pim_integration catalog dt br a in
  device_value <- to_Q (get_default "current_market_value" pim (VInt 1000)) ;;
  let ceiling := cost_ceiling_of a device_value in
  cost <- getitem "estimated_repair_cost" sap ;;
  avail <- getitem "parts_availability" sap ;;
  specs <- getitem "specifications" pim ;;
  Ok {| e_repair_cost := cost;
        e_spare_part_availability := avail;
        e_customer_data := salesforce;
        e_device_specs := specs;
        e_cost_ceiling := ceiling;
        e_sap_data := sap;
        e_salesforce_data := salesforce;
        e_pim_data := pim |}.

(** *** Technical analysis *)

Record Technical : Type := mkTechnical {
  t_warranty_status : string;
  t_damage_classification : string;
  t_repair_probability : Q;
  t_repair_complexity : string;
  t_technical_analysis : pydict
}.

Definition electrical_keywords : list string :=
  ["power"; "display"; "electric"; "electronic"; "circuit"; "control"].

Definition mechanical_keywords : list string :=
  ["leak"; "pump"; "door"; "seal"; "heating"; "noise"; "vibration"].

(** [technical_analyst_agent].  The source raises [OverflowError] where an
    age above 5 is beyond the float range; see [float_sized]. *)
Definition technical_analyst_agent (state : ServiceCaseState) : Technical :=
  let dt := lower (device_type state) in
  let br := brand state in
  let a := age state in
  let error_desc := lower (error_description state) in
  let wy :=
    match lookup br (get_default dt APPLIANCE_DATA []) with
    | Some bd => warranty_years bd
    | None => 2
    end in
  let warranty := if a <=? wy then "under_warranty" else "out_of_warranty" in
  let damage_type :=
    if any_keyword_in electrical_keywords error_desc then "electrical"
    else if any_keyword_in mechanical_keywords error_desc then "mechanical"
    else "unknown" in
  let matched := find (error_matches error_desc) (known_errors dt br) in
  let base :=
    match matched with
    | Some (_, info) => success_rate info
    | None => (75 # 100)%Q
    end in
  let age_factor :=
    if a >? 5
    then Qmax (1 # 2) (1 - inject_Z (a - 5) * (5 # 100))
    else 1%Q in
  let probability := (base * age_factor)%Q in
  let complexity :=
    if Qlt_bool (9 # 10) probability then "low"
    else if Qlt_bool (7 # 10) probability then "medium"
    else "high" in
  let timeline :=
    if Qlt_bool (9 # 10) probability then "1-2 days"
    else if Qlt_bool (7 # 10) probability then "3-5 days"
    else "1-2 weeks" in
  {| t_warranty_status := warranty;
     t_damage_classification := damage_type;
     t_repair_probability := probability;
     t_repair_complexity := complexity;
     t_technical_analysis :=
       [ ("matched_error_pattern",
          match matched with Some (code, _) => VStr code | None => VNone end);
         ("age_impact_factor", VFloat age_factor);
         ("estimated_timeline", VStr timeline);
         ("required_expertise",
          VStr (if String.eqb complexity "high" then "specialist" else "standard"));
         ("parts_complexity",
          VStr (if String.eqb damage_type "mechanical" then "standard"
                else "electronic"));
         ("risk_assessment",
          VStr (if Qlt_bool (8 # 10) probability then "low" else "medium")) ] |}.

(** *** Economic analysis *)

Record Economic : Type := mkEconomic {
  ec_economic_viability : string;
  ec_economic_reasoning : string;
  ec_margin_analysis : pydict;
  ec_replacement_value : Z
}.

(** [obj.get] on something that has to be a dict. *)
Definition dict_of (v : value) : result pydict :=
  match v with
  | VDict d => Ok d
  | _ => Raise AttributeError
  end.

(** [(margin / price) * 100] *)
Definition margin_percentage (p : Product) : result Q :=
  if price p =? 0 then Raise ZeroDivisionError
  else Ok (inject_Z (margin p) / inject_Z (price p) * 100)%Q.

Fixpoint margin_table (l : list Product) : result (list (Product * Q)) :=
  match l with
  | [] => Ok []
  | p :: l' =>
      m <- margin_percentage p ;;
      rest <- margin_table l' ;;
      Ok ((p, m) :: rest)
  end.

(** [economic_analyst_agent].  Besides the exceptions modelled here, the
    source raises [OverflowError] where the age, the repair cost, the
    market value or a number of the catalog is an integer beyond the float
    range; see [float_sized] and [plausible_catalog]. *)
Definition economic_analyst_agent (catalog : Catalog) (state : ServiceCaseState)
  : result Economic :=
  let ceiling := or_default (cost_ceiling state) 500%Q in
  specs <- dict_of (or_default (device_specs state) (VDict [])) ;;
  let cdata := or_default (customer_data state) [] in
  let dt := lower (device_type state) in
  let a := age state in
  let current_value := get_default "current_market_value" specs (VInt 1000) in
  let replacement_options := get_default dt catalog [] in
  cost <- to_Q (or_default (repair_cost state) (VInt 0)) ;;
  repair_roi <-
    (if Qlt_bool 0 cost
     then cv <- to_Q current_value ;; Ok ((cv - cost) / cost)%Q
     else Ok 0%Q) ;;
  margins <- margin_table replacement_options ;;
  let replacement_margins :=
    py_sorted (fun x y => Qle_bool (snd y) (snd x)) margins in
  let best_replacement_margin :=
    match replacement_margins with
    | (p, _) :: _ => margin p
    | [] => 0
    end in
  cv <- to_Q current_value ;;
  let repair_within_ceiling := Qle_bool cost ceiling in
  let repair_cost_ratio := if Qlt_bool 0 cv then (cost / cv)%Q else 1%Q in
  let tier := get_default "customer_tier" cdata (VStr "Standard") in
  let device_age_factor := (inject_Z a / 15)%Q in
  let sustainability_impact := a <? 8 in
  let score :=
    (if repair_within_ceiling then 40 else 0)
    + (if Qlt_bool repair_cost_ratio (5 # 10) then 25
       else if Qlt_bool repair_cost_ratio (8 # 10) then 10 else 0)
    + (if py_eq tier (VStr "Gold") then 15
       else if py_eq tier (VStr "Silver") then 10 else 0)
    + (if sustainability_impact then 10 else 0)
    + (if Qlt_bool device_age_factor (5 # 10) then 10 else 0) in
  Ok {| ec_economic_viability := if score >=? 60 then "repair" else "replace";
        ec_economic_reasoning :=
          if score >=? 60 then "Economic analysis favors repair"
          else "Economic analysis favors replacement (margin opportunity: "
               ++ str_of_Z best_replacement_margin ++ " CHF)";
        ec_margin_analysis :=
          [ ("repair_roi", VFloat repair_roi);
            ("best_replacement_margin", VInt best_replacement_margin);
            ("economic_score", VInt score);
            ("cost_effectiveness_ratio", VFloat repair_cost_ratio) ];
        ec_replacement_value :=
          match replacement_margins with
          | (p, _) :: _ => price p
          | [] => 2000
          end |}.

(** *** The replacement ranker *)

(** [round(x)] to the nearest integer, ties to even. *)
Definition round_half_even (q : Q) : Z :=
  let f := Qfloor q in
  let r := (q - inject_Z f)%Q in
  if Qlt_bool r (1 # 2) then f
  else if Qlt_bool (1 # 2) r then f + 1
  else if Z.even f then f else f + 1.

(** [round(x, ndigits)] *)
Definition py_round (q : Q) (ndigits : Z) : Q :=
  (inject_Z (round_half_even (q * Qpower 10 ndigits)) / Qpower 10 ndigits)%Q.

Record Offer : Type := mkOffer {
  product : Product;
  recommendation_score : Q;
  estimated_delivery : string;
  installation_included : bool;
  offer_warranty_years : Z;
  trade_in_value : Z;
  financing_available : bool;
  recommended_reason : string;
  total_cost_of_ownership : pydict;
  sustainability_impact : pydict;
  ranking_position : option Z;
  recommendation_confidence : option string
}.

(** [get_delivery_estimate] *)
Definition get_delivery_estimate (stock_level : string) : string :=
  get_default stock_level
    [ ("high", "1-2 weeks"); ("medium", "2-3 weeks");
      ("low", "3-4 weeks"); ("out_of_stock", "4-6 weeks") ]
    "2-3 weeks".

(** [get_warranty_years] *)
Definition get_warranty_years (br : string) : Z :=
  if str_in_list br ["V-Zug"; "Miele"] then 3 else 2.

(** [int(x)]: truncation towards zero. *)
Definition py_int (q : Q) : Z := Z.quot (Qnum q) (Zpos (Qden q)).

(** [estimate_trade_in_value].  The source raises [OverflowError] where
    the power or its product with the base value leaves the float range
    (an age of -4335 or less, of -4333 or less for the base value 300, an
    age beyond the float range); see [plausible_age]. *)
Definition estimate_trade_in_value (device_age : Z) (dt : string) : Z :=
  let base_value :=
    get_default dt [("cooktop", 200); ("oven", 300); ("dishwasher", 250)] 200 in
  let depreciation_rate := (15 # 100)%Q in
  py_int (inject_Z base_value
          * Qmax (1 # 10) (Qpower (1 - depreciation_rate) device_age))%Q.

Definition efficient (p : Product) : bool :=
  str_in_list (energy_rating p) ["A+++"; "A++"].

(** [calculate_tco] *)
Definition calculate_tco (p : Product) (current_age : Z) : pydict :=
  let annual_energy_cost := if efficient p then 120 else 150 in
  let annual_maintenance := 50 in
  let tco_10_years := price p + (annual_energy_cost + annual_maintenance) * 10 in
  [ ("initial_cost", VInt (price p));
    ("annual_operating_cost", VInt (annual_energy_cost + annual_maintenance));
    ("tco_10_years", VInt tco_10_years);
    ("monthly_cost", VFloat (py_round (inject_Z tco_10_years / 120) 2)) ].

(** [get_sustainability_score] *)
Definition get_sustainability_score (p : Product) (current_age : Z) : pydict :=
  let energy_savings := if efficient p then 30 else 15 in
  [ ("energy_savings_percent", VInt energy_savings);
    ("co2_reduction_kg_year", VFloat (inject_Z energy_savings * (25 # 10)));
    ("device_lifespan_extension", VInt (Z.max 0 (12 - current_age)));
    ("recyclability_score",
     VStr (if str_in_list (p_brand p) ["V-Zug"; "Miele"] then "High" else "Medium")) ].

(** [get_recommendation_reason] *)
Definition get_recommendation_reason (p : Product) (score : Q) (preferences : pydict)
  : result string :=
  preferred <- py_in (VStr (p_brand p))
                     (get_default "preferred_brands" preferences (VList [])) ;;
  let reasons :=
    (if preferred then ["Matches your brand preference"] else [])
    ++ (if String.eqb (stock p) "high" then ["Available for quick delivery"] else [])
    ++ (if efficient p then ["Excellent energy efficiency"] else [])
    ++ (if Qlt_bool 80 score then ["Outstanding overall value"]
        else if Qlt_bool 60 score then ["Great value proposition"] else [])
    ++ (if margin p >? 400 then ["Competitive pricing"] else []) in
  let reasons :=
    match reasons with
    | [] => ["Good fit for your requirements"]
    | _ => reasons
    end in
  Ok (String.concat " • " (firstn 3 reasons)).

Definition max_margin_of (l : list Product) : Z :=
  match l with
  | [] => 0
  | p :: l' => fold_left (fun m x => Z.max m (margin x)) l' (margin p)
  end.

(** The body of the scoring loop of [generate_replacement_options], for one
    product of [budget_filtered] (which is not empty inside the loop). *)
Definition score_product (budget_filtered : list Product)
           (customer_preferences : option pydict) (customer_data : pydict)
           (current_device_age : Z) (dt : string) (p : Product) : result Offer :=
  match customer_preferences with
  | None => Raise AttributeError
  | Some preferences =>
      let customer_brands :=
        get_default "preferred_brands" preferences
          (get_default "brand_loyalty" customer_data (VList [])) in
      preferred <- py_in (VStr (p_brand p)) customer_brands ;;
      let brand_score := if preferred then 25%Q else 10%Q in
      let max_margin := max_margin_of budget_filtered in
      let margin_score :=
        if max_margin >? 0
        then (inject_Z (margin p) / inject_Z max_margin * 25)%Q
        else 0%Q in
      let stock_score :=
        get_default (stock p)
          [("high", 20); ("medium", 12); ("low", 5); ("out_of_stock", 0)] 0 in
      let energy_score :=
        get_default (energy_rating p)
          [("A+++", 15); ("A++", 12); ("A+", 9); ("A", 6); ("B", 3)] 0 in
      let upgrade_score :=
        if current_device_age >? 8 then 10
        else if current_device_age >? 4 then 6 else 2 in
      let avg_price :=
        (inject_Z (sum_prices budget_filtered)
         / inject_Z (Z.of_nat (List.length budget_filtered)))%Q in
      let price_score :=
        if Qle_bool (inject_Z (price p)) (avg_price * (9 # 10)) then 5
        else if Qle_bool (inject_Z (price p)) (avg_price * (11 # 10)) then 3
        else 1 in
      let score :=
        (brand_score + margin_score + inject_Z stock_score
         + inject_Z energy_score + inject_Z upgrade_score
         + inject_Z price_score)%Q in
      reason <- get_recommendation_reason p score preferences ;;
      Ok {| product := p;
            recommendation_score := py_round score 1;
            estimated_delivery := get_delivery_estimate (stock p);
            installation_included := true;
            offer_warranty_years := get_warranty_years (p_brand p);
            trade_in_value := estimate_trade_in_value current_device_age dt;
            financing_available := price p >? 1500;
            recommended_reason := reason;
            total_cost_of_ownership := calculate_tco p current_device_age;
            sustainability_impact := get_sustainability_score p current_device_age;
            ranking_position := None;
            recommendation_confidence := None |}
  end.

(** The scoring loop: the first product that raises ends it. *)
Fixpoint score_all (f : Product -> result Offer) (l : list Product)
  : result (list Offer) :=
  match l with
  | [] => Ok []
  | p :: l' =>
      o <- f p ;;
      rest <- score_all f l' ;;
      Ok (o :: rest)
  end.

Definition confidence_label (score : Q) : string :=
  if Qlt_bool 70 score then "High"
  else if Qlt_bool 50 score then "Medium"
  else "Standard".

(** [for i, product in enumerate(...)]: the rank and the label. *)
Fixpoint annotate (i : Z) (l : list Offer) : list Offer :=
  match l with
  | [] => []
  | o :: l' =>
      {| product := product o;
         recommendation_score := recommendation_score o;
         estimated_delivery := estimated_delivery o;
         installation_included := installation_included o;
         offer_warranty_years := offer_warranty_years o;
         trade_in_value := trade_in_value o;
         financing_available := financing_available o;
         recommended_reason := recommended_reason o;
         total_cost_of_ownership := total_cost_of_ownership o;
         sustainability_impact := sustainability_impact o;
         ranking_position := Some (i + 1);
         recommendation_confidence :=
           Some (confidence_label (recommendation_score o)) |}
      :: annotate (i + 1) l'
  end.

(** [sort(key=recommendation_score, reverse=True)]: stable, highest first. *)
Definition sort_by_score (l : list Offer) : list Offer :=
  py_sorted (fun x y => Qle_bool (recommendation_score y) (recommendation_score x)) l.

(** The products that pass the budget filter. *)
Definition budget_filter (catalog : Catalog) (dt : string) (ceiling : Q) (a : Z)
  : list Product :=
  let flexibility_multiplier := if a >? 10 then 2%Q else (15 # 10)%Q in
  let max_price := (ceiling * flexibility_multiplier)%Q in
  filter (fun p => Qle_bool (inject_Z (price p)) max_price)
         (get_default dt catalog []).

(** [generate_replacement_options] *)
Definition generate_replacement_options (catalog : Catalog)
           (state : ServiceCaseState) : result (list Offer) :=
  let dt := lower (device_type state) in
  let cdata := or_default (customer_data state) [] in
  let preferences := or_default (customer_preferences state) (Some []) in
  let ceiling := or_default (cost_ceiling state) 2000%Q in
  let current_device_age := age state in
  let budget_filtered := budget_filter catalog dt ceiling current_device_age in
  scored_products <-
    score_all (score_product budget_filtered preferences cdata
                             current_device_age dt)
              budget_filtered ;;
  Ok (annotate 0 (firstn 3 (sort_by_score scored_products))).

(** *** Recommendation synthesis *)

(** [generate_repair_order]; [order_no] is the value drawn by
    [random.randint(100000, 999999)], [now] is
    [datetime.now().isoformat()]. *)
Definition generate_repair_order (order_no : Z) (now : string)
           (state : ServiceCaseState) : pydict :=
  let sap := or_default (sap_data state) [] in
  let tech := or_default (technical_analysis state) [] in
  [ ("order_id", VStr ("REP_" ++ str_of_Z order_no));
    ("device_info",
     VDict [ ("type", VStr (device_type state));
             ("brand", VStr (brand state));
             ("age", VInt (age state));
             ("error_description", VStr (error_description state)) ]);
    ("cost_breakdown",
     VDict [ ("parts_cost", get_default "parts_cost" sap (VInt 0));
             ("labor_cost", get_default "labor_cost" sap (VInt 0));
             ("total_cost", or_default (repair_cost state) (VInt 0)) ]);
    ("timeline",
     VDict [ ("estimated_duration",
              get_default "estimated_timeline" tech (VStr "3-5 days"));
             ("technician_availability",
              get_default "technician_availability" sap (VStr "next week"));
             ("parts_delivery", VStr "2-3 days") ]);
    ("warranty_info",
     VDict [ ("status", VStr (or_default (warranty_status state) "out_of_warranty"));
             ("repair_warranty", VStr "6 months");
             ("coverage", VStr "parts and labor") ]);
    ("priority", VStr "standard");
    ("technician_assignment",
     VDict [ ("skill_level_required", get_default "complexity" tech (VStr "standard"));
             ("estimated_duration",
              get_default "estimated_timeline" tech (VStr "3-5 days"));
             ("priority",
              VStr (if str_contains "urgent" (lower (error_description state))
                    then "high" else "standard")) ]);
    ("quality_assurance",
     VDict [ ("follow_up_required", VBool true);
             ("customer_satisfaction_survey", VBool true);
             ("warranty_registration", VBool true) ]);
    ("special_instructions",
     VStr "Follow standard safety protocols. Customer preferred contact: email");
    ("created_timestamp", VStr now);
    ("status", VStr "created") ].

(** The partial update returned by [recommendation_engine_agent] (the
    justification text and the transparency bundle are left out). *)
Record Recommendation : Type := mkRecommendation {
  recommendation : string;
  repair_order : option pydict;
  replacement_options : list Offer;
  confidence_score : Q;
  override_reason : option string
}.

(** The confidence computed by the stage. *)
Definition confidence_of (economic_score repair_probability : Q) : Q :=
  let technical_confidence := (repair_probability * 100)%Q in
  let final_score := (economic_score * (6 # 10) + technical_confidence * (4 # 10))%Q in
  Qmin (final_score / 100) (95 # 100).

(** [customer_data.get("customer_tier") == "Gold"] *)
Definition is_gold (cdata : pydict) : bool :=
  match lookup "customer_tier" cdata with
  | Some v => py_eq v (VStr "Gold")
  | None => false
  end.

(** The override logic: the forced recommendation and its reason. *)
Definition override_for (probability : Q) (gold : bool) : option (string * string) :=
  if Qlt_bool probability (6 # 10)
  then Some ("replace", "Low technical success probability")
  else if (Qlt_bool (9 # 10) probability && gold)%bool
  then Some ("repair", "High success probability with premium customer")
  else None.

(** [final_recommendation] *)
Definition final_recommendation_of (state : ServiceCaseState) : string :=
  let viability := or_default (economic_viability state) "repair" in
  let probability := or_default (repair_probability state) (75 # 100)%Q in
  let cdata := or_default (customer_data state) [] in
  match override_for probability (is_gold cdata) with
  | Some (forced, _) => forced
  | None => viability
  end.

(** [recommendation_engine_agent] *)
Definition recommendation_engine_agent (catalog : Catalog) (order_no : Z)
           (now : string) (state : ServiceCaseState) : result Recommendation :=
  let probability := or_default (repair_probability state) (75 # 100)%Q in
  let margins := or_default (margin_analysis state) [] in
  let cdata := or_default (customer_data state) [] in
  economic_score <- to_Q (get_default "economic_score" margins (VInt 50)) ;;
  let confidence := confidence_of economic_score probability in
  let final_recommendation := final_recommendation_of state in
  let reason := option_map snd (override_for probability (is_gold cdata)) in
  if String.eqb final_recommendation "repair"
  then Ok {| recommendation := final_recommendation;
             repair_order := Some (generate_repair_order order_no now state);
             replacement_options := [];
             confidence_score := confidence;
             override_reason := reason |}
  else
    options <- generate_replacement_options catalog state ;;
    Ok {| recommendation := final_recommendation;
          repair_order := None;
          replacement_options := options;
          confidence_score := confidence;
          override_reason := reason |}.

(** *** The workflow ([graph.py]) *)

Definition set_triage (d : TriageDecision) (s : ServiceCaseState)
  : ServiceCaseState :=
  mkState (device_type s) (brand s) (age s) (error_description s)
          (customer_preferences s) (Some d) (repair_cost s)
          (spare_part_availability s) (customer_data s) (device_specs s)
          (cost_ceiling s) (sap_data s) (salesforce_data s) (pim_data s)
          (warranty_status s) (damage_classification s) (repair_probability s)
          (repair_complexity s) (technical_analysis s) (economic_viability s)
          (economic_reasoning s) (margin_analysis s) (replacement_value s).

Definition set_enrichment (e : Enrichment) (s : ServiceCaseState)
  : ServiceCaseState :=
  mkState (device_type s) (brand s) (age s) (error_description s)
          (customer_preferences s) (triage_decision s) (Some (e_repair_cost e))
          (Some (e_spare_part_availability e)) (Some (e_customer_data e))
          (Some (e_device_specs e)) (Some (e_cost_ceiling e))
          (Some (e_sap_data e)) (Some (e_salesforce_data e)) (Some (e_pim_data e))
          (warranty_status s) (damage_classification s) (repair_probability s)
          (repair_complexity s) (technical_analysis s) (economic_viability s)
          (economic_reasoning s) (margin_analysis s) (replacement_value s).

(** The updates of the two analyses write disjoint keys. *)
Definition set_analyses (t : Technical) (ec : Economic) (s : ServiceCaseState)
  : ServiceCaseState :=
  mkState (device_type s) (brand s) (age s) (error_description s)
          (customer_preferences s) (triage_decision s) (repair_cost s)
          (spare_part_availability s) (customer_data s) (device_specs s)
          (cost_ceiling s) (sap_data s) (salesforce_data s) (pim_data s)
          (Some (t_warranty_status t)) (Some (t_damage_classification t))
          (Some (t_repair_probability t)) (Some (t_repair_complexity t))
          (Some (t_technical_analysis t)) (Some (ec_economic_viability ec))
          (Some (ec_economic_reasoning ec)) (Some (ec_margin_analysis ec))
          (Some (ec_replacement_value ec)).

(** [route_after_triage] *)
Definition route_after_triage (state : ServiceCaseState) : string :=
  let r :=
    match triage_decision state with
    | Some d => route d
    | None => "normal"
    end in
  if str_in_list r ["manufacturer"; "urgent_manufacturer"; "manual_review"] then r
  else if String.eqb r "replacement_focus" then "data_enrichment"
  else "normal".

(** The keys of the final state that hold the decision; [None] is an absent
    key. *)
Record Final : Type := mkFinal {
  f_recommendation : string;
  f_repair_order : option pydict;
  f_replacement_options : option (list Offer);
  f_confidence_score : Q
}.

(** The random draws and the clock reading of one run. *)
Record World : Type := mkWorld {
  jitter : Z;
  customer_no : Z;
  order_no : Z;
  now : string
}.

(** Enrichment, then the two analyses on the enriched record: the record
    that reaches recommendation synthesis. *)
Definition analyse (catalog : Catalog) (w : World) (s1 : ServiceCaseState)
  : result ServiceCaseState :=
  e <- data_enrichment_agent catalog (jitter w) (customer_no w) s1 ;;
  let s2 := set_enrichment e s1 in
  let t := technical_analyst_agent s2 in
  ec <- economic_analyst_agent catalog s2 ;;
  Ok (set_analyses t ec s2).

(** The compiled workflow: triage, then a terminal node or the full chain. *)
Definition run_workflow (catalog : Catalog) (w : World)
           (state : ServiceCaseState) : result Final :=
  let s1 := set_triage (triage_agent state) state in
  let node := route_after_triage s1 in
  if str_in_list node ["manufacturer"; "urgent_manufacturer"]
  then Ok (mkFinal "manufacturer_referral" None None 1%Q)
  else if String.eqb node "manual_review"
  then Ok (mkFinal "manual_review" None None 0%Q)
  else
    s3 <- analyse catalog w s1 ;;
    r <- recommendation_engine_agent catalog (order_no w) (now w) s3 ;;
    Ok (mkFinal (recommendation r) (repair_order r)
                (Some (replacement_options r)) (confidence_score r)).

(** The exception handler of [process_service_case] ([main.py]) around the
    workflow: an exception becomes the error outcome, whose two artifacts
    keep their default [None]. *)
Definition handled_workflow (catalog : Catalog) (w : World)
           (state : ServiceCaseState) : Final :=
  match run_workflow catalog w state with
  | Ok f => f
  | Raise _ => mkFinal "error" None None 0%Q
  end.

(** *** Vocabulary of the statements about the pipeline *)

(** The four inputs are non-empty and the age is not zero. *)
Definition valid_inputs (state : ServiceCaseState) : Prop :=
  device_type state <> "" /\ brand state <> "" /\ age state <> 0
  /\ error_description state <> "".

(** Something [in] can be asked of: a list or a text. *)
Definition brand_collection (v : value) : Prop :=
  match v with
  | VList _ | VStr _ => True
  | _ => False
  end.

(** The preferences are a dict (or absent), and the preferred brands the
    ranker reads from them or from the customer data are a list or a
    text. *)
Definition usable_preferences (state : ServiceCaseState) : Prop :=
  exists preferences,
    or_default (customer_preferences state) (Some []) = Some preferences
    /\ brand_collection
         (get_default "preferred_brands" preferences
            (get_default "brand_loyalty" (or_default (customer_data state) [])
                         (VList []))).

(** An integer far inside the range of a float (the largest float is just
    under 2^1024): it converts to a float, and none of the products and
    quotients the stages form with it leaves the float range. *)
Definition float_sized (n : Z) : Prop := Z.abs n <= 2 ^ 1000.

(** A device age from 0 on that is float-sized. *)
Definition plausible_age (a : Z) : Prop := 0 <= a /\ float_sized a.

(** The prices and margins of the catalog are float-sized. *)
Definition plausible_catalog (catalog : Catalog) : Prop :=
  Forall (fun entry =>
            Forall (fun p => float_sized (price p) /\ float_sized (margin p))
                   (snd entry))
         catalog.

(** The three draws of a run are in the ranges they are drawn from:
    [random.randint(-50, 100)], [random.randint(10000, 99999)] and
    [random.randint(100000, 999999)]. *)
Definition drawn (w : World) : Prop :=
  -50 <= jitter w <= 100
  /\ 10000 <= customer_no w <= 99999
  /\ 100000 <= order_no w <= 999999.

(** [a] comes before [b] in the list. *)
Definition in_order {A : Type} (a b : A) (l : list A) : Prop :=
  exists l1 l2 l3, l = l1 ++ a :: l2 ++ b :: l3.

(** Highest score first, equal scores allowed. *)
Definition descending (offers : list Offer) : Prop :=
  StronglySorted
    (fun x y => (recommendation_score y <= recommendation_score x)%Q) offers.


(** Two repair orders that differ at most in the order number and the
    timestamp. *)
Definition same_order_up_to_stamp (o1 o2 : option pydict) : Prop :=
  match o1, o2 with
  | Some d1, Some d2 =>
      forall k, k <> "order_id" -> k <> "created_timestamp" ->
                lookup k d1 = lookup k d2
  | None, None => True
  | _, _ => False
  end.

(** *** Example records *)

Definition world0 : World := mkWorld 0 12345 100000 "2024-01-01T00:00:00".

Definition smoking_old_cooktop : ServiceCaseState :=
  initial_case "cooktop" "Miele" 15 "Smoke coming from unit" None.

Definition smoking_new_oven : ServiceCaseState :=
  initial_case "oven" "Siemens" 1 "Smoke coming from unit" None.

Definition smoking_cooktop : ServiceCaseState :=
  initial_case "cooktop" "Miele" 1 "Smoke coming from unit, burning smell" None.

Definition young_cooktop : ServiceCaseState :=
  initial_case "cooktop" "V-Zug" 3 "F7 E3 heating element not working" None.

Definition noisy_dishwasher : ServiceCaseState :=
  initial_case "dishwasher" "Bosch" 10 "strange sound" None.

Definition old_oven (prefs : option (option pydict)) : ServiceCaseState :=
  initial_case "oven" "Siemens" 15 "Complete control board failure" prefs.

(** Two ovens that differ in brand and model only. *)
Definition twin_catalog : Catalog :=
  [ ("oven",
     [ mkProduct "Bosch" "HBG 675" 1500 300 "high" "A+" ["Pyrolytic"];
       mkProduct "Neff" "B 57" 1500 300 "high" "A+" ["Slide and Hide"] ]) ].

End Agents.

(** ** The rule summary ([get_rule_summary]) *)

Module RuleSummary.
Import Rules.

(** [d[k] = v] *)
Fixpoint dict_set {A : Type} (k : string) (v : A) (d : list (string * A))
  : list (string * A) :=
  match d with
  | [] => [(k, v)]
  | (k', v') :: d' =>
      if String.eqb k k' then (k', v) :: d' else (k', v') :: dict_set k v d'
  end.

Record SetSummary : Type := mkSetSummary {
  ss_priority : Z;
  ss_rule_count : Z;
  ss_rules : list string
}.

Record Summary : Type := mkSummary {
  sm_version : string;
  sm_last_updated : string;
  sm_rule_sets : list (string * SetSummary);
  sm_total_rules : Z
}.

(** The entry written for one rule set. *)
Definition summarize_set (rule_set : RuleSet) : SetSummary :=
  {| ss_priority := match priority rule_set with Some p => p | None => 999 end;
     ss_rule_count := Z.of_nat (List.length (rules rule_set));
     ss_rules := map name (rules rule_set) |}.

(** [get_rule_summary]; [version] and [last_updated] are the two other keys
    of [self.rules], [None] when absent. *)
Definition get_rule_summary (version last_updated : option string)
           (rule_sets : RuleSets) : Summary :=
  let step (acc : list (string * SetSummary) * Z) (item : string * RuleSet) :=
    (dict_set (fst item) (summarize_set (snd item)) (fst acc),
     snd acc + Z.of_nat (List.length (rules (snd item)))) in
  let out := fold_left step rule_sets ([], 0) in
  {| sm_version := match version with Some v => v | None => "unknown" end;
     sm_last_updated := match last_updated with Some v => v | None => "unknown" end;
     sm_rule_sets := fst out;
     sm_total_rules := snd out |}.

(** The written order of the rule sets is already ascending in priority. *)
Definition ascending_as_written (rule_sets : RuleSets) : Prop :=
  Sorted (fun x y => priority_of x <= priority_of y) rule_sets.

(** A text with a dot in it. *)
Fixpoint has_dot (s : string) : bool :=
  match s with
  | EmptyString => false
  | String c s' => (Ascii.eqb c "."%char || has_dot s')%bool
  end.

(** The four tallies are in place, none negative, and add up to the total
    weight. *)
Definition tallies_ok (st : LoopState) : Prop :=
  exists a b c d,
    recommendation_weights st =
    [("repair", a); ("replace", b); ("manufacturer", c); ("manual", d)]
    /\ 0 <= a /\ 0 <= b /\ 0 <= c /\ 0 <= d
    /\ total_weight st = a + b + c + d.

(** The number of rules in a list of rule sets. *)
Definition rule_total (rule_sets : RuleSets) : Z :=
  fold_right (fun item n => Z.of_nat (List.length (rules (snd item))) + n)
             0 rule_sets.

(** The entries of [applied_rules] for the rules of the list that match. *)
Definition matching_entries (py_repr : value -> string) (case_data : value)
           (entries : list (string * Rule)) : list AppliedRule :=
  map (fun e => applied_entry (fst e) (snd e))
      (filter (fun e => fires py_repr case_data (snd e)) entries).

(** A default warranty case: the warranty rule matches and carries no
    weight. *)
Definition new_oven_case : value :=
  VDict [ ("device_type", VStr "oven"); ("age", VInt 1);
          ("error_description", VStr "door does not close") ].

(** A rule whose second condition is false and whose third would raise. *)
Definition guarded_conditions : list Condition :=
  [ cond "age" "gte" (VInt 10); cond "brand" "equals" (VStr "Miele");
    cond "age" "gt" (VStr "ten") ].

Definition old_siemens_case : value :=
  VDict [ ("age", VInt 12); ("brand", VStr "Siemens") ].

End RuleSummary.

(** ** The guard of the graph and the permissions ([graph.py],
    [integrations/microsoft_integration.py], [main.py]) *)

Module Access.
Import Agents.

(** [should_continue_to_recommendation] *)
Definition should_continue_to_recommendation (state : ServiceCaseState) : string :=
  let has_technical :=
    match repair_probability state with Some _ => true | None => false end in
  let has_economic :=
    match economic_viability state with Some _ => true | None => false end in
  if (has_technical && has_economic)%bool then "recommendation"
  else if negb has_technical then "missing_technical"
  else "missing_economic".

Definition role_mapping : list (string * string) :=
  [ ("Service-Agents", "ServiceAgent");
    ("Sales-Consultants", "SalesConsultant");
    ("Service-Managers", "ServiceManager");
    ("System-Administrators", "SystemAdmin") ].

(** The loop of [_extract_roles_from_groups]: [group.get("displayName", "")]
    is looked up in [role_mapping]; a name that cannot be hashed raises. *)
Fixpoint collect_roles (groups : list pydict) : result (list string) :=
  match groups with
  | [] => Ok []
  | group :: groups' =>
      found <-
        match get_default "displayName" group (VStr "") with
        | VStr group_name =>
            Ok (match lookup group_name role_mapping with
                | Some role => [role]
                | None => []
                end)
        | VList _ | VDict _ => Raise TypeError
        | _ => Ok []
        end ;;
      rest <- collect_roles groups' ;;
      Ok (found ++ rest)
  end.

(** [_extract_roles_from_groups] *)
Definition extract_roles_from_groups (groups : list pydict)
  : result (list string) :=
  roles <- collect_roles groups ;;
  Ok (match roles with [] => ["ServiceAgent"] | _ => roles end).

Definition permission_mapping : list (string * list string) :=
  [ ("ServiceAgent",
     ["read_customer_data"; "create_service_orders"; "view_basic_pricing"]);
    ("SalesConsultant",
     ["read_customer_data"; "create_service_orders"; "view_pricing";
      "create_opportunities"]);
    ("ServiceManager",
     ["read_customer_data"; "create_service_orders"; "view_pricing";
      "approve_orders"; "view_reports"]);
    ("SystemAdmin", ["*"]) ].

(** [s.update(l)] on a set kept as a list without repetition. *)
Fixpoint set_update (s l : list string) : list string :=
  match l with
  | [] => s
  | x :: l' => set_update (if str_in_list x s then s else s ++ [x]) l'
  end.

(** The loop of [_get_permissions_for_roles] with the set built so far.
    The order in which [list(set)] lists its elements is not fixed by
    Python; here it is the order of first insertion. *)
Fixpoint permissions_loop (all_permissions : list string) (roles : list string)
  : list string :=
  match roles with
  | [] => all_permissions
  | role :: roles' =>
      let permissions := get_default role permission_mapping [] in
      if str_in_list "*" permissions then ["*"]
      else permissions_loop (set_update all_permissions permissions) roles'
  end.

(** [_get_permissions_for_roles] *)
Definition get_permissions_for_roles (roles : list string) : list string :=
  permissions_loop [] roles.

(** The permissions [get_current_user] gives to a user with these groups. *)
Definition permissions_of_groups (groups : list pydict) : result (list string) :=
  roles <- extract_roles_from_groups groups ;;
  Ok (get_permissions_for_roles roles).

(** The test of the endpoints of [main.py]: the request goes on unless
    [perm not in user.permissions and "*" not in user.permissions]. *)
Definition permitted (perm : string) (permissions : list string) : bool :=
  (str_in_list perm permissions || str_in_list "*" permissions)%bool.

(** Some group is the administrators' group. *)
Definition has_admin_group (groups : list pydict) : Prop :=
  exists group,
    In group groups
    /\ get_default "displayName" group (VStr "") = VStr "System-Administrators".

(** Every group name can be hashed. *)
Definition hashable_names (groups : list pydict) : Prop :=
  Forall (fun group =>
            match get_default "displayName" group (VStr "") with
            | VList _ | VDict _ => False
            | _ => True
            end) groups.

(** Some role other than the administrator's lists the permission. *)
Definition listed (perm : string) : bool :=
  existsb (fun entry =>
             (negb (String.eqb (fst entry) "SystemAdmin")
              && str_in_list perm (snd entry))%bool)
          permission_mapping.

Definition sales_groups : list pydict :=
  [ [("displayName", VStr "Sales-Consultants"); ("id", VStr "g-17")];
    [("displayName", VStr "Canteen")];
    [("id", VStr "g-2")] ].

Definition admin_groups : list pydict :=
  [ [("displayName", VStr "Service-Agents")];
    [("displayName", VStr "System-Administrators")] ].

End Access.

(** ** The cost estimate of the SAP connector
    ([integrations/sap_integration.py]) *)

Module Sap.
Import Agents.

Definition upper_ascii (c : ascii) : ascii :=
  let n := nat_of_ascii c in
  if (Nat.leb 97 n && Nat.leb n 122)%bool then ascii_of_nat (n - 32) else c.

(** [s.upper()] *)
Fixpoint upper (s : string) : string :=
  match s with
  | EmptyString => EmptyString
  | String c s' => String (upper_ascii c) (upper s')
  end.

Definition base_costs : list (string * list (string * Z)) :=
  [ ("cooktop", [("V-Zug", 250); ("Miele", 280); ("Siemens", 200); ("Bosch", 190)]);
    ("oven", [("V-Zug", 320); ("Miele", 350); ("Siemens", 280); ("Bosch", 260)]);
    ("dishwasher", [("V-Zug", 220); ("Miele", 240); ("Siemens", 200); ("Bosch", 180)]) ].

Definition error_multipliers : list (string * Q) :=
  [ ("heating", 12 # 10); ("pump", 14 # 10); ("electronic", 16 # 10);
    ("display", 18 # 10); ("sensor", 11 # 10); ("seal", 8 # 10);
    ("door", 9 # 10) ].

(** The multiplier chosen by the loop: the first keyword of the table that
    the lowered description contains. *)
Definition multiplier_for (error_description : string) : Q :=
  match find (fun km => str_contains (fst km) (lower error_description))
             error_multipliers with
  | Some (_, mult) => mult
  | None => 1%Q
  end.

Definition base_cost_for (dt br : string) : Z :=
  get_default br (get_default dt base_costs []) 250.

(** [_simulate_sap_repair_costs] *)
Definition simulate_sap_repair_costs (dt br error_description : string) : pydict :=
  let base_cost := inject_Z (base_cost_for dt br) in
  let multiplier := multiplier_for error_description in
  let parts_cost := (base_cost * (6 # 10) * multiplier)%Q in
  let labor_cost := (base_cost * (4 # 10))%Q in
  let total_cost := (parts_cost + labor_cost)%Q in
  [ ("cost_breakdown",
     VDict [ ("parts_cost", VFloat (py_round parts_cost 2));
             ("labor_cost", VFloat (py_round labor_cost 2));
             ("total_cost", VFloat (py_round total_cost 2));
             ("tax_rate", VFloat (77 # 1000));
             ("total_with_tax", VFloat (py_round (total_cost * (1077 # 1000)) 2)) ]);
    ("parts_availability",
     VStr (if Qlt_bool multiplier (15 # 10) then "high" else "medium"));
    ("lead_time",
     VStr (if Qlt_bool multiplier (15 # 10) then "2-3 days" else "5-7 days"));
    ("warranty_coverage", VStr "6 months parts and labor");
    ("sap_cost_center", VStr ("CC_" ++ upper dt ++ "_" ++ br));
    ("estimated_margin", VFloat (py_round (total_cost * (25 # 100)) 2)) ].

End Sap.

(** ** Vocabulary of further statements about the pipeline *)

Module PipelineTerms.
Import Agents.

(** Some input is empty, or the age is zero. *)
Definition some_input_missing (state : ServiceCaseState) : Prop :=
  device_type state = "" \/ brand state = "" \/ age state = 0
  \/ error_description state = "".

(** The record the workflow hands to the stages after triage. *)
Definition triaged (state : ServiceCaseState) : ServiceCaseState :=
  set_triage (triage_agent state) state.

(** The preferences of the case record are absent, or a dict whose
    preferred brands, if any, are a list or a text. *)
Definition record_preferences_ok (state : ServiceCaseState) : Prop :=
  match customer_preferences state with
  | None => True
  | Some None => False
  | Some (Some preferences) =>
      match lookup "preferred_brands" preferences with
      | Some v => brand_collection v
      | None => True
      end
  end.

(** No product of the category of the record is priced at zero. *)
Definition priced (catalog : Catalog) (state : ServiceCaseState) : Prop :=
  Forall (fun p => price p <> 0)
         (get_default (lower (device_type state)) catalog []).

(** An integer, if the value is one, is float-sized. *)
Definition float_number (v : value) : Prop :=
  match v with
  | VInt n => float_sized n
  | _ => True
  end.

(** The fields the economic analysis computes with are numbers within the
    float range, and the device specification is a dict (or absent). *)
Definition numeric_fields (state : ServiceCaseState) : Prop :=
  exists specs cost value,
    or_default (device_specs state) (VDict []) = VDict specs
    /\ to_Q (or_default (repair_cost state) (VInt 0)) = Ok cost
    /\ to_Q (get_default "current_market_value" specs (VInt 1000)) = Ok value
    /\ float_number (or_default (repair_cost state) (VInt 0))
    /\ float_number (get_default "current_market_value" specs (VInt 1000)).

(** The original price of a device of the category. *)
Definition original_price (dt : string) : Z :=
  get_default dt [("cooktop", 2000); ("dishwasher", 1500); ("oven", 2500)] 1800.

(** The budget cap of the ranker for the record. *)
Definition budget_cap (state : ServiceCaseState) : Q :=
  (or_default (cost_ceiling state) 2000%Q
   * (if age state >? 10 then 2%Q else (15 # 10)%Q))%Q.

(** The products of the category that pass the budget filter of the
    ranker. *)
Definition affordable (catalog : Catalog) (state : ServiceCaseState)
  : list Product :=
  budget_filter catalog (lower (device_type state))
                (or_default (cost_ceiling state) 2000%Q) (age state).

(** The scoring of one product by the ranker on the record. *)
Definition scored_as (catalog : Catalog) (state : ServiceCaseState) (p : Product)
  : result Offer :=
  score_product (affordable catalog state)
                (or_default (customer_preferences state) (Some []))
                (or_default (customer_data state) [])
                (age state) (lower (device_type state)) p.

(** The base value of a trade-in of the category. *)
Definition trade_in_base (dt : string) : Z :=
  get_default dt [("cooktop", 200); ("oven", 300); ("dishwasher", 250)] 200.

(** A catalog with a product given away. *)
Definition gift_catalog : Catalog :=
  [ ("oven",
     [ mkProduct "Bosch" "HBG 675" 1500 300 "high" "A+" ["Pyrolytic"];
       mkProduct "Neff" "Sample" 0 0 "low" "B" [] ]) ].

Definition aging_oven : ServiceCaseState :=
  initial_case "oven" "Bosch" 7 "strange sound" None.

Definition worn_dishwasher : ServiceCaseState :=
  initial_case "dishwasher" "V-Zug" 13 "water leaking from door" None.

End PipelineTerms.

(** * Properties *)

(** ** Stable sorting *)

Section StableSortFacts.
Context {A : Type} (le : A -> A -> bool).

Lemma insert_stable_perm (x : A) (l : list A) :
  Permutation (x :: l) (insert_stable le x l).
Proof.
  induction l as [|y l IH]; simpl.
  - apply Permutation_refl.
  - destruct (le x y).
    + apply Permutation_refl.
    + eapply perm_trans; [apply perm_swap|].
      apply perm_skip, IH.
Qed.

Lemma py_sorted_perm (l : list A) : Permutation l (py_sorted le l).
Proof.
  induction l as [|x l IH]; simpl.
  - constructor.
  - eapply perm_trans; [apply perm_skip, IH|].
    apply insert_stable_perm.
Qed.

Lemma py_sorted_length (l : list A) :
  List.length (py_sorted le l) = List.length l.
Proof. symmetry. apply Permutation_length, py_sorted_perm. Qed.

Hypothesis le_total : forall x y, le x y = true \/ le y x = true.
Hypothesis le_trans :
  forall x y z, le x y = true -> le y z = true -> le x z = true.

Lemma insert_stable_sorted (x : A) (l : list A) :
  StronglySorted (fun a b => le a b = true) l ->
  StronglySorted (fun a b => le a b = true) (insert_stable le x l).
Proof.
  induction 1 as [|y l Hs IH Hall]; simpl.
  - repeat constructor.
  - destruct (le x y) eqn:E.
    + constructor; [constructor; assumption|].
      constructor; [assumption|].
      eapply Forall_impl; [|exact Hall].
      intros z Hz. eapply le_trans; eassumption.
    + constructor; [assumption|].
      assert (Hyx : le y x = true)
        by (destruct (le_total x y) as [H|H]; [congruence|exact H]).
      eapply Permutation_Forall; [apply insert_stable_perm|].
      constructor; assumption.
Qed.

Lemma py_sorted_sorted (l : list A) :
  StronglySorted (fun a b => le a b = true) (py_sorted le l).
Proof.
  induction l as [|x l IH]; simpl.
  - constructor.
  - apply insert_stable_sorted, IH.
Qed.
End StableSortFacts.

(** The sort is stable: the elements of a class whose members are in order
    with each other, such as the elements with one key, keep the order they
    had. *)
Section StableSortStability.
Context {A : Type} (le : A -> A -> bool) (P : A -> bool).
Hypothesis class_in_order :
  forall x y, P x = true -> P y = true -> le x y = true.


End StableSortStability.

(** ** The rule evaluator *)

Module RuleEvaluatorSpec.
Import Rules.

Lemma walk_keys_none (keys : list string) : walk_keys keys VNone = VNone.
Proof. destruct keys; reflexivity. Qed.

Lemma walk_keys_app (pre rest : list string) (v : value) :
  walk_keys (pre ++ rest) v = walk_keys rest (walk_keys pre v).
Proof.
  revert v. induction pre as [|key pre IH]; intros v; simpl.
  - reflexivity.
  - destruct v; try (symmetry; apply walk_keys_none).
    destruct (lookup key d) as [v'|].
    + apply IH.
    + symmetry. apply walk_keys_none.
Qed.

Lemma path_fails_none (data : value) (field_path : string) :
  path_fails data field_path -> get_nested_value data field_path = VNone.
Proof.
  intros (pre & key & post & Hsplit & Hmiss).
  unfold get_nested_value. rewrite Hsplit, walk_keys_app. simpl.
  destruct (walk_keys pre data); try reflexivity.
  simpl in Hmiss. rewrite Hmiss. reflexivity.
Qed.

Lemma unknown_operator_eqb (op : string) :
  str_in_list op known_operators = false ->
  String.eqb op "equals" = false /\ String.eqb op "gt" = false
  /\ String.eqb op "lt" = false /\ String.eqb op "gte" = false
  /\ String.eqb op "lte" = false /\ String.eqb op "contains" = false
  /\ String.eqb op "in_list" = false /\ String.eqb op "not_in_list" = false.
Proof.
  unfold str_in_list, known_operators. simpl. intros H.
  repeat (apply orb_false_elim in H; destruct H as [? H]).
  repeat split; assumption.
Qed.

Section Evaluator.
Variable py_repr : value -> string.

(** C6 (as amended).  A nested lookup that fails at some path segment (of
    the field, or of the field compared with), or an operator that the
    evaluator does not know, makes the condition evaluate to false,
    without raising. *)
Theorem condition_false_when_lookup_fails_or_operator_unknown
        (c : Condition) (case_data : value) :
  path_fails case_data (field c)
  \/ (exists vf, dynamic_field c vf /\ path_fails case_data vf)
  \/ str_in_list (operator c) known_operators = false ->
  evaluate_single_condition py_repr c case_data = Ok false.
Proof.
  intros H. unfold evaluate_single_condition.
  destruct (is_none (get_nested_value case_data (field c))) eqn:Hact;
    [reflexivity|].
  destruct H as [H | [(vf & [Hvf Hne] & H) | H]].
  - apply path_fails_none in H. rewrite H in Hact. discriminate.
  - apply path_fails_none in H. rewrite Hvf.
    apply String.eqb_neq in Hne. rewrite Hne, H. reflexivity.
  - apply unknown_operator_eqb in H.
    destruct H as (H1 & H2 & H3 & H4 & H5 & H6 & H7 & H8).
    rewrite H1, H2, H3, H4, H5, H6, H7, H8.
    match goal with
    | |- (if ?b then _ else _) = _ => destruct b; reflexivity
    end.
Qed.

Lemma scan_app (case_data : value) (l1 l2 : list (string * Rule))
      (st : LoopState) :
  scan py_repr case_data (l1 ++ l2) st =
  bind (scan py_repr case_data l1 st)
       (fun s => match s with
                 | Returned r => Ok (Returned r)
                 | Running st' => scan py_repr case_data l2 st'
                 end).
Proof.
  revert st. induction l1 as [|e l1 IH]; intros st; simpl.
  - reflexivity.
  - destruct (rule_step py_repr case_data st e) as [[r|st']|err]; simpl;
      [reflexivity | apply IH | reflexivity].
Qed.

Lemma action_to_recommendation_in (a : string) :
  In (action_to_recommendation a) categories.
Proof.
  unfold action_to_recommendation, get_default, action_mapping, categories.
  simpl.
  repeat match goal with
         | |- context [String.eqb a ?s] => destruct (String.eqb a s)
         end; simpl; auto.
Qed.

Lemma dict_add_ok (k : string) (w : Z) (d : list (string * Z)) :
  In k (map fst d) ->
  exists d', dict_add k w d = Ok d' /\ map fst d' = map fst d.
Proof.
  induction d as [|[k' v] d IH]; simpl; intros Hin.
  - contradiction.
  - destruct (String.eqb k k') eqn:E.
    + eexists; split; reflexivity.
    + destruct Hin as [Hk|Hin].
      * subst. rewrite String.eqb_refl in E. discriminate.
      * destruct (IH Hin) as (d' & Hd & Hkeys). rewrite Hd. simpl.
        eexists; split; [reflexivity|]. simpl. congruence.
Qed.

Lemma dict_add_get (k : string) (w : Z) (d d' : list (string * Z)) (c : string) :
  dict_add k w d = Ok d' ->
  get_default c d' 0 =
  get_default c d 0 + (if String.eqb k c then w else 0).
Proof.
  unfold get_default. revert d'.
  induction d as [|[k' v] d IH]; simpl; intros d' H.
  - discriminate.
  - destruct (String.eqb k k') eqn:E.
    + injection H as <-. simpl. apply String.eqb_eq in E. subst k'.
      rewrite (String.eqb_sym k c). destruct (String.eqb c k); lia.
    + destruct (dict_add k w d) as [d''|] eqn:Hd; simpl in H; [|discriminate].
      injection H as <-. simpl.
      destruct (String.eqb c k') eqn:Ec.
      * apply String.eqb_eq in Ec. subst k'. rewrite E. lia.
      * apply IH. reflexivity.
Qed.

(** One iteration on a rule that lets the evaluator pass. *)
Lemma rule_step_passes (case_data : value) (st : LoopState)
      (entry : string * Rule) :
  passes py_repr case_data entry -> weights_ok st ->
  exists st',
    rule_step py_repr case_data st entry = Ok (Running st')
    /\ weights_ok st'
    /\ total_weight st' = total_weight st + counted_weight py_repr case_data (snd entry)
    /\ forall c,
        get_default c (recommendation_weights st') 0 =
        get_default c (recommendation_weights st) 0
        + (if String.eqb (action_to_recommendation (action (snd entry))) c
           then counted_weight py_repr case_data (snd entry) else 0).
Proof.
  intros (b & Hev & Hov) Hok. destruct entry as [set_name rule].
  simpl in *. unfold rule_step, counted_weight, fires. rewrite Hev. simpl.
  destruct b.
  - rewrite (Hov eq_refl). simpl.
    destruct (weight rule) as [w|].
    + destruct (w >? 0) eqn:Hw.
      * destruct (dict_add_ok (action_to_recommendation (action rule)) w
                    (recommendation_weights st)) as (d' & Hd & Hkeys).
        { rewrite Hok. apply action_to_recommendation_in. }
        rewrite Hd. simpl. eexists. split; [reflexivity|].
        unfold weights_ok. simpl. repeat split.
        -- congruence.
        -- intros c. apply dict_add_get. exact Hd.
      * eexists. split; [reflexivity|]. unfold weights_ok. simpl.
        repeat split; [assumption | lia |].
        intros c. destruct (String.eqb _ c); lia.
    + simpl. eexists. split; [reflexivity|]. unfold weights_ok. simpl.
      repeat split; [assumption | lia |].
      intros c. destruct (String.eqb _ c); lia.
  - simpl. eexists. split; [reflexivity|].
    repeat split; [assumption | lia |].
    intros c. destruct (String.eqb _ c); lia.
Qed.

(** The loops run to their end over rules that all let the evaluator pass,
    and accumulate the tallies. *)
Lemma scan_passes (case_data : value) (entries : list (string * Rule)) :
  Forall (passes py_repr case_data) entries ->
  forall st, weights_ok st ->
  exists st',
    scan py_repr case_data entries st = Ok (Running st')
    /\ weights_ok st'
    /\ total_weight st' = total_weight st + total_tally py_repr case_data entries
    /\ forall c,
        get_default c (recommendation_weights st') 0 =
        get_default c (recommendation_weights st) 0
        + tally py_repr case_data entries c.
Proof.
  induction 1 as [|e entries He _ IH]; intros st Hok; simpl.
  - exists st. repeat split; [assumption | lia | intros; lia].
  - destruct (rule_step_passes case_data st e He Hok)
      as (st1 & Hstep & Hok1 & Htot1 & Hget1).
    rewrite Hstep. simpl.
    destruct (IH st1 Hok1) as (st2 & Hscan & Hok2 & Htot2 & Hget2).
    exists st2. repeat split; [assumption | assumption | lia |].
    intros c. rewrite Hget2, Hget1. lia.
Qed.

(** One iteration on a matching override rule. *)
Lemma rule_step_override (case_data : value) (st : LoopState)
      (set_name : string) (rule : Rule) :
  matches py_repr case_data rule -> override rule = true ->
  exists res,
    rule_step py_repr case_data st (set_name, rule) = Ok (Returned res)
    /\ final_recommendation res = Some (action_to_recommendation (action rule))
    /\ confidence_score res = 1%Q
    /\ override_applied res = true.
Proof.
  intros Hm Hov. unfold rule_step. unfold matches in Hm. rewrite Hm. simpl.
  rewrite Hov. eexists. split; [reflexivity|]. simpl. auto.
Qed.

(** C2 (as amended).  When the evaluator reaches, in scan order, the first
    rule that both matches and carries the override flag (every rule
    scanned before it evaluates without raising), it returns at that rule:
    the recommendation is the rule's action mapped to a category, the
    confidence is exactly 1, and the rules scanned after it play no part,
    whatever they are. *)
Theorem first_override_wins
        (rule_sets : RuleSets) (case_data : value)
        (pre post : list (string * Rule)) (set_name : string) (rule : Rule) :
  scan_order rule_sets = pre ++ (set_name, rule) :: post ->
  Forall (passes py_repr case_data) pre ->
  matches py_repr case_data rule ->
  override rule = true ->
  exists res,
    evaluate_rules py_repr rule_sets case_data = Ok res
    /\ final_recommendation res = Some (action_to_recommendation (action rule))
    /\ confidence_score res = 1%Q
    /\ override_applied res = true
    /\ forall rule_sets' post',
        scan_order rule_sets' = pre ++ (set_name, rule) :: post' ->
        evaluate_rules py_repr rule_sets' case_data = Ok res.
Proof.
  intros Horder Hpre Hm Hov.
  destruct (scan_passes case_data pre Hpre initial_state eq_refl)
    as (st & Hscan & _).
  destruct (rule_step_override case_data st set_name rule Hm Hov)
    as (res & Hstep & Hrec & Hconf & Happ).
  assert (Hall : forall rs p,
             scan_order rs = pre ++ (set_name, rule) :: p ->
             evaluate_rules py_repr rs case_data = Ok res).
  { intros rs p Hrs. unfold evaluate_rules.
    rewrite Hrs, scan_app, Hscan. cbn [bind scan].
    rewrite Hstep. reflexivity. }
  exists res. split; [apply (Hall _ _ Horder)|].
  repeat split; assumption.
Qed.

Lemma total_tally_split (case_data : value) (entries : list (string * Rule)) :
  total_tally py_repr case_data entries =
  tally py_repr case_data entries "repair"
  + tally py_repr case_data entries "replace"
  + tally py_repr case_data entries "manufacturer"
  + tally py_repr case_data entries "manual".
Proof.
  induction entries as [|e entries IH]; simpl; [reflexivity|].
  rewrite IH.
  destruct (action_to_recommendation_in (action (snd e)))
    as [H|[H|[H|[H|[]]]]]; rewrite <- H; simpl; lia.
Qed.

Lemma counted_weight_nonneg (case_data : value) (rule : Rule) :
  0 <= counted_weight py_repr case_data rule.
Proof.
  unfold counted_weight.
  destruct (fires py_repr case_data rule && negb (override rule))%bool;
    [|lia].
  destruct (weight rule) as [w|]; [|lia].
  destruct (w >? 0) eqn:E; lia.
Qed.

Lemma tally_nonneg (case_data : value) (entries : list (string * Rule))
      (c : string) :
  0 <= tally py_repr case_data entries c.
Proof.
  induction entries as [|e entries IH]; simpl; [lia|].
  pose proof (counted_weight_nonneg case_data (snd e)).
  destruct (String.eqb _ c); lia.
Qed.

Lemma ratio_le_1 (m t : Z) :
  0 < t -> m <= t -> (inject_Z m / inject_Z t <= 1)%Q.
Proof.
  intros Ht Hm. apply Qle_shift_div_r.
  - replace 0%Q with (inject_Z 0) by reflexivity. rewrite <- Zlt_Qlt. exact Ht.
  - rewrite Qmult_1_l. rewrite <- Zle_Qle. exact Hm.
Qed.

(** The code after the loops, on the four tallies. *)
Lemma finalize_four (res : Results) (a b c d t : Z) :
  0 <= a -> 0 <= b -> 0 <= c -> 0 <= d -> t = a + b + c + d -> 0 < t ->
  let w := [("repair", a); ("replace", b); ("manufacturer", c); ("manual", d)] in
  let out := finalize (mkLoop res t w) in
  exists best before after,
    final_recommendation out = Some best
    /\ categories = before ++ best :: after
    /\ (forall x, In x before -> get_default x w 0 < get_default best w 0)
    /\ (forall x, In x after -> get_default x w 0 <= get_default best w 0)
    /\ (confidence_score out == inject_Z (get_default best w 0%Z) / inject_Z t)%Q.
Proof.
  intros Ha Hb Hc Hd Ht Hpos w out.
  assert (Hgt : (t >? 0) = true) by (apply Z.gtb_lt; lia).
  unfold out, finalize. cbn [total_weight recommendation_weights]. rewrite Hgt.
  cbn [final_recommendation confidence_score].
  set (m := max_value w).
  assert (Hm : m = Z.max (Z.max (Z.max a b) c) d) by reflexivity.
  assert (Hle : m <= t) by lia.
  assert (Hconf : (Qmin (inject_Z m / inject_Z t) 1 == inject_Z m / inject_Z t)%Q)
    by (apply Q.min_l, ratio_le_1; assumption).
  unfold w. cbn [first_key_with].
  assert (Hside : forall (l : list string) (P : string -> Prop),
             Forall P l -> forall x, In x l -> P x)
    by (intros l P HP x Hx; rewrite Forall_forall in HP; auto).
  destruct (Z.eqb_spec a m) as [Ea|Ea].
  { exists "repair", [], ["replace"; "manufacturer"; "manual"].
    split; [reflexivity|]. split; [reflexivity|].
    split; [apply Hside; constructor|].
    split; [apply Hside; repeat constructor; cbn; lia|].
    change (get_default "repair" _ 0) with a.
    rewrite Hconf, Ea. reflexivity. }
  destruct (Z.eqb_spec b m) as [Eb|Eb].
  { exists "replace", ["repair"], ["manufacturer"; "manual"].
    split; [reflexivity|]. split; [reflexivity|].
    split; [apply Hside; repeat constructor; cbn; lia|].
    split; [apply Hside; repeat constructor; cbn; lia|].
    change (get_default "replace" _ 0) with b.
    rewrite Hconf, Eb. reflexivity. }
  destruct (Z.eqb_spec c m) as [Ec|Ec].
  { exists "manufacturer", ["repair"; "replace"], ["manual"].
    split; [reflexivity|]. split; [reflexivity|].
    split; [apply Hside; repeat constructor; cbn; lia|].
    split; [apply Hside; repeat constructor; cbn; lia|].
    change (get_default "manufacturer" _ 0) with c.
    rewrite Hconf, Ec. reflexivity. }
  destruct (Z.eqb_spec d m) as [Ed|Ed]; [|lia].
  exists "manual", ["repair"; "replace"; "manufacturer"], [].
  split; [reflexivity|]. split; [reflexivity|].
  split; [apply Hside; repeat constructor; cbn; lia|].
  split; [apply Hside; constructor|].
  change (get_default "manual" _ 0) with d.
  rewrite Hconf, Ed. reflexivity.
Qed.

(** C5 (as amended).  When every rule in scan order evaluates without
    raising, no override rule fires and the total weight of the matching
    rules is positive, the evaluator returns the category with the highest
    tally, the first one in the order repair, replace, manufacturer,
    manual among equals, with confidence that tally divided by the total
    weight. *)
Theorem weighted_tally_decides (rule_sets : RuleSets) (case_data : value) :
  Forall (passes py_repr case_data) (scan_order rule_sets) ->
  0 < total_tally py_repr case_data (scan_order rule_sets) ->
  exists res best before after,
    evaluate_rules py_repr rule_sets case_data = Ok res
    /\ final_recommendation res = Some best
    /\ categories = before ++ best :: after
    /\ (forall c, In c before ->
          tally py_repr case_data (scan_order rule_sets) c
          < tally py_repr case_data (scan_order rule_sets) best)
    /\ (forall c, In c after ->
          tally py_repr case_data (scan_order rule_sets) c
          <= tally py_repr case_data (scan_order rule_sets) best)
    /\ (confidence_score res ==
        inject_Z (tally py_repr case_data (scan_order rule_sets) best)
        / inject_Z (total_tally py_repr case_data (scan_order rule_sets)))%Q.
Proof.
  intros Hpass Hpos.
  set (entries := scan_order rule_sets) in *.
  destruct (scan_passes case_data entries Hpass initial_state eq_refl)
    as (st & Hscan & Hok & Htot & Hget).
  unfold weights_ok, categories in Hok.
  destruct st as [res t w]. cbn [recommendation_weights total_weight] in *.
  destruct w as [|[k1 a] [|[k2 b] [|[k3 c] [|[k4 d] [|? ?]]]]];
    try discriminate.
  cbn in Hok. injection Hok as -> -> -> ->.
  pose proof (Hget "repair") as Ga. pose proof (Hget "replace") as Gb.
  pose proof (Hget "manufacturer") as Gc. pose proof (Hget "manual") as Gd.
  cbn in Ga, Gb, Gc, Gd. cbn in Htot.
  pose proof (total_tally_split case_data entries) as Hsplit.
  pose proof (tally_nonneg case_data entries "repair").
  pose proof (tally_nonneg case_data entries "replace").
  pose proof (tally_nonneg case_data entries "manufacturer").
  pose proof (tally_nonneg case_data entries "manual").
  destruct (finalize_four res a b c d t) as
    (best & before & after & Hrec & Hcat & Hbefore & Hafter & Hconf);
    try lia.
  assert (Hval : forall x, In x categories ->
            get_default x
              [("repair", a); ("replace", b); ("manufacturer", c); ("manual", d)] 0
            = tally py_repr case_data entries x).
  { intros x [<-|[<-|[<-|[<-|[]]]]]; cbn; lia. }
  assert (Hin : forall x, In x (before ++ best :: after) -> In x categories)
    by (intros x Hx; rewrite Hcat; exact Hx).
  exists (finalize (mkLoop res t [("repair", a); ("replace", b);
                                  ("manufacturer", c); ("manual", d)])),
    best, before, after.
  split.
  { unfold evaluate_rules. fold entries. rewrite Hscan. reflexivity. }
  split; [exact Hrec|]. split; [exact Hcat|].
  assert (Hbest : In best categories)
    by (apply Hin, in_or_app; right; left; reflexivity).
  repeat split.
  - intros x Hx. rewrite <- (Hval x), <- (Hval best); auto.
    apply Hin, in_or_app. left. exact Hx.
  - intros x Hx. rewrite <- (Hval x), <- (Hval best); auto.
    apply Hin, in_or_app. right. right. exact Hx.
  - rewrite Hconf, (Hval best Hbest). replace t with (total_tally py_repr case_data entries) by lia.
    reflexivity.
Qed.

End Evaluator.

Lemma passesb_passes (py_repr : value -> string) (case_data : value)
      (entry : string * Rule) :
  passesb py_repr case_data entry = true -> passes py_repr case_data entry.
Proof.
  unfold passesb, passes.
  destruct (evaluate_rule_conditions py_repr (conditions (snd entry)) case_data)
    as [b|e]; [|discriminate].
  intros H. exists b. split; [reflexivity|]. intros ->.
  simpl in H. destruct (override (snd entry)); [discriminate|reflexivity].
Qed.

Lemma forallb_passes (py_repr : value -> string) (case_data : value)
      (entries : list (string * Rule)) :
  forallb (passesb py_repr case_data) entries = true ->
  Forall (passes py_repr case_data) entries.
Proof.
  intros H. apply Forall_forall. intros e He.
  apply passesb_passes. rewrite forallb_forall in H. auto.
Qed.

(** The missing customer tier makes the condition false. *)
Lemma condition_false_witness :
  path_fails case_without_tier (field tier_is_gold)
  /\ evaluate_single_condition repr_atom tier_is_gold case_without_tier = Ok false.
Proof.
  assert (H : path_fails case_without_tier (field tier_is_gold)).
  { exists ["customer"], "tier", []. split; reflexivity. }
  split; [exact H|].
  apply condition_false_when_lookup_fails_or_operator_unknown.
  left. exact H.
Defined.

(** C6, refuted as stated: comparing the age 12 with the text "ten" raises
    [TypeError] instead of evaluating to false. *)
Lemma condition_type_mismatch_raises :
  evaluate_single_condition repr_atom age_above_text case_without_tier
  = Raise TypeError.
Proof. reflexivity. Qed.

(** A membership test in a number and a number among the texts to contain
    raise as well. *)
Example other_malformed_conditions_raise :
  evaluate_single_condition repr_atom age_in_number case_without_tier
  = Raise TypeError
  /\ evaluate_single_condition repr_atom name_contains_number case_without_tier
     = Raise AttributeError.
Proof. split; reflexivity. Qed.

(** The rule sets are scanned by ascending priority. *)
Lemma sorted_rule_sets_ascending (rule_sets : RuleSets) :
  StronglySorted (fun x y => priority_of x <= priority_of y)
                 (sorted_rule_sets rule_sets)
  /\ Permutation rule_sets (sorted_rule_sets rule_sets).
Proof.
  split; [|apply py_sorted_perm].
  unfold sorted_rule_sets.
  assert (H : StronglySorted
                (fun x y => (priority_of x <=? priority_of y) = true)
                (py_sorted (fun x y => priority_of x <=? priority_of y) rule_sets)).
  { apply py_sorted_sorted.
    - intros x y.
      destruct (Z.leb_spec (priority_of x) (priority_of y)); [left; reflexivity|].
      right. apply Z.leb_le. lia.
    - intros x y z H1 H2. apply Z.leb_le in H1, H2. apply Z.leb_le. lia. }
  induction H as [|x l Hs IH Hall]; constructor; [exact IH|].
  eapply Forall_impl; [|exact Hall]. intros y Hy. apply Z.leb_le. exact Hy.
Qed.

(** The default rule sets are scanned in the order they are written. *)
Example default_rules_scan_order :
  map (fun e => name (snd e)) (scan_order default_rules) =
  [ "smoke_fire_emergency"; "electrical_hazard"; "under_warranty_new";
    "high_value_customer_repair_preference"; "cost_ceiling_exceeded";
    "high_margin_replacement"; "very_old_device"; "low_repair_probability";
    "high_success_repair"; "young_device_sustainability" ].
Proof. reflexivity. Qed.

(** On the default rules, sparks stop the evaluation at the second safety
    rule. *)
Lemma first_override_wins_witness :
  let pre := firstn 1 (scan_order default_rules) in
  let post := skipn 2 (scan_order default_rules) in
  let rule := nth 1 (rules safety_rules) vip_rule in
  scan_order default_rules = pre ++ ("safety_rules", rule) :: post
  /\ Forall (passes repr_atom sparks_case) pre
  /\ matches repr_atom sparks_case rule
  /\ override rule = true
  /\ exists res,
      evaluate_rules repr_atom default_rules sparks_case = Ok res
      /\ final_recommendation res = Some "manufacturer"
      /\ confidence_score res = 1%Q
      /\ override_applied res = true
      /\ forall rule_sets' post',
          scan_order rule_sets' = pre ++ ("safety_rules", rule) :: post' ->
          evaluate_rules repr_atom rule_sets' sparks_case = Ok res.
Proof.
  intros pre post rule.
  assert (H1 : scan_order default_rules = pre ++ ("safety_rules", rule) :: post)
    by reflexivity.
  assert (H2 : Forall (passes repr_atom sparks_case) pre)
    by (apply forallb_passes; reflexivity).
  assert (H3 : matches repr_atom sparks_case rule) by reflexivity.
  assert (H4 : override rule = true) by reflexivity.
  repeat (split; [assumption|]).
  exact (first_override_wins repr_atom default_rules sparks_case pre post
           "safety_rules" rule H1 H2 H3 H4).
Defined.

(** C2, refuted as stated: the custom override rule matches the case, yet
    the evaluation raises [TypeError] at the warranty rule scanned before it
    and returns nothing. *)
Lemma override_not_reached_when_earlier_rule_raises :
  In ("vip_rules", vip_rule) (scan_order rules_with_vip)
  /\ matches repr_atom text_age_case vip_rule
  /\ override vip_rule = true
  /\ evaluate_rules repr_atom rules_with_vip text_age_case = Raise TypeError.
Proof.
  split; [|repeat split; reflexivity].
  vm_compute. repeat (try (left; reflexivity); right).
Qed.

(** Weights 30 (repair) and 20 (replace): repair with confidence 0.6. *)
Lemma weighted_tally_witness :
  Forall (passes repr_atom young_costly_case) (scan_order two_rules)
  /\ 0 < total_tally repr_atom young_costly_case (scan_order two_rules)
  /\ exists res best before after,
      evaluate_rules repr_atom two_rules young_costly_case = Ok res
      /\ final_recommendation res = Some best
      /\ categories = before ++ best :: after
      /\ (forall c, In c before ->
            tally repr_atom young_costly_case (scan_order two_rules) c
            < tally repr_atom young_costly_case (scan_order two_rules) best)
      /\ (forall c, In c after ->
            tally repr_atom young_costly_case (scan_order two_rules) c
            <= tally repr_atom young_costly_case (scan_order two_rules) best)
      /\ (confidence_score res ==
          inject_Z (tally repr_atom young_costly_case (scan_order two_rules) best)
          / inject_Z (total_tally repr_atom young_costly_case (scan_order two_rules)))%Q.
Proof.
  assert (H1 : Forall (passes repr_atom young_costly_case) (scan_order two_rules))
    by (apply forallb_passes; reflexivity).
  assert (H2 : 0 < total_tally repr_atom young_costly_case (scan_order two_rules))
    by reflexivity.
  split; [exact H1|]. split; [exact H2|].
  exact (weighted_tally_decides repr_atom two_rules young_costly_case H1 H2).
Defined.

(** The instance named by the specification, evaluated. *)
Example thirty_twenty_gives_repair_at_six_tenths :
  exists res,
    evaluate_rules repr_atom two_rules young_costly_case = Ok res
    /\ final_recommendation res = Some "repair"
    /\ (confidence_score res == 6 # 10)%Q
    /\ rule_weights res =
       [("repair", 30); ("replace", 20); ("manufacturer", 0); ("manual", 0)].
Proof. eexists. repeat split. Qed.

(** Equal tallies: repair comes before replace in the enumeration, whatever
    the order of the rules. *)
Example tie_goes_to_repair :
  exists res,
    evaluate_rules repr_atom tied_rules young_costly_case = Ok res
    /\ final_recommendation res = Some "repair"
    /\ (confidence_score res == 1 # 2)%Q
    /\ rule_weights res =
       [("repair", 20); ("replace", 20); ("manufacturer", 0); ("manual", 0)].
Proof. eexists. repeat split. Qed.

(** C5, refuted as stated: on the default rules no override rule fires and
    the matching rule [very_old_device] has accumulated weight 25, yet the
    evaluation raises [TypeError] at the next rule and returns nothing. *)
Lemma tally_not_returned_when_later_rule_raises :
  Forall (fun e => fires repr_atom text_probability_case (snd e) = true ->
                   override (snd e) = false)
         (scan_order default_rules)
  /\ total_tally repr_atom text_probability_case (scan_order default_rules) = 25
  /\ evaluate_rules repr_atom default_rules text_probability_case = Raise TypeError.
Proof.
  split; [|split; reflexivity].
  apply Forall_forall. intros e He. vm_compute in He.
  repeat (destruct He as [<-|He]; [vm_compute; auto; discriminate|]).
  contradiction.
Qed.

End RuleEvaluatorSpec.

(** ** The pipeline *)

Module PipelineSpec.
Import Agents PipelineTerms.

(** *** Triage *)

Lemma str_empty_false (s : string) : s <> "" -> str_empty s = false.
Proof. destruct s; [contradiction|reflexivity]. Qed.

(** Valid inputs get past the validation of the stage. *)
Lemma validation_passes (state : ServiceCaseState) :
  valid_inputs state ->
  (str_empty (device_type state) || str_empty (brand state)
   || (age state =? 0) || str_empty (error_description state))%bool = false.
Proof.
  intros (Hd & Hb & Ha & He).
  rewrite !str_empty_false by assumption.
  apply Z.eqb_neq in Ha. rewrite Ha. reflexivity.
Qed.

(** Between the two age gates, a fault description that mentions smoke is
    routed to the manufacturer as urgent. *)
Lemma smoke_routes_urgent_between_age_gates (state : ServiceCaseState) :
  valid_inputs state ->
  str_contains "smoke" (lower (error_description state)) = true ->
  1 < age state < 15 ->
  route (triage_agent state) = "urgent_manufacturer".
Proof.
  intros Hvalid Hsmoke Hage. unfold triage_agent.
  rewrite (validation_passes state Hvalid).
  assert (E5 : (age state <=? 1) = false) by (apply Z.leb_gt; lia).
  assert (E6 : (age state >=? 15) = false)
    by (rewrite Z.geb_leb; apply Z.leb_gt; lia).
  rewrite E5, E6. cbn [andb].
  unfold any_keyword_in, safety_keywords. cbn [existsb].
  rewrite Hsmoke. reflexivity.
Qed.

(** From 15 years on, the age gate wins over the safety keywords. *)
Lemma old_device_routes_replacement_focus (state : ServiceCaseState) :
  valid_inputs state -> 15 <= age state ->
  route (triage_agent state) = "replacement_focus".
Proof.
  intros Hvalid Hage. unfold triage_agent.
  rewrite (validation_passes state Hvalid).
  assert (E5 : (age state <=? 1) = false) by (apply Z.leb_gt; lia).
  assert (E6 : (age state >=? 15) = true)
    by (rewrite Z.geb_leb; apply Z.leb_le; lia).
  rewrite E5, E6. reflexivity.
Qed.

(** C1, the code against the claim.  The inputs are valid and the fault
    description mentions smoke, yet the age gates are tested before the
    safety keywords: the 15 years old cooktop is routed to
    [replacement_focus] and the one year old oven to [manufacturer]. *)
Theorem smoke_behind_the_age_gates :
  valid_inputs smoking_old_cooktop
  /\ str_contains "smoke" (lower (error_description smoking_old_cooktop)) = true
  /\ route (triage_agent smoking_old_cooktop) = "replacement_focus"
  /\ valid_inputs smoking_new_oven
  /\ str_contains "smoke" (lower (error_description smoking_new_oven)) = true
  /\ route (triage_agent smoking_new_oven) = "manufacturer".
Proof.
  unfold valid_inputs. repeat split; try reflexivity; discriminate.
Qed.

(** *** Enrichment *)

(** The stage reads the device value at the top level of the product data,
    where no such key exists: the value is always the default 1000. *)
Lemma device_value_is_default (catalog : Catalog) (dt br : string) (a : Z) :
  get_default "current_market_value" (simulate_pim_integration catalog dt br a)
              (VInt 1000) = VInt 1000.
Proof. reflexivity. Qed.

Lemma enrichment_returns (catalog : Catalog) (j c : Z) (state : ServiceCaseState) :
  let dt := lower (device_type state) in
  let sap := simulate_sap_integration j dt (brand state)
                                      (lower (error_description state)) in
  let pim := simulate_pim_integration catalog dt (brand state) (age state) in
  exists cost avail specs,
    lookup "estimated_repair_cost" sap = Some cost
    /\ lookup "parts_availability" sap = Some avail
    /\ lookup "specifications" pim = Some specs
    /\ data_enrichment_agent catalog j c state =
       Ok {| e_repair_cost := cost;
             e_spare_part_availability := avail;
             e_customer_data := simulate_salesforce_integration c (brand state);
             e_device_specs := specs;
             e_cost_ceiling := cost_ceiling_of (age state) 1000;
             e_sap_data := sap;
             e_salesforce_data := simulate_salesforce_integration c (brand state);
             e_pim_data := pim |}.
Proof.
  intros dt sap pim. do 3 eexists.
  repeat split; reflexivity.
Qed.

(** C9, the code against the claim.  Whatever the market value of the
    device, the ceiling in a result of the stage is 1800 above ten years
    and 600 otherwise; for the three years old cooktop, whose market value
    is 1557.376, the claim gives min(934.4256, 800) = 800 and the stage
    600. *)
Theorem cost_ceiling_ignores_market_value :
  (forall catalog j c state e,
      data_enrichment_agent catalog j c state = Ok e ->
      (e_cost_ceiling e == if age state >? 10 then 1800 else 600)%Q)
  /\ exists e market_value,
      data_enrichment_agent REPLACEMENT_PRODUCTS 0 12345 young_cooktop = Ok e
      /\ e_device_specs e =
         VDict [ ("original_purchase_price", VInt 2000);
                 ("current_market_value", VFloat market_value);
                 ("energy_rating", VStr "A+");
                 ("installation_dimensions", VStr "60x60x85 cm");
                 ("warranty_remaining", VInt 0) ]
      /\ (market_value == 1557376 # 1000)%Q
      /\ (cost_ceiling_of (age young_cooktop) market_value == 800)%Q
      /\ (e_cost_ceiling e == 600)%Q.
Proof.
  split.
  - intros catalog j c state e He.
    destruct (enrichment_returns catalog j c state)
      as (cost & avail & specs & _ & _ & _ & H).
    rewrite H in He. injection He as <-.
    cbn [e_cost_ceiling]. unfold cost_ceiling_of.
    destruct (age state >? 10); reflexivity.
  - do 2 eexists. split; [reflexivity|]. split; [reflexivity|].
    repeat split.
Qed.

(** *** Recommendation synthesis: the confidence *)

Lemma confidence_of_formula (economic_score p : Q) :
  (confidence_of economic_score p ==
   Qmin (95 # 100) ((economic_score * (6 # 10) + p * 100 * (4 # 10)) / 100))%Q.
Proof. unfold confidence_of. cbv zeta. apply Q.min_comm. Qed.

Lemma confidence_of_bounds (economic_score p : Q) :
  (0 <= economic_score <= 100)%Q -> (0 <= p <= 1)%Q ->
  (0 <= confidence_of economic_score p <= 95 # 100)%Q.
Proof.
  intros [He _] [Hp _]. unfold confidence_of. cbv zeta. split.
  - apply Q.min_glb; [|discriminate].
    apply Qle_shift_div_l; [reflexivity|]. lra.
  - apply Q.le_min_r.
Qed.

Lemma agent_confidence (catalog : Catalog) (order_no : Z) (now : string)
      (state : ServiceCaseState) (r : Recommendation) :
  recommendation_engine_agent catalog order_no now state = Ok r ->
  exists economic_score,
    to_Q (get_default "economic_score" (or_default (margin_analysis state) [])
                      (VInt 50)) = Ok economic_score
    /\ confidence_score r =
       confidence_of economic_score
                     (or_default (repair_probability state) (75 # 100)%Q).
Proof.
  unfold recommendation_engine_agent.
  destruct (to_Q _) as [e|err]; cbn [bind]; [|discriminate].
  intros H. exists e. split; [reflexivity|].
  destruct (String.eqb _ "repair").
  - injection H as <-. reflexivity.
  - destruct (generate_replacement_options catalog state) as [o|err];
      cbn [bind] in H; [|discriminate].
    injection H as <-. reflexivity.
Qed.

(** *** The ranker on null preferences *)

Lemma null_preferences_raise_when_a_product_fits (catalog : Catalog)
      (state : ServiceCaseState) :
  customer_preferences state = Some None ->
  budget_filter catalog (lower (device_type state))
                (or_default (cost_ceiling state) 2000%Q) (age state) <> [] ->
  generate_replacement_options catalog state = Raise AttributeError.
Proof.
  intros Hp Hne. unfold generate_replacement_options. rewrite Hp. cbn [or_default].
  destruct (budget_filter _ _ _ _) as [|p l]; [contradiction|].
  reflexivity.
Qed.

(** C10.  The request for the 15 years old oven with [customer_preferences]
    null reaches recommendation synthesis with the preferences still null
    and the final recommendation replace; there
    [generate_replacement_options] raises [AttributeError], and so does the
    whole workflow. *)
Theorem replacement_options_raise_on_null_preferences :
  exists s3,
    customer_preferences (old_oven (Some None)) = Some None
    /\ analyse REPLACEMENT_PRODUCTS world0
         (set_triage (triage_agent (old_oven (Some None))) (old_oven (Some None)))
       = Ok s3
    /\ customer_preferences s3 = Some None
    /\ final_recommendation_of s3 = "replace"
    /\ generate_replacement_options REPLACEMENT_PRODUCTS s3 = Raise AttributeError
    /\ run_workflow REPLACEMENT_PRODUCTS world0 (old_oven (Some None))
       = Raise AttributeError.
Proof.
  eexists. split; [reflexivity|]. split; [vm_compute; reflexivity|].
  repeat split; vm_compute; reflexivity.
Qed.

(** *** The ranker *)

Lemma score_all_length (f : Product -> result Offer) (l : list Product)
      (offers : list Offer) :
  score_all f l = Ok offers -> List.length offers = List.length l.
Proof.
  revert offers. induction l as [|p l IH]; simpl; intros offers H.
  - injection H as <-. reflexivity.
  - destruct (f p) as [o|e]; cbn [bind] in H; [|discriminate].
    destruct (score_all f l) as [rest|e]; cbn [bind] in H; [|discriminate].
    injection H as <-. simpl. f_equal. apply IH. reflexivity.
Qed.

Lemma score_all_total (f : Product -> result Offer) (l : list Product) :
  (forall p, exists o, f p = Ok o) -> exists offers, score_all f l = Ok offers.
Proof.
  intros Hf. induction l as [|p l [rest IH]]; simpl.
  - eexists; reflexivity.
  - destruct (Hf p) as [o Ho]. rewrite Ho, IH. eexists; reflexivity.
Qed.

Lemma annotate_length (i : Z) (l : list Offer) :
  List.length (annotate i l) = List.length l.
Proof. revert i. induction l; intros i; simpl; [reflexivity|f_equal; auto]. Qed.





Lemma in_firstn {A : Type} (n : nat) (l : list A) (x : A) :
  In x (firstn n l) -> In x l.
Proof.
  revert n. induction l as [|y l IH]; intros n H.
  - rewrite firstn_nil in H. exact H.
  - destruct n; simpl in H; [contradiction|].
    destruct H as [->|H]; [left; reflexivity|right; eauto].
Qed.

Lemma sorted_impl {A : Type} (R R' : A -> A -> Prop) (l : list A) :
  (forall x y, R x y -> R' x y) -> StronglySorted R l -> StronglySorted R' l.
Proof.
  intros HR. induction 1 as [|x l Hs IH Hall]; constructor; [exact IH|].
  eapply Forall_impl; [|exact Hall]. intros y. apply HR.
Qed.


Lemma sort_by_score_descending (l : list Offer) : descending (sort_by_score l).
Proof.
  unfold descending, sort_by_score.
  eapply sorted_impl; [|apply py_sorted_sorted].
  - intros x y H. apply Qle_bool_iff. exact H.
  - intros x y.
    destruct (Qle_bool (recommendation_score y) (recommendation_score x)) eqn:E;
      [left; reflexivity|right].
    apply Qle_bool_iff.
    assert (~ (recommendation_score y <= recommendation_score x)%Q)
      by (rewrite <- Qle_bool_iff; congruence).
    lra.
  - intros x y z H1 H2. apply Qle_bool_iff in H1, H2. apply Qle_bool_iff.
    lra.
Qed.


Lemma py_in_collection (b : string) (v : value) :
  brand_collection v -> exists r, py_in (VStr b) v = Ok r.
Proof.
  destruct v; simpl; intros H; try contradiction; eexists; reflexivity.
Qed.

Lemma score_product_total (budget_filtered : list Product)
      (preferences cdata : pydict) (a : Z) (dt : string) (p : Product) :
  brand_collection
    (get_default "preferred_brands" preferences
                 (get_default "brand_loyalty" cdata (VList []))) ->
  exists o,
    score_product budget_filtered (Some preferences) cdata a dt p = Ok o.
Proof.
  intros Hc. unfold score_product.
  destruct (py_in_collection (p_brand p) _ Hc) as [r Hr]. rewrite Hr.
  cbn [bind]. unfold get_recommendation_reason.
  assert (Hc' : brand_collection
                  (get_default "preferred_brands" preferences (VList []))).
  { unfold get_default in *.
    destruct (lookup "preferred_brands" preferences); [exact Hc|exact I]. }
  destruct (py_in_collection (p_brand p) _ Hc') as [r' Hr']. rewrite Hr'.
  cbn [bind]. eexists. reflexivity.
Qed.

Lemma offers_length (catalog : Catalog) (state : ServiceCaseState)
      (offers : list Offer) :
  generate_replacement_options catalog state = Ok offers ->
  List.length offers =
  Nat.min 3 (List.length (budget_filter catalog (lower (device_type state))
                            (or_default (cost_ceiling state) 2000%Q) (age state))).
Proof.
  unfold generate_replacement_options.
  destruct (score_all _ _) as [scored|e] eqn:E; cbn [bind]; [|discriminate].
  intros H.
  replace offers with (annotate 0 (firstn 3 (sort_by_score scored)))
    by congruence.
  rewrite annotate_length, length_firstn.
  unfold sort_by_score. rewrite py_sorted_length.
  rewrite (score_all_length _ _ _ E). reflexivity.
Qed.

Lemma offers_come_from_scored (catalog : Catalog) (state : ServiceCaseState)
      (offers : list Offer) :
  generate_replacement_options catalog state = Ok offers ->
  exists scored,
    score_all (scored_as catalog state) (affordable catalog state) = Ok scored
    /\ offers = annotate 0 (firstn 3 (sort_by_score scored)).
Proof.
  unfold generate_replacement_options.
  change (score_all _ _)
    with (score_all (scored_as catalog state) (affordable catalog state)).
  destruct (score_all _ _) as [scored|e]; cbn [bind]; [|discriminate].
  intros H. injection H as <-. exists scored. split; reflexivity.
Qed.

Lemma score_all_in (f : Product -> result Offer) (l : list Product)
      (scored : list Offer) :
  score_all f l = Ok scored ->
  (forall o, In o scored -> exists p, In p l /\ f p = Ok o)
  /\ (forall p, In p l -> exists o, In o scored /\ f p = Ok o).
Proof.
  revert scored. induction l as [|p l IH]; simpl; intros scored H.
  - injection H as <-. split; intros x [].
  - destruct (f p) as [o|e] eqn:E; cbn [bind] in H; [|discriminate].
    destruct (score_all f l) as [rest|e]; cbn [bind] in H; [|discriminate].
    injection H as <-. destruct (IH rest eq_refl) as [IH1 IH2]. split.
    + intros x [<-|Hx].
      * exists p. auto.
      * destruct (IH1 x Hx) as (q & Hq & Hf). exists q. auto.
    + intros q [<-|Hq].
      * exists o. simpl. auto.
      * destruct (IH2 q Hq) as (x & Hx & Hf). exists x. simpl. auto.
Qed.

Lemma annotate_in (i : Z) (l : list Offer) (o : Offer) :
  In o (annotate i l) ->
  exists o', In o' l /\ product o = product o'
             /\ recommendation_score o = recommendation_score o'
             /\ trade_in_value o = trade_in_value o'.
Proof.
  revert i. induction l as [|x l IH]; intros i; simpl; [intros []|].
  intros [<-|H].
  - exists x. simpl. auto.
  - destruct (IH _ H) as (o' & Ho' & Heq). exists o'. auto.
Qed.

Lemma annotate_in_rev (i : Z) (l : list Offer) (o' : Offer) :
  In o' l -> exists o, In o (annotate i l) /\ product o = product o'.
Proof.
  revert i. induction l as [|x l IH]; intros i; simpl; [intros []|].
  intros [<-|H].
  - eexists. split; [left; reflexivity|reflexivity].
  - destruct (IH (i + 1) H) as (o & Ho & Heq). exists o. auto.
Qed.

Lemma score_product_fields (bf : list Product) (prefs : option pydict)
      (cdata : pydict) (a : Z) (dt : string) (p : Product) (o : Offer) :
  score_product bf prefs cdata a dt p = Ok o ->
  product o = p /\ trade_in_value o = estimate_trade_in_value a dt.
Proof.
  unfold score_product. destruct prefs as [preferences|]; [|discriminate].
  destruct (py_in _ _) as [preferred|e]; cbn [bind]; [|discriminate].
  destruct (get_recommendation_reason _ _ _) as [reason|e]; cbn [bind];
    [|discriminate].
  intros H. injection H as <-. split; reflexivity.
Qed.

(** *** The order of equal scores *)










Lemma float_sized_small (n : Z) : Z.abs n <= 1000000 -> float_sized n.
Proof.
  intros H. unfold float_sized.
  assert (H' : 1000000 <= 2 ^ 1000) by (vm_compute; discriminate).
  lia.
Qed.

Lemma builtin_catalog_plausible : plausible_catalog REPLACEMENT_PRODUCTS.
Proof.
  unfold plausible_catalog, REPLACEMENT_PRODUCTS.
  repeat constructor; apply float_sized_small; cbn; lia.
Qed.



(** On the two ovens that score alike, the first of the catalog is the
    first offer. *)
Example twin_offers_in_catalog_order :
  exists o1 o2,
    generate_replacement_options twin_catalog (old_oven None) = Ok [o1; o2]
    /\ p_brand (product o1) = "Bosch"
    /\ p_brand (product o2) = "Neff"
    /\ in_order o1 o2 [o1; o2].
Proof.
  do 2 eexists. split; [vm_compute; reflexivity|].
  split; [reflexivity|]. split; [reflexivity|].
  exists [], [], []. reflexivity.
Qed.


(** *** Recommendation synthesis on an analysed record *)

(** The success rates and repair costs of the table of known errors. *)
Lemma known_errors_table (dt br : string) (e : string * ErrorInfo) :
  In e (known_errors dt br) ->
  (75 # 100 <= success_rate (snd e) <= 95 # 100)%Q
  /\ 120 <= err_repair_cost (snd e) <= 320.
Proof.
  unfold known_errors, get_default, APPLIANCE_DATA. cbn [lookup].
  repeat match goal with
         | |- context [String.eqb ?a ?b] => destruct (String.eqb a b); cbn [lookup]
         end;
    cbn [common_errors]; intros H;
    repeat (destruct H as [<-|H]; [cbn; split; [split; discriminate|lia]|]);
    contradiction.
Qed.

Lemma matched_error_in_table (dt br desc : string) (e : string * ErrorInfo) :
  find (error_matches desc) (known_errors dt br) = Some e ->
  In e (known_errors dt br).
Proof. intros H. apply find_some in H. apply H. Qed.

(** The base rate and the age factor behind the repair probability. *)
Lemma repair_probability_factors (state : ServiceCaseState) :
  exists base factor,
    t_repair_probability (technical_analyst_agent state) = (base * factor)%Q
    /\ (75 # 100 <= base <= 95 # 100)%Q
    /\ (1 # 2 <= factor <= 1)%Q
    /\ (age state <= 5 -> factor = 1%Q)
    /\ (13 <= age state -> (factor <= 6 # 10)%Q).
Proof.
  unfold technical_analyst_agent. cbv zeta. cbn [t_repair_probability].
  eexists. eexists. split; [reflexivity|]. split.
  - destruct (find _ _) as [[code info]|] eqn:E; [|split; discriminate].
    apply matched_error_in_table, known_errors_table in E. apply E.
  - destruct (age state >? 5) eqn:Hage.
    + apply Z.gtb_lt in Hage.
      assert (H1 : (1 <= inject_Z (age state - 5))%Q).
      { replace 1%Q with (inject_Z 1) by reflexivity. rewrite <- Zle_Qle. lia. }
      split; [|split].
      * split; [apply Q.le_max_l|]. apply Q.max_lub; [discriminate|lra].
      * lia.
      * intros H13.
        assert (H8 : (8 <= inject_Z (age state - 5))%Q).
        { replace 8%Q with (inject_Z 8) by reflexivity. rewrite <- Zle_Qle. lia. }
        apply Q.max_lub; [discriminate|lra].
    + split; [split; discriminate|]. split; [reflexivity|].
      intros H13. rewrite Z.gtb_ltb in Hage. apply Z.ltb_ge in Hage. lia.
Qed.

(** What [analyse] puts together. *)
Lemma analyse_fields (catalog : Catalog) (w : World)
      (s1 s3 : ServiceCaseState) :
  analyse catalog w s1 = Ok s3 ->
  exists e ec,
    data_enrichment_agent catalog (jitter w) (customer_no w) s1 = Ok e
    /\ economic_analyst_agent catalog (set_enrichment e s1) = Ok ec
    /\ s3 = set_analyses (technical_analyst_agent (set_enrichment e s1)) ec
                         (set_enrichment e s1).
Proof.
  unfold analyse.
  destruct (data_enrichment_agent _ _ _ _) as [e|err] eqn:He; cbn [bind];
    [|discriminate].
  destruct (economic_analyst_agent _ _) as [ec|err] eqn:Hec; cbn [bind];
    [|discriminate].
  intros H. injection H as <-. exists e, ec. auto.
Qed.

(** The score stored by economic analysis and the verdict drawn from
    it. *)
Lemma economic_agent_score
      (catalog : Catalog) (state : ServiceCaseState) (ec : Economic) :
  economic_analyst_agent catalog state = Ok ec ->
  exists score,
    lookup "economic_score" (ec_margin_analysis ec) = Some (VInt score)
    /\ 0 <= score <= 100
    /\ ec_economic_viability ec = (if score >=? 60 then "repair" else "replace").
Proof.
  unfold economic_analyst_agent.
  destruct (dict_of _) as [specs|e]; cbn [bind]; [|discriminate].
  destruct (to_Q (or_default (repair_cost state) (VInt 0))) as [cost|e];
    cbn [bind]; [|discriminate].
  match goal with
  | |- bind ?m _ = _ -> _ => destruct m as [roi|e]; cbn [bind]; [|discriminate]
  end.
  destruct (margin_table _) as [margins|e]; cbn [bind]; [|discriminate].
  destruct (to_Q _) as [cv|e]; cbn [bind]; [|discriminate].
  intros H. injection H as <-.
  cbn [ec_margin_analysis ec_economic_viability lookup String.eqb Ascii.eqb
       Bool.eqb].
  eexists. split; [reflexivity|]. split; [|reflexivity].
  repeat match goal with
         | |- context [if ?b then _ else _] => destruct b
         end; lia.
Qed.

(** What the simulated systems hand to the later stages. *)
Lemma enrichment_shape (catalog : Catalog) (j c : Z) (state : ServiceCaseState) :
  exists e cost specs value,
    data_enrichment_agent catalog j c state = Ok e
    /\ e_repair_cost e = VInt cost
    /\ e_device_specs e = VDict specs
    /\ get_default "current_market_value" specs (VInt 1000) = VFloat value
    /\ e_customer_data e = simulate_salesforce_integration c (brand state).
Proof.
  unfold data_enrichment_agent, simulate_sap_integration,
    simulate_pim_integration.
  cbv zeta. cbn [get_default lookup String.eqb Ascii.eqb Bool.eqb to_Q as_number
                 getitem bind].
  do 4 eexists. split; [reflexivity|].
  cbn [e_repair_cost e_device_specs e_customer_data get_default lookup
       String.eqb Ascii.eqb Bool.eqb].
  repeat split.
Qed.

Lemma replacement_options_return (catalog : Catalog) (state : ServiceCaseState) :
  usable_preferences state ->
  exists offers, generate_replacement_options catalog state = Ok offers.
Proof.
  intros (preferences & Hp & Hc).
  unfold generate_replacement_options. rewrite Hp.
  destruct (score_all_total
              (score_product
                 (budget_filter catalog (lower (device_type state))
                    (or_default (cost_ceiling state) 2000%Q) (age state))
                 (Some preferences) (or_default (customer_data state) [])
                 (age state) (lower (device_type state)))
              (budget_filter catalog (lower (device_type state))
                 (or_default (cost_ceiling state) 2000%Q) (age state)))
    as [scored Hs].
  { intros p. apply score_product_total. exact Hc. }
  rewrite Hs. cbn [bind]. eexists. reflexivity.
Qed.

(** The preferences of the record stay usable once the customer data of
    the simulated CRM is in the record: its brand loyalty is a text. *)
Lemma record_preferences_usable (state s3 : ServiceCaseState) (c : Z) (br : string) :
  record_preferences_ok state ->
  customer_preferences s3 = customer_preferences state ->
  customer_data s3 = Some (simulate_salesforce_integration c br) ->
  usable_preferences s3.
Proof.
  unfold record_preferences_ok, usable_preferences.
  intros Hok -> ->.
  destruct (customer_preferences state) as [[preferences|]|];
    [|contradiction|].
  - exists preferences. split; [reflexivity|].
    unfold get_default at 1.
    destruct (lookup "preferred_brands" preferences); [exact Hok|exact I].
  - exists []. split; [reflexivity|exact I].
Qed.

(** C7.  The confidence returned by recommendation synthesis is
    min(0.95, (economic_score * 0.6 + repair_probability * 100 * 0.4) / 100),
    and it lies in [0, 0.95] when the economic score lies in [0, 100] and
    the repair probability in [0, 1].  On a record that went through the
    analyses the stage returns for every order number it can draw (for the
    recommendation replace: when the preferences of the record are usable,
    the age is from 0 on and age and catalog are within the float range),
    the two numbers are those the analyses wrote, they lie in these
    ranges, and so does the confidence. *)
Theorem synthesis_confidence :
  (forall catalog order_no now state r,
      recommendation_engine_agent catalog order_no now state = Ok r ->
      let p := or_default (repair_probability state) (75 # 100)%Q in
      exists economic_score,
        to_Q (get_default "economic_score" (or_default (margin_analysis state) [])
                          (VInt 50)) = Ok economic_score
        /\ (confidence_score r ==
            Qmin (95 # 100)
                 ((economic_score * (6 # 10) + p * 100 * (4 # 10)) / 100))%Q
        /\ ((0 <= economic_score <= 100)%Q -> (0 <= p <= 1)%Q ->
            (0 <= confidence_score r <= 95 # 100)%Q))
  /\ (forall catalog w order_no now s1 s3,
        analyse catalog w s1 = Ok s3 ->
        100000 <= order_no <= 999999 ->
        final_recommendation_of s3 = "repair"
        \/ (record_preferences_ok s1 /\ plausible_age (age s1)
            /\ plausible_catalog catalog) ->
        exists r economic_score p,
          recommendation_engine_agent catalog order_no now s3 = Ok r
          /\ lookup "economic_score" (or_default (margin_analysis s3) [])
             = Some (VInt economic_score)
          /\ repair_probability s3 = Some p
          /\ 0 <= economic_score <= 100
          /\ (0 <= p <= 1)%Q
          /\ (confidence_score r ==
              Qmin (95 # 100)
                   ((inject_Z economic_score * (6 # 10) + p * 100 * (4 # 10))
                    / 100))%Q
          /\ (0 <= confidence_score r <= 95 # 100)%Q).
Proof.
  split.
  - intros catalog order_no now state r H p.
    destruct (agent_confidence _ _ _ _ _ H) as (e & He & Hc).
    exists e. split; [exact He|]. rewrite Hc. split.
    + apply confidence_of_formula.
    + apply confidence_of_bounds.
  - intros catalog w order_no now s1 s3 Hs3 _ Hcase.
    destruct (analyse_fields _ _ _ _ Hs3) as (e & ec & He & Hec & Heq).
    destruct (economic_agent_score _ _ _ Hec) as (score & Hl & Hscore & _).
    destruct (repair_probability_factors (set_enrichment e s1))
      as (base & factor & Hp & [Hb1 Hb2] & [Hf1 Hf2] & _).
    assert (Hm : lookup "economic_score" (or_default (margin_analysis s3) [])
                 = Some (VInt score))
      by (rewrite Heq; exact Hl).
    assert (Hrp : repair_probability s3 = Some (base * factor)%Q)
      by (rewrite Heq; cbn [set_analyses repair_probability];
          rewrite Hp; reflexivity).
    assert (Hret : exists r,
               recommendation_engine_agent catalog order_no now s3 = Ok r).
    { unfold recommendation_engine_agent.
      unfold get_default at 1. rewrite Hm. cbn [to_Q as_number bind].
      destruct (String.eqb (final_recommendation_of s3) "repair") eqn:E;
        [eexists; reflexivity|].
      destruct Hcase as [Hrep|(Hprefs & _ & _)];
        [rewrite Hrep in E; discriminate|].
      destruct (replacement_options_return catalog s3) as [offers ->];
        [|eexists; reflexivity].
      destruct (enrichment_shape catalog (jitter w) (customer_no w) s1)
        as (e' & _ & _ & _ & He' & _ & _ & _ & Hd).
      rewrite He in He'. injection He' as <-.
      apply (record_preferences_usable s1 s3 (customer_no w) (brand s1));
        [exact Hprefs|rewrite Heq; reflexivity|].
      rewrite Heq. cbn [set_analyses set_enrichment customer_data].
      rewrite Hd. reflexivity. }
    destruct Hret as [r Hr]. exists r, score, (base * factor)%Q.
    split; [exact Hr|]. split; [exact Hm|]. split; [exact Hrp|].
    split; [exact Hscore|].
    assert (Hpr : (0 <= base * factor <= 1)%Q) by (split; nra).
    split; [exact Hpr|].
    destruct (agent_confidence _ _ _ _ _ Hr) as (es & Hes & ->).
    unfold get_default in Hes. rewrite Hm in Hes. injection Hes as <-.
    rewrite Hrp. cbn [or_default]. split.
    + apply confidence_of_formula.
    + apply confidence_of_bounds; [|exact Hpr].
      change 0%Q with (inject_Z 0). change 100%Q with (inject_Z 100).
      rewrite <- !Zle_Qle. exact Hscore.
Qed.

(** The three years old cooktop with the known heating error and the 15
    years old oven, after the analyses: the first is repaired, the second
    replaced. *)
Lemma synthesis_confidence_witness :
  (exists s3 r economic_score p,
      analyse REPLACEMENT_PRODUCTS world0 (triaged young_cooktop) = Ok s3
      /\ final_recommendation_of s3 = "repair"
      /\ recommendation_engine_agent REPLACEMENT_PRODUCTS 100000
                                     "2024-01-01T00:00:00" s3 = Ok r
      /\ lookup "economic_score" (or_default (margin_analysis s3) [])
         = Some (VInt economic_score)
      /\ repair_probability s3 = Some p
      /\ 0 <= economic_score <= 100
      /\ (0 <= p <= 1)%Q
      /\ (confidence_score r ==
          Qmin (95 # 100)
               ((inject_Z economic_score * (6 # 10) + p * 100 * (4 # 10))
                / 100))%Q
      /\ (0 <= confidence_score r <= 95 # 100)%Q)
  /\ (exists s3 r economic_score p,
        analyse REPLACEMENT_PRODUCTS world0 (triaged (old_oven None)) = Ok s3
        /\ final_recommendation_of s3 = "replace"
        /\ recommendation_engine_agent REPLACEMENT_PRODUCTS 100000
                                       "2024-01-01T00:00:00" s3 = Ok r
        /\ lookup "economic_score" (or_default (margin_analysis s3) [])
           = Some (VInt economic_score)
        /\ repair_probability s3 = Some p
        /\ 0 <= economic_score <= 100
        /\ (0 <= p <= 1)%Q
        /\ (confidence_score r ==
            Qmin (95 # 100)
                 ((inject_Z economic_score * (6 # 10) + p * 100 * (4 # 10))
                  / 100))%Q
        /\ (0 <= confidence_score r <= 95 # 100)%Q).
Proof.
  split.
  - destruct (analyse REPLACEMENT_PRODUCTS world0 (triaged young_cooktop))
      as [s3|err] eqn:E; [|vm_compute in E; discriminate].
    assert (Hrep : final_recommendation_of s3 = "repair")
      by (pose proof E as E'; vm_compute in E'; injection E' as <-;
          reflexivity).
    destruct (proj2 synthesis_confidence REPLACEMENT_PRODUCTS world0 100000
                    "2024-01-01T00:00:00" (triaged young_cooktop) s3 E
                    ltac:(lia) (or_introl Hrep))
      as (r & economic_score & p & H).
    exists s3, r, economic_score, p.
    split; [reflexivity|]. split; [exact Hrep|]. exact H.
  - destruct (analyse REPLACEMENT_PRODUCTS world0 (triaged (old_oven None)))
      as [s3|err] eqn:E; [|vm_compute in E; discriminate].
    assert (Hrep : final_recommendation_of s3 = "replace")
      by (pose proof E as E'; vm_compute in E'; injection E' as <-;
          reflexivity).
    assert (Hprefs : record_preferences_ok (triaged (old_oven None)))
      by exact I.
    assert (Hage : plausible_age (age (triaged (old_oven None))))
      by (split; [cbn; lia|apply float_sized_small; cbn; lia]).
    destruct (proj2 synthesis_confidence REPLACEMENT_PRODUCTS world0 100000
                    "2024-01-01T00:00:00" (triaged (old_oven None)) s3 E
                    ltac:(lia)
                    (or_intror (conj Hprefs
                                     (conj Hage builtin_catalog_plausible))))
      as (r & economic_score & p & H).
    exists s3, r, economic_score, p.
    split; [reflexivity|]. split; [exact Hrep|]. exact H.
Defined.

(** The numbers of the two runs: the analyses wrote the economic scores 100
    and 80 and the repair probabilities 0.95 and 0.375, which give the
    confidences 0.95 and 0.63. *)
Example analysed_records_confidence :
  (exists s3 r,
      analyse REPLACEMENT_PRODUCTS world0 (triaged young_cooktop) = Ok s3
      /\ recommendation_engine_agent REPLACEMENT_PRODUCTS 100000
                                     "2024-01-01T00:00:00" s3 = Ok r
      /\ lookup "economic_score" (or_default (margin_analysis s3) [])
         = Some (VInt 100)
      /\ repair_probability s3 = Some (95 # 100)%Q
      /\ (confidence_score r == 95 # 100)%Q)
  /\ (exists s3 r p,
        analyse REPLACEMENT_PRODUCTS world0 (triaged (old_oven None)) = Ok s3
        /\ recommendation_engine_agent REPLACEMENT_PRODUCTS 100000
                                       "2024-01-01T00:00:00" s3 = Ok r
        /\ lookup "economic_score" (or_default (margin_analysis s3) [])
           = Some (VInt 80)
        /\ repair_probability s3 = Some p
        /\ (p == 375 # 1000)%Q
        /\ (confidence_score r == 63 # 100)%Q).
Proof.
  split.
  - do 2 eexists. split; [vm_compute; reflexivity|].
    split; [vm_compute; reflexivity|]. repeat split.
  - do 3 eexists. split; [vm_compute; reflexivity|].
    split; [vm_compute; reflexivity|]. repeat split.
Qed.

(** *** Recommendation synthesis: the artifacts *)

Lemma economic_viability_cases (catalog : Catalog) (state : ServiceCaseState)
      (ec : Economic) :
  economic_analyst_agent catalog state = Ok ec ->
  ec_economic_viability ec = "repair" \/ ec_economic_viability ec = "replace".
Proof.
  unfold economic_analyst_agent.
  destruct (dict_of _) as [specs|e]; cbn [bind]; [|discriminate].
  destruct (to_Q (or_default (repair_cost state) (VInt 0))) as [cost|e];
    cbn [bind]; [|discriminate].
  match goal with
  | |- bind ?m _ = _ -> _ => destruct m as [roi|e]; cbn [bind]; [|discriminate]
  end.
  destruct (margin_table _) as [margins|e]; cbn [bind]; [|discriminate].
  destruct (to_Q _) as [cv|e]; cbn [bind]; [|discriminate].
  intros H. injection H as <-. cbn [ec_economic_viability].
  match goal with
  | |- context [if ?b then "repair" else "replace"] => destruct b; auto
  end.
Qed.

Lemma final_recommendation_cases (state : ServiceCaseState) :
  economic_viability state = Some "repair"
  \/ economic_viability state = Some "replace" ->
  final_recommendation_of state = "repair"
  \/ final_recommendation_of state = "replace".
Proof.
  intros H. unfold final_recommendation_of, override_for.
  destruct (Qlt_bool _ (6 # 10)); [right; reflexivity|].
  destruct (Qlt_bool (9 # 10) _ && _)%bool; [left; reflexivity|].
  destruct H as [-> | ->]; [left|right]; reflexivity.
Qed.

Lemma analyse_viability (catalog : Catalog) (w : World)
      (s1 s3 : ServiceCaseState) :
  analyse catalog w s1 = Ok s3 ->
  economic_viability s3 = Some "repair"
  \/ economic_viability s3 = Some "replace".
Proof.
  unfold analyse.
  destruct (data_enrichment_agent _ _ _ _) as [e|err]; cbn [bind];
    [|discriminate].
  destruct (economic_analyst_agent _ _) as [ec|err] eqn:Hec; cbn [bind];
    [|discriminate].
  intros H. injection H as <-. cbn [set_analyses economic_viability].
  destruct (economic_viability_cases _ _ _ Hec) as [-> | ->]; auto.
Qed.

Lemma agent_recommendation (catalog : Catalog) (order_no : Z) (now : string)
      (state : ServiceCaseState) (r : Recommendation) :
  recommendation_engine_agent catalog order_no now state = Ok r ->
  recommendation r = final_recommendation_of state.
Proof.
  unfold recommendation_engine_agent.
  destruct (to_Q _) as [e|err]; cbn [bind]; [|discriminate].
  destruct (String.eqb _ "repair").
  - intros H. injection H as <-. reflexivity.
  - destruct (generate_replacement_options catalog state) as [o|err];
      cbn [bind]; [|discriminate].
    intros H. injection H as <-. reflexivity.
Qed.

(** The workflow ends in a terminal node, with no artifact, or in
    recommendation synthesis, with recommendation repair or replace. *)
Lemma workflow_outcomes (catalog : Catalog) (w : World)
      (state : ServiceCaseState) (f : Final) :
  run_workflow catalog w state = Ok f ->
  (In (f_recommendation f) ["manufacturer_referral"; "manual_review"]
   /\ f_repair_order f = None /\ f_replacement_options f = None)
  \/ In (f_recommendation f) ["repair"; "replace"].
Proof.
  unfold run_workflow.
  destruct (str_in_list _ ["manufacturer"; "urgent_manufacturer"]).
  { intros H. injection H as <-. left. simpl. auto. }
  destruct (String.eqb _ "manual_review").
  { intros H. injection H as <-. left. simpl. auto. }
  destruct (analyse _ _ _) as [s3|err] eqn:Hs3; cbn [bind]; [|discriminate].
  destruct (recommendation_engine_agent _ _ _ _) as [r|err] eqn:Hr;
    cbn [bind]; [|discriminate].
  intros H. injection H as <-. right. cbn [f_recommendation].
  rewrite (agent_recommendation _ _ _ _ _ Hr).
  destruct (final_recommendation_cases s3 (analyse_viability _ _ _ _ Hs3))
    as [-> | ->]; simpl; auto.
Qed.

(** The artifacts written by recommendation synthesis. *)
Lemma agent_artifacts (catalog : Catalog) (order_no : Z) (now : string)
      (state : ServiceCaseState) (r : Recommendation) :
  recommendation_engine_agent catalog order_no now state = Ok r ->
  (recommendation r = "repair" ->
   repair_order r = Some (generate_repair_order order_no now state)
   /\ replacement_options r = [])
  /\ (recommendation r = "replace" ->
      repair_order r = None
      /\ generate_replacement_options catalog state = Ok (replacement_options r)
      /\ List.length (replacement_options r) =
         Nat.min 3
           (List.length
              (budget_filter catalog (lower (device_type state))
                 (or_default (cost_ceiling state) 2000%Q) (age state)))).
Proof.
  intros H. pose proof (agent_recommendation _ _ _ _ _ H) as Hrec.
  unfold recommendation_engine_agent in H.
  destruct (to_Q _) as [e|err]; cbn [bind] in H; [|discriminate].
  destruct (String.eqb (final_recommendation_of state) "repair") eqn:E.
  - injection H as <-. cbn [repair_order replacement_options recommendation].
    split; [auto|].
    apply String.eqb_eq in E. rewrite E. discriminate.
  - destruct (generate_replacement_options catalog state) as [o|err] eqn:Ho;
      cbn [bind] in H; [|discriminate].
    injection H as <-. cbn [repair_order replacement_options recommendation].
    split.
    + intros Heq. rewrite Heq in E. discriminate.
    + intros _. repeat split. apply offers_length. exact Ho.
Qed.

(** C3 (as amended).  Recommendation synthesis returns, with repair, a
    repair order and an empty list of replacement options; with replace, no
    repair order and the list returned by the ranker, which holds the first
    three of the products that pass the budget filter and is empty when
    there is none.  So does a case that the workflow processes to its end,
    where the order and the list are those written for the record that
    went through the analyses.  The manufacturer referral, manual review
    and error outcomes carry neither artifact. *)
Theorem artifacts_follow_recommendation :
  (forall catalog order_no now state r,
      recommendation_engine_agent catalog order_no now state = Ok r ->
      (recommendation r = "repair" ->
       repair_order r = Some (generate_repair_order order_no now state)
       /\ replacement_options r = [])
      /\ (recommendation r = "replace" ->
          repair_order r = None
          /\ generate_replacement_options catalog state
             = Ok (replacement_options r)
          /\ List.length (replacement_options r) =
             Nat.min 3
               (List.length
                  (budget_filter catalog (lower (device_type state))
                     (or_default (cost_ceiling state) 2000%Q) (age state)))))
  /\ (forall catalog w state f,
        run_workflow catalog w state = Ok f ->
        (f_recommendation f = "repair" ->
         exists s3,
           analyse catalog w (triaged state) = Ok s3
           /\ f_repair_order f
              = Some (generate_repair_order (order_no w) (now w) s3)
           /\ f_replacement_options f = Some [])
        /\ (f_recommendation f = "replace" ->
            exists s3 offers,
              analyse catalog w (triaged state) = Ok s3
              /\ f_repair_order f = None
              /\ generate_replacement_options catalog s3 = Ok offers
              /\ f_replacement_options f = Some offers
              /\ List.length offers =
                 Nat.min 3 (List.length (affordable catalog s3))))
  /\ (forall catalog w state,
        In (f_recommendation (handled_workflow catalog w state))
           ["manufacturer_referral"; "manual_review"; "error"] ->
        f_repair_order (handled_workflow catalog w state) = None
        /\ f_replacement_options (handled_workflow catalog w state) = None).
Proof.
  split; [|split].
  - intros catalog order_no now state r. apply agent_artifacts.
  - intros catalog w state f. unfold run_workflow.
    destruct (str_in_list _ ["manufacturer"; "urgent_manufacturer"]).
    { intros H. injection H as <-. split; discriminate. }
    destruct (String.eqb _ "manual_review").
    { intros H. injection H as <-. split; discriminate. }
    change (set_triage (triage_agent state) state) with (triaged state).
    destruct (analyse _ _ _) as [s3|err]; cbn [bind]; [|discriminate].
    destruct (recommendation_engine_agent _ _ _ _) as [r|err] eqn:Hr;
      cbn [bind]; [|discriminate].
    intros H. injection H as <-.
    cbn [f_recommendation f_repair_order f_replacement_options].
    destruct (agent_artifacts _ _ _ _ _ Hr) as [H1 H2]. split.
    + intros Hrec. destruct (H1 Hrec) as [-> ->].
      exists s3. repeat split.
    + intros Hrec. destruct (H2 Hrec) as (-> & Ho & Hlen).
      exists s3, (replacement_options r). repeat split; assumption.
  - intros catalog w state. unfold handled_workflow.
    destruct (run_workflow catalog w state) as [f|err] eqn:Hf.
    + destruct (workflow_outcomes _ _ _ _ Hf) as [(_ & H1 & H2) | Hin].
      * auto.
      * destruct Hin as [Hin|[Hin|[]]]; rewrite <- Hin; simpl;
          intros Hin'; exfalso;
          repeat (destruct Hin' as [Hin'|Hin']; try discriminate);
          contradiction.
    + intros _. split; reflexivity.
Qed.

(** The 15 years old oven goes through the workflow and is replaced, with
    the two offers of the ranker; the three years old cooktop is repaired,
    with the order written for the analysed record. *)
Lemma artifacts_follow_recommendation_witness :
  (exists f s3 offers,
      run_workflow REPLACEMENT_PRODUCTS world0 (old_oven None) = Ok f
      /\ f_recommendation f = "replace"
      /\ analyse REPLACEMENT_PRODUCTS world0 (triaged (old_oven None)) = Ok s3
      /\ f_repair_order f = None
      /\ generate_replacement_options REPLACEMENT_PRODUCTS s3 = Ok offers
      /\ f_replacement_options f = Some offers
      /\ List.length offers
         = Nat.min 3 (List.length (affordable REPLACEMENT_PRODUCTS s3)))
  /\ (exists f s3,
        run_workflow REPLACEMENT_PRODUCTS world0 young_cooktop = Ok f
        /\ f_recommendation f = "repair"
        /\ analyse REPLACEMENT_PRODUCTS world0 (triaged young_cooktop) = Ok s3
        /\ f_repair_order f
           = Some (generate_repair_order (order_no world0) (now world0) s3)
        /\ f_replacement_options f = Some []).
Proof.
  split.
  - destruct (run_workflow REPLACEMENT_PRODUCTS world0 (old_oven None))
      as [f|err] eqn:E; [|vm_compute in E; discriminate].
    assert (Hrec : f_recommendation f = "replace")
      by (pose proof E as E'; vm_compute in E'; injection E' as <-;
          reflexivity).
    destruct (proj2 (proj1 (proj2 artifacts_follow_recommendation)
                           REPLACEMENT_PRODUCTS world0 (old_oven None) f E)
                    Hrec)
      as (s3 & offers & H).
    exists f, s3, offers. split; [reflexivity|]. split; [exact Hrec|].
    exact H.
  - destruct (run_workflow REPLACEMENT_PRODUCTS world0 young_cooktop)
      as [f|err] eqn:E; [|vm_compute in E; discriminate].
    assert (Hrec : f_recommendation f = "repair")
      by (pose proof E as E'; vm_compute in E'; injection E' as <-;
          reflexivity).
    destruct (proj1 (proj1 (proj2 artifacts_follow_recommendation)
                           REPLACEMENT_PRODUCTS world0 young_cooktop f E)
                    Hrec)
      as (s3 & H).
    exists f, s3. split; [reflexivity|]. split; [exact Hrec|].
    exact H.
Defined.

(** The offers of that run: two, as two of the three ovens of the catalog
    pass the budget filter. *)
Example old_oven_offers :
  exists f o1 o2 s3,
    run_workflow REPLACEMENT_PRODUCTS world0 (old_oven None) = Ok f
    /\ f_replacement_options f = Some [o1; o2]
    /\ analyse REPLACEMENT_PRODUCTS world0 (triaged (old_oven None)) = Ok s3
    /\ List.length (affordable REPLACEMENT_PRODUCTS s3) = 2%nat.
Proof.
  do 4 eexists. split; [vm_compute; reflexivity|].
  split; [reflexivity|]. split; [vm_compute; reflexivity|]. reflexivity.
Qed.

(** C3, refuted as stated: the ten years old dishwasher goes through the
    whole workflow and gets the recommendation replace with an empty list
    of replacement options, as both dishwashers of the catalog cost more
    than 1.5 times the ceiling of 600. *)
Lemma replace_without_offers :
  exists f,
    run_workflow REPLACEMENT_PRODUCTS world0 noisy_dishwasher = Ok f
    /\ f_recommendation f = "replace"
    /\ f_repair_order f = None
    /\ f_replacement_options f = Some [].
Proof. eexists. split; [vm_compute; reflexivity|]. repeat split. Qed.

(** *** Randomness *)

Lemma lookup_other {A : Type} (k k' : string) (v : A) (d : list (string * A)) :
  k <> k' -> lookup k ((k', v) :: d) = lookup k d.
Proof. intros H. simpl. apply String.eqb_neq in H. rewrite H. reflexivity. Qed.

(** C4 (as amended).  The random draws of the enrichment stage reach only
    the repair cost (with the labor and parts cost derived from it) and the
    customer number; the order number and the clock reading of recommendation
    synthesis reach only the [order_id] and [created_timestamp] of the repair
    order.  Everything else in the output of the two stages, and whether a
    stage raises, is the same on any two runs on the same record.  The
    draws are taken in the ranges they are drawn from. *)
Theorem draws_reach_only_cost_and_stamps :
  (forall catalog j1 c1 j2 c2 state,
      -50 <= j1 <= 100 -> -50 <= j2 <= 100 ->
      10000 <= c1 <= 99999 -> 10000 <= c2 <= 99999 ->
      match data_enrichment_agent catalog j1 c1 state,
            data_enrichment_agent catalog j2 c2 state with
      | Ok e1, Ok e2 =>
          e_spare_part_availability e1 = e_spare_part_availability e2
          /\ e_device_specs e1 = e_device_specs e2
          /\ e_cost_ceiling e1 = e_cost_ceiling e2
          /\ e_pim_data e1 = e_pim_data e2
          /\ (forall k, k <> "customer_id" ->
                        lookup k (e_customer_data e1)
                        = lookup k (e_customer_data e2))
          /\ (forall k,
                 ~ In k ["estimated_repair_cost"; "labor_cost"; "parts_cost"] ->
                 lookup k (e_sap_data e1) = lookup k (e_sap_data e2))
          /\ (j1 = j2 -> c1 = c2 -> e1 = e2)
      | Raise x1, Raise x2 => x1 = x2
      | _, _ => False
      end)
  /\ (forall catalog n1 t1 n2 t2 state,
        100000 <= n1 <= 999999 -> 100000 <= n2 <= 999999 ->
        match recommendation_engine_agent catalog n1 t1 state,
              recommendation_engine_agent catalog n2 t2 state with
        | Ok r1, Ok r2 =>
            recommendation r1 = recommendation r2
            /\ replacement_options r1 = replacement_options r2
            /\ confidence_score r1 = confidence_score r2
            /\ override_reason r1 = override_reason r2
            /\ same_order_up_to_stamp (repair_order r1) (repair_order r2)
            /\ (n1 = n2 -> t1 = t2 -> r1 = r2)
        | Raise x1, Raise x2 => x1 = x2
        | _, _ => False
        end).
Proof.
  split.
  - intros catalog j1 c1 j2 c2 state _ _ _ _.
    destruct (enrichment_returns catalog j1 c1 state)
      as (cost1 & avail1 & specs1 & Hc1 & Ha1 & Hs1 & H1).
    destruct (enrichment_returns catalog j2 c2 state)
      as (cost2 & avail2 & specs2 & Hc2 & Ha2 & Hs2 & H2).
    rewrite H1, H2.
    cbn [e_spare_part_availability e_device_specs e_cost_ceiling e_pim_data
         e_customer_data e_sap_data].
    split; [|split; [|split; [|split; [|split; [|split]]]]].
    + unfold simulate_sap_integration in Ha1, Ha2.
      cbn [lookup String.eqb Ascii.eqb Bool.eqb] in Ha1, Ha2. congruence.
    + congruence.
    + reflexivity.
    + reflexivity.
    + intros k Hk. unfold simulate_salesforce_integration.
      rewrite !(lookup_other k "customer_id") by exact Hk. reflexivity.
    + intros k Hk. unfold simulate_sap_integration.
      assert (k <> "estimated_repair_cost") by (intros ->; apply Hk; simpl; auto).
      assert (k <> "labor_cost") by (intros ->; apply Hk; simpl; auto).
      assert (k <> "parts_cost") by (intros ->; apply Hk; simpl; auto).
      rewrite !(lookup_other k "estimated_repair_cost") by assumption.
      destruct (String.eqb_spec k "parts_availability") as [->|Hne];
        [reflexivity|].
      rewrite !(lookup_other k "parts_availability") by assumption.
      rewrite !(lookup_other k "labor_cost") by assumption.
      rewrite !(lookup_other k "parts_cost") by assumption.
      reflexivity.
    + intros -> ->. congruence.
  - intros catalog n1 t1 n2 t2 state _ _. unfold recommendation_engine_agent.
    destruct (to_Q _) as [e|err]; cbn [bind]; [|reflexivity].
    destruct (String.eqb _ "repair").
    + cbn [recommendation replacement_options confidence_score override_reason
           repair_order same_order_up_to_stamp].
      repeat split.
      * intros k Hk1 Hk2. unfold generate_repair_order.
        rewrite !(lookup_other k "order_id") by exact Hk1.
        repeat (match goal with
                | |- lookup k ((?k', _) :: _) = lookup k ((?k', _) :: _) =>
                    destruct (String.eqb_spec k k') as [->|?];
                    [try reflexivity; try contradiction
                    |rewrite !(lookup_other k k') by assumption]
                end).
        reflexivity.
      * intros -> ->. reflexivity.
    + destruct (generate_replacement_options catalog state) as [o|err];
        cbn [bind]; [|reflexivity].
      cbn [recommendation replacement_options confidence_score override_reason
           repair_order same_order_up_to_stamp].
      repeat split.
Qed.

(** Two runs of the enrichment stage on the young cooktop, with the jitters
    0 and 100 and two customer numbers, and two runs of synthesis on it,
    with two order numbers and clock readings. *)
Lemma draws_reach_only_cost_and_stamps_witness :
  (exists e1 e2,
      data_enrichment_agent REPLACEMENT_PRODUCTS 0 12345 young_cooktop = Ok e1
      /\ data_enrichment_agent REPLACEMENT_PRODUCTS 100 54321 young_cooktop
         = Ok e2
      /\ e_repair_cost e1 <> e_repair_cost e2
      /\ e_spare_part_availability e1 = e_spare_part_availability e2
      /\ e_device_specs e1 = e_device_specs e2
      /\ e_cost_ceiling e1 = e_cost_ceiling e2
      /\ e_pim_data e1 = e_pim_data e2
      /\ (forall k, k <> "customer_id" ->
                    lookup k (e_customer_data e1) = lookup k (e_customer_data e2))
      /\ (forall k, ~ In k ["estimated_repair_cost"; "labor_cost"; "parts_cost"] ->
                    lookup k (e_sap_data e1) = lookup k (e_sap_data e2)))
  /\ (exists r1 r2,
        recommendation_engine_agent REPLACEMENT_PRODUCTS 100000 "t1" young_cooktop
        = Ok r1
        /\ recommendation_engine_agent REPLACEMENT_PRODUCTS 999999 "t2"
                                       young_cooktop
           = Ok r2
        /\ repair_order r1 <> repair_order r2
        /\ recommendation r1 = recommendation r2
        /\ replacement_options r1 = replacement_options r2
        /\ confidence_score r1 = confidence_score r2
        /\ override_reason r1 = override_reason r2
        /\ same_order_up_to_stamp (repair_order r1) (repair_order r2)).
Proof.
  split.
  - pose proof (proj1 draws_reach_only_cost_and_stamps
                      REPLACEMENT_PRODUCTS 0 12345 100 54321 young_cooktop
                      ltac:(lia) ltac:(lia) ltac:(lia) ltac:(lia))
      as H.
    destruct (data_enrichment_agent REPLACEMENT_PRODUCTS 0 12345 young_cooktop)
      as [e1|x1] eqn:E1; [|vm_compute in E1; discriminate].
    destruct (data_enrichment_agent REPLACEMENT_PRODUCTS 100 54321 young_cooktop)
      as [e2|x2] eqn:E2; [|vm_compute in E2; discriminate].
    destruct H as (Ha & Hs & Hc & Hp & Hcd & Hsd & _).
    exists e1, e2. split; [reflexivity|]. split; [reflexivity|].
    split; [|auto 10].
    vm_compute in E1, E2. injection E1 as <-. injection E2 as <-. discriminate.
  - pose proof (proj2 draws_reach_only_cost_and_stamps
                      REPLACEMENT_PRODUCTS 100000 "t1" 999999 "t2" young_cooktop
                      ltac:(lia) ltac:(lia))
      as H.
    destruct (recommendation_engine_agent REPLACEMENT_PRODUCTS 100000 "t1"
                                          young_cooktop)
      as [r1|x1] eqn:E1; [|vm_compute in E1; discriminate].
    destruct (recommendation_engine_agent REPLACEMENT_PRODUCTS 999999 "t2"
                                          young_cooktop)
      as [r2|x2] eqn:E2; [|vm_compute in E2; discriminate].
    destruct H as (H1 & H2 & H3 & H4 & H5 & _).
    exists r1, r2. split; [reflexivity|]. split; [reflexivity|].
    split; [|auto 10].
    vm_compute in E1, E2. injection E1 as <-. injection E2 as <-. discriminate.
Defined.

(** C4, refuted as stated: two runs of the enrichment stage on the same
    record give the repair costs 180 and 280 when the jitters drawn are 0
    and 100; two runs of recommendation synthesis on the same record give
    repair orders with different numbers. *)
Lemma two_runs_differ :
  (exists e1 e2,
      data_enrichment_agent REPLACEMENT_PRODUCTS 0 12345 young_cooktop = Ok e1
      /\ data_enrichment_agent REPLACEMENT_PRODUCTS 100 12345 young_cooktop = Ok e2
      /\ e_repair_cost e1 = VInt 180
      /\ e_repair_cost e2 = VInt 280)
  /\ (exists r1 r2 o1 o2,
        recommendation_engine_agent REPLACEMENT_PRODUCTS 100000 "" young_cooktop
        = Ok r1
        /\ recommendation_engine_agent REPLACEMENT_PRODUCTS 999999 "" young_cooktop
           = Ok r2
        /\ repair_order r1 = Some o1 /\ repair_order r2 = Some o2
        /\ lookup "order_id" o1 = Some (VStr "REP_100000")
        /\ lookup "order_id" o2 = Some (VStr "REP_999999")).
Proof.
  split.
  - do 2 eexists. split; [vm_compute; reflexivity|].
    split; [vm_compute; reflexivity|]. split; reflexivity.
  - do 4 eexists. split; [vm_compute; reflexivity|].
    split; [vm_compute; reflexivity|].
    split; [reflexivity|]. split; [reflexivity|]. split; reflexivity.
Qed.

(** *** The end-to-end scenarios of the specification *)

(** Scenario A: the three years old cooktop is repaired. *)
Example scenario_young_cooktop :
  exists f,
    run_workflow REPLACEMENT_PRODUCTS world0 young_cooktop = Ok f
    /\ f_recommendation f = "repair"
    /\ f_replacement_options f = Some []
    /\ f_repair_order f <> None.
Proof.
  eexists. split; [vm_compute; reflexivity|].
  repeat split. discriminate.
Qed.

(** Scenario B: the 15 years old oven is replaced, with two ranked offers. *)
Example scenario_old_oven :
  exists f o1 o2,
    route (triage_agent (old_oven None)) = "replacement_focus"
    /\ run_workflow REPLACEMENT_PRODUCTS world0 (old_oven None) = Ok f
    /\ f_recommendation f = "replace"
    /\ f_repair_order f = None
    /\ f_replacement_options f = Some [o1; o2]
    /\ p_model (product o1) = "HB678GBS6"
    /\ (recommendation_score o1 == 831 # 10)%Q
    /\ p_model (product o2) = "Combair V6000 Supreme"
    /\ (recommendation_score o2 == 70)%Q.
Proof.
  do 3 eexists. split; [reflexivity|]. split; [vm_compute; reflexivity|].
  repeat split.
Qed.

(** Scenario C: smoke from the one year old cooktop is referred to the
    manufacturer at once. *)
Example scenario_smoking_cooktop :
  route (triage_agent smoking_cooktop) = "urgent_manufacturer"
  /\ run_workflow REPLACEMENT_PRODUCTS world0 smoking_cooktop
     = Ok (mkFinal "manufacturer_referral" None None 1%Q).
Proof. split; reflexivity. Qed.

End PipelineSpec.

(** ** More on the rule evaluator *)

Module RuleEvaluatorFacts.
Import Rules RuleSummary RuleEvaluatorSpec.

Lemma split_on_nonempty (sep : ascii) (s : string) : split_on sep s <> [].
Proof.
  destruct s as [|c s]; simpl; [discriminate|].
  destruct (Ascii.eqb c sep); [discriminate|].
  destruct (split_on sep s); discriminate.
Qed.

Lemma split_on_app_sep (sep : ascii) (p q : string) :
  split_on sep (p ++ String sep q)%string = split_on sep p ++ split_on sep q.
Proof.
  induction p as [|c p IH]; simpl.
  - rewrite Ascii.eqb_refl. reflexivity.
  - destruct (Ascii.eqb c sep); [rewrite IH; reflexivity|].
    rewrite IH. pose proof (split_on_nonempty sep p) as Hne.
    destruct (split_on sep p); [contradiction|reflexivity].
Qed.

(** X5.  The dotted path [p.q] reads [q] in what [p] reads. *)
Theorem nested_lookup_composes (data : value) (p q : string) :
  get_nested_value data (p ++ "." ++ q)%string =
  get_nested_value (get_nested_value data p) q.
Proof.
  unfold get_nested_value.
  change (p ++ "." ++ q)%string with (p ++ String "."%char q)%string.
  rewrite split_on_app_sep. apply walk_keys_app.
Qed.

Lemma first_segment_has_no_dot (s : string) :
  match split_on "."%char s with
  | h :: _ => has_dot h = false
  | [] => False
  end.
Proof.
  induction s as [|c s IH]; simpl; [reflexivity|].
  destruct (Ascii.eqb c ".") eqn:E; [reflexivity|].
  destruct (split_on "." s) as [|w ws]; simpl; [rewrite E; reflexivity|].
  rewrite E. exact IH.
Qed.

Lemma lookup_dict_set_other {A : Type} (k k' : string) (v : A)
      (d : list (string * A)) :
  k' <> k -> lookup k' (dict_set k v d) = lookup k' d.
Proof.
  intros Hne. induction d as [|[k0 v0] d IH]; simpl.
  - apply String.eqb_neq in Hne. rewrite Hne. reflexivity.
  - destruct (String.eqb k k0) eqn:E; simpl.
    + apply String.eqb_eq in E. subst k0.
      apply String.eqb_neq in Hne. rewrite Hne. reflexivity.
    + destruct (String.eqb k' k0); [reflexivity|exact IH].
Qed.

Lemma lookup_dict_set_same {A : Type} (k : string) (v : A)
      (d : list (string * A)) :
  lookup k (dict_set k v d) = Some v.
Proof.
  induction d as [|[k0 v0] d IH]; simpl.
  - rewrite String.eqb_refl. reflexivity.
  - destruct (String.eqb k k0) eqn:E; simpl; rewrite E; [reflexivity|exact IH].
Qed.

(** X6.  A key with a dot in it cannot be addressed: what the path reads is
    the same whatever is stored under that key. *)
Theorem dotted_key_is_out_of_reach (d : pydict) (k : string) (v : value) :
  has_dot k = true ->
  get_nested_value (VDict (dict_set k v d)) k = get_nested_value (VDict d) k.
Proof.
  intros Hdot. unfold get_nested_value.
  pose proof (first_segment_has_no_dot k) as Hh.
  destruct (split_on "." k) as [|h rest]; [contradiction|].
  simpl. rewrite lookup_dict_set_other; [reflexivity|].
  intros ->. rewrite Hdot in Hh. discriminate.
Qed.

(** The customer name cannot be read under the key [customer.name]. *)
Lemma dotted_key_is_out_of_reach_witness :
  has_dot "customer.name" = true
  /\ get_nested_value
       (VDict (dict_set "customer.name" (VStr "B. Meier")
                        [("customer", VDict [("name", VStr "A. Muster")])]))
       "customer.name"
     = VStr "A. Muster".
Proof.
  split; [reflexivity|].
  rewrite (dotted_key_is_out_of_reach
             [("customer", VDict [("name", VStr "A. Muster")])]
             "customer.name" (VStr "B. Meier") eq_refl).
  reflexivity.
Defined.

(** A key without a dot is read back. *)
Lemma plain_key_round_trip (d : pydict) (k : string) (v : value) :
  has_dot k = false ->
  get_nested_value (VDict (dict_set k v d)) k = v.
Proof.
  intros Hdot. unfold get_nested_value.
  assert (H : split_on "." k = [k]).
  { clear d v. induction k as [|c k IH]; simpl in *; [reflexivity|].
    apply orb_false_elim in Hdot. destruct Hdot as [Hc Hk].
    rewrite Hc, (IH Hk). reflexivity. }
  rewrite H. simpl. rewrite lookup_dict_set_same. reflexivity.
Qed.

Lemma py_sorted_of_sorted {A : Type} (le : A -> A -> bool) (l : list A) :
  Sorted (fun x y => le x y = true) l -> py_sorted le l = l.
Proof.
  induction 1 as [|x l Hs IH Hhd]; simpl; [reflexivity|].
  rewrite IH. destruct Hhd as [|y l' Hxy]; simpl; [reflexivity|].
  rewrite Hxy. reflexivity.
Qed.

(** X7.  Rule sets written in ascending order of priority, equal priorities
    included, are scanned in the order they are written. *)
Theorem written_order_is_kept (rule_sets : RuleSets) :
  ascending_as_written rule_sets ->
  scan_order rule_sets =
  flat_map (fun item => map (fun r => (fst item, r)) (rules (snd item)))
           rule_sets.
Proof.
  intros Hs. unfold scan_order, sorted_rule_sets.
  rewrite py_sorted_of_sorted; [reflexivity|].
  unfold ascending_as_written in Hs.
  induction Hs as [|x l Hs IH Hhd]; constructor; [exact IH|].
  destruct Hhd as [|y l' Hxy]; constructor. apply Z.leb_le. exact Hxy.
Qed.

Lemma written_order_is_kept_witness :
  ascending_as_written default_rules
  /\ scan_order default_rules =
     flat_map (fun item => map (fun r => (fst item, r)) (rules (snd item)))
              default_rules.
Proof.
  assert (H : ascending_as_written default_rules).
  { unfold ascending_as_written, default_rules.
    repeat (constructor; [|try (constructor; unfold priority_of; simpl; lia)]).
    constructor. }
  split; [exact H|]. exact (written_order_is_kept default_rules H).
Defined.

(** *** The conditions of a rule *)

Section Conditions.
Variable py_repr : value -> string.

Lemma conditions_app_true (pre rest : list Condition) (case_data : value) :
  Forall (fun c => evaluate_single_condition py_repr c case_data = Ok true) pre ->
  evaluate_rule_conditions py_repr (pre ++ rest) case_data =
  evaluate_rule_conditions py_repr rest case_data.
Proof.
  induction 1 as [|c pre Hc _ IH]; simpl; [reflexivity|].
  rewrite Hc. simpl. exact IH.
Qed.

(** X4.  The conditions of a rule are tested in order and the first false
    one settles the rule: the conditions after it are not evaluated, so one
    that would raise there does no harm. *)
Theorem conditions_short_circuit
        (pre post : list Condition) (c : Condition) (case_data : value) :
  Forall (fun c' => evaluate_single_condition py_repr c' case_data = Ok true) pre ->
  evaluate_single_condition py_repr c case_data = Ok false ->
  evaluate_rule_conditions py_repr (pre ++ c :: post) case_data = Ok false.
Proof.
  intros Hpre Hc. rewrite (conditions_app_true pre (c :: post) case_data Hpre).
  simpl. rewrite Hc. reflexivity.
Qed.

Lemma contains_any_lower (l1 l2 : list string) (hay : string) :
  map lower l1 = map lower l2 ->
  contains_any (map VStr l1) hay = contains_any (map VStr l2) hay.
Proof.
  revert l2. induction l1 as [|x l1 IH]; intros [|y l2] H; try discriminate.
  - reflexivity.
  - simpl in H. injection H as Hx Hl. simpl. rewrite Hx, (IH l2 Hl). reflexivity.
Qed.

Lemma contains_all_lower (l1 l2 : list string) (hay : string) :
  map lower l1 = map lower l2 ->
  contains_all (map VStr l1) hay = contains_all (map VStr l2) hay.
Proof.
  revert l2. induction l1 as [|x l1 IH]; intros [|y l2] H; try discriminate.
  - reflexivity.
  - simpl in H. injection H as Hx Hl. simpl. rewrite Hx, (IH l2 Hl). reflexivity.
Qed.

(** X8.  The operator [contains] does not see the case of the texts it
    looks for: two lists of texts that agree once lowered, or two such
    texts, give the same result, with "match any" and with "match all". *)
Theorem contains_ignores_case
        (f : string) (vf : option string) (any : bool) (case_data : value) :
  (forall l1 l2,
      map lower l1 = map lower l2 ->
      evaluate_single_condition py_repr
        (mkCondition f "contains" (strs l1) vf any) case_data =
      evaluate_single_condition py_repr
        (mkCondition f "contains" (strs l2) vf any) case_data)
  /\ (forall s1 s2,
        lower s1 = lower s2 ->
        evaluate_single_condition py_repr
          (mkCondition f "contains" (VStr s1) vf any) case_data =
        evaluate_single_condition py_repr
          (mkCondition f "contains" (VStr s2) vf any) case_data).
Proof.
  split.
  - intros l1 l2 H. unfold evaluate_single_condition. cbn [field operator
      expected_value value_field match_any].
    destruct (is_none (get_nested_value case_data f)); [reflexivity|].
    match goal with
    | |- context [if ?d then match vf with _ => _ end else _] => destruct d
    end; [reflexivity|].
    cbn [andb String.eqb Ascii.eqb Bool.eqb]. unfold strs.
    destruct any; [apply contains_any_lower|apply contains_all_lower]; exact H.
  - intros s1 s2 H. unfold evaluate_single_condition. cbn [field operator
      expected_value value_field match_any].
    destruct (is_none (get_nested_value case_data f)); [reflexivity|].
    match goal with
    | |- context [if ?d then match vf with _ => _ end else _] => destruct d
    end; [reflexivity|].
    cbn [andb String.eqb Ascii.eqb Bool.eqb py_str]. rewrite H. reflexivity.
Qed.

End Conditions.

(** *** What the evaluator returns *)

Section Returns.
Variable py_repr : value -> string.

Lemma rule_step_tallies (case_data : value) (st : LoopState)
      (entry : string * Rule) (s : Step) :
  tallies_ok st ->
  rule_step py_repr case_data st entry = Ok s ->
  match s with
  | Running st' => tallies_ok st'
  | Returned r =>
      exists cat,
        final_recommendation r = Some cat /\ In cat categories
        /\ Rules.confidence_score r = 1%Q
  end.
Proof.
  intros (a & b & c & d & Hw & Ha & Hb & Hc & Hd & Ht).
  destruct entry as [set_name rule]. unfold rule_step.
  destruct (evaluate_rule_conditions py_repr (conditions rule) case_data)
    as [[|]|err]; cbn [bind]; [| |discriminate].
  - destruct (override rule).
    + intros H. injection H as <-. eexists. split; [reflexivity|].
      split; [apply action_to_recommendation_in|reflexivity].
    + destruct (weight rule) as [w|].
      * destruct (w >? 0) eqn:Hpos.
        -- apply Z.gtb_lt in Hpos. rewrite Hw.
           destruct (action_to_recommendation_in (action rule))
             as [H|[H|[H|[H|[]]]]]; rewrite <- H; cbn;
             intros E; injection E as <-;
             do 4 eexists; cbn; (split; [reflexivity|]);
             repeat split; lia.
        -- intros E. injection E as <-.
           exists a, b, c, d. cbn. repeat split; assumption.
      * cbn. intros E. injection E as <-.
        exists a, b, c, d. cbn. repeat split; assumption.
  - intros E. injection E as <-.
    exists a, b, c, d. repeat split; assumption.
Qed.

Lemma scan_tallies (case_data : value) (entries : list (string * Rule)) :
  forall st s,
    tallies_ok st ->
    scan py_repr case_data entries st = Ok s ->
    match s with
    | Running st' => tallies_ok st'
    | Returned r =>
        exists cat,
          final_recommendation r = Some cat /\ In cat categories
          /\ Rules.confidence_score r = 1%Q
    end.
Proof.
  induction entries as [|e entries IH]; intros st s Hok; simpl.
  - intros H. injection H as <-. exact Hok.
  - destruct (rule_step py_repr case_data st e) as [s1|err] eqn:Hstep;
      cbn [bind]; [|discriminate].
    pose proof (rule_step_tallies case_data st e s1 Hok Hstep) as H1.
    destruct s1 as [r|st1].
    + intros H. injection H as <-. exact H1.
    + apply IH. exact H1.
Qed.

Lemma initial_tallies_ok : tallies_ok initial_state.
Proof. exists 0, 0, 0, 0. cbn. repeat split; lia. Qed.

(** X1.  Whenever the evaluator returns, the recommendation is one of the
    four categories repair, replace, manufacturer, manual, and the
    confidence lies between 1/4 and 1. *)
Theorem evaluation_result_in_range
        (rule_sets : RuleSets) (case_data : value) (res : Results) :
  evaluate_rules py_repr rule_sets case_data = Ok res ->
  exists cat,
    final_recommendation res = Some cat
    /\ In cat categories
    /\ (1 # 4 <= Rules.confidence_score res <= 1)%Q.
Proof.
  unfold evaluate_rules.
  destruct (scan py_repr case_data (scan_order rule_sets) initial_state)
    as [s|err] eqn:Hscan; cbn [bind]; [|discriminate].
  pose proof (scan_tallies case_data _ _ _ initial_tallies_ok Hscan) as H.
  destruct s as [r|st].
  - intros E. injection E as <-. destruct H as (cat & H1 & H2 & H3).
    exists cat. rewrite H3. repeat split; try assumption; discriminate.
  - intros E. injection E as <-.
    destruct H as (a & b & c & d & Hw & Ha & Hb & Hc & Hd & Ht).
    destruct st as [r t w]. cbn [recommendation_weights total_weight] in *.
    subst w.
    destruct (Z.ltb_spec 0 t) as [Hpos|Hle].
    + destruct (finalize_four r a b c d t Ha Hb Hc Hd Ht Hpos)
        as (best & before & after & Hrec & Hcat & Hbefore & Hafter & Hconf).
      exists best. split; [exact Hrec|].
      assert (Hin : In best categories)
        by (rewrite Hcat; apply in_or_app; right; left; reflexivity).
      split; [exact Hin|]. rewrite Hconf.
      assert (Hmax : forall x, In x categories ->
                get_default x [("repair", a); ("replace", b);
                               ("manufacturer", c); ("manual", d)] 0
                <= get_default best [("repair", a); ("replace", b);
                                     ("manufacturer", c); ("manual", d)] 0).
      { intros x Hx. rewrite Hcat in Hx. apply in_app_or in Hx.
        destruct Hx as [Hx|[<-|Hx]]; [apply Z.lt_le_incl, Hbefore, Hx
                                     |apply Z.le_refl|apply Hafter, Hx]. }
      pose proof (Hmax "repair" (or_introl eq_refl)) as Ma.
      pose proof (Hmax "replace" (or_intror (or_introl eq_refl))) as Mb.
      pose proof (Hmax "manufacturer"
                       (or_intror (or_intror (or_introl eq_refl)))) as Mc.
      pose proof (Hmax "manual"
                       (or_intror (or_intror (or_intror (or_introl eq_refl)))))
        as Md.
      cbn in Ma, Mb, Mc, Md.
      set (m := get_default best _ 0) in *.
      assert (Hm : m <= t).
      { destruct Hin as [<-|[<-|[<-|[<-|[]]]]]; cbn in m; subst m; lia. }
      split.
      * apply Qle_shift_div_l.
        -- replace 0%Q with (inject_Z 0) by reflexivity.
           rewrite <- Zlt_Qlt. exact Hpos.
        -- unfold Qle. cbn [Qnum Qden Qmult inject_Z]. lia.
      * apply ratio_le_1; assumption.
    + exists "repair". unfold finalize. cbn [total_weight].
      assert (E : (t >? 0) = false) by (rewrite Z.gtb_ltb; apply Z.ltb_ge; exact Hle).
      rewrite E. cbn. repeat split; auto; discriminate.
Qed.

Lemma rule_step_passes_results (case_data : value) (st : LoopState)
      (entry : string * Rule) :
  passes py_repr case_data entry ->
  weights_ok st ->
  exists st',
    rule_step py_repr case_data st entry = Ok (Running st')
    /\ applied_rules (results st') =
       applied_rules (results st) ++ matching_entries py_repr case_data [entry]
    /\ rule_weights (results st') = rule_weights (results st)
    /\ override_applied (results st') = override_applied (results st).
Proof.
  intros (b & Hev & Hov) Hok. destruct entry as [set_name rule].
  simpl in *. unfold rule_step, matching_entries, fires. cbn [filter snd fst].
  rewrite Hev. cbn [bind]. destruct b.
  - rewrite (Hov eq_refl).
    destruct (weight rule) as [w|].
    + destruct (w >? 0).
      * destruct (dict_add_ok (action_to_recommendation (action rule)) w
                    (recommendation_weights st)) as (d' & Hd & _).
        { rewrite Hok. apply action_to_recommendation_in. }
        rewrite Hd. cbn [bind]. eexists. split; [reflexivity|].
        cbn. repeat split.
      * eexists. split; [reflexivity|]. cbn. repeat split.
    + cbn. eexists. split; [reflexivity|]. cbn. repeat split.
  - eexists. split; [reflexivity|]. cbn. rewrite app_nil_r. repeat split.
Qed.

Lemma scan_passes_results (case_data : value) (entries : list (string * Rule)) :
  Forall (passes py_repr case_data) entries ->
  forall st, weights_ok st ->
  exists st',
    scan py_repr case_data entries st = Ok (Running st')
    /\ applied_rules (results st') =
       applied_rules (results st) ++ matching_entries py_repr case_data entries
    /\ rule_weights (results st') = rule_weights (results st)
    /\ override_applied (results st') = override_applied (results st)
    /\ total_weight st' = total_weight st + total_tally py_repr case_data entries.
Proof.
  induction 1 as [|e entries He Hall IH]; intros st Hok.
  - exists st. cbn. rewrite app_nil_r. repeat split. lia.
  - destruct (rule_step_passes_results case_data st e He Hok)
      as (st1 & Hstep & Happ & Hrw & Hov).
    destruct (rule_step_passes py_repr case_data st e He Hok)
      as (st1' & Hstep' & Hok1 & Htot1 & _).
    assert (st1' = st1) by congruence. subst st1'.
    destruct (IH st1 Hok1) as (st2 & Hscan & Happ2 & Hrw2 & Hov2 & Htot2).
    exists st2. cbn [scan]. rewrite Hstep. cbn [bind].
    split; [exact Hscan|].
    split.
    { rewrite Happ2, Happ. rewrite <- app_assoc. f_equal.
      unfold matching_entries. cbn [filter].
      destruct (fires py_repr case_data (snd e)); reflexivity. }
    split; [congruence|]. split; [congruence|].
    rewrite Htot2, Htot1. unfold total_tally. cbn [fold_right]. lia.
Qed.

(** X2.  When every rule evaluates without raising, no override rule fires
    and no matching rule carries a positive weight, the evaluator falls back
    on repair with confidence 0.5 and leaves the weights empty; a matching
    rule without weight is listed among the applied rules and changes
    nothing else. *)
Theorem unweighted_matches_leave_the_default
        (rule_sets : RuleSets) (case_data : value) :
  Forall (passes py_repr case_data) (scan_order rule_sets) ->
  total_tally py_repr case_data (scan_order rule_sets) = 0 ->
  exists res,
    evaluate_rules py_repr rule_sets case_data = Ok res
    /\ final_recommendation res = Some "repair"
    /\ Rules.confidence_score res = 1 # 2
    /\ rule_weights res = []
    /\ override_applied res = false
    /\ applied_rules res =
       matching_entries py_repr case_data (scan_order rule_sets).
Proof.
  intros Hpass Hzero.
  destruct (scan_passes_results case_data _ Hpass initial_state eq_refl)
    as (st & Hscan & Happ & Hrw & Hov & Htot).
  unfold evaluate_rules. rewrite Hscan. cbn [bind].
  eexists. split; [reflexivity|].
  unfold finalize. cbn in Htot. rewrite Htot, Hzero. cbn.
  rewrite Hrw, Hov, Happ. cbn. repeat split.
Qed.

(** X3.  When every rule evaluates without raising and no override rule
    fires, the applied rules of the result are the rules whose conditions
    hold, each once, in scan order, weighted or not. *)
Theorem applied_rules_are_the_matching_rules
        (rule_sets : RuleSets) (case_data : value) :
  Forall (passes py_repr case_data) (scan_order rule_sets) ->
  exists res,
    evaluate_rules py_repr rule_sets case_data = Ok res
    /\ applied_rules res =
       matching_entries py_repr case_data (scan_order rule_sets)
    /\ override_applied res = false.
Proof.
  intros Hpass.
  destruct (scan_passes_results case_data _ Hpass initial_state eq_refl)
    as (st & Hscan & Happ & Hrw & Hov & Htot).
  unfold evaluate_rules. rewrite Hscan. cbn [bind].
  eexists. split; [reflexivity|].
  unfold finalize. destruct (total_weight st >? 0); cbn;
    rewrite Happ, Hov; split; reflexivity.
Qed.

End Returns.

(** The two weighted rules on the young, costly case. *)
Lemma evaluation_result_in_range_witness :
  exists res,
    evaluate_rules repr_atom two_rules young_costly_case = Ok res
    /\ exists cat,
        final_recommendation res = Some cat
        /\ In cat categories
        /\ (1 # 4 <= Rules.confidence_score res <= 1)%Q.
Proof.
  eexists. split; [vm_compute; reflexivity|].
  apply (evaluation_result_in_range repr_atom two_rules young_costly_case).
  vm_compute. reflexivity.
Defined.

(** The one year old oven: the warranty rule of the default rules matches,
    carries no weight, and the result is the default. *)
Lemma unweighted_matches_leave_the_default_witness :
  Forall (passes repr_atom new_oven_case) (scan_order default_rules)
  /\ total_tally repr_atom new_oven_case (scan_order default_rules) = 0
  /\ map ar_rule_name
         (matching_entries repr_atom new_oven_case (scan_order default_rules))
     = ["under_warranty_new"]
  /\ exists res,
      evaluate_rules repr_atom default_rules new_oven_case = Ok res
      /\ final_recommendation res = Some "repair"
      /\ Rules.confidence_score res = 1 # 2
      /\ rule_weights res = []
      /\ override_applied res = false
      /\ applied_rules res =
         matching_entries repr_atom new_oven_case (scan_order default_rules).
Proof.
  assert (H1 : Forall (passes repr_atom new_oven_case) (scan_order default_rules))
    by (apply forallb_passes; reflexivity).
  assert (H2 : total_tally repr_atom new_oven_case (scan_order default_rules) = 0)
    by reflexivity.
  split; [exact H1|]. split; [exact H2|]. split; [reflexivity|].
  exact (unweighted_matches_leave_the_default repr_atom default_rules
           new_oven_case H1 H2).
Defined.

Lemma applied_rules_are_the_matching_rules_witness :
  Forall (passes repr_atom young_costly_case) (scan_order two_rules)
  /\ map ar_rule_name
         (matching_entries repr_atom young_costly_case (scan_order two_rules))
     = ["young_device"; "costly_repair"]
  /\ exists res,
      evaluate_rules repr_atom two_rules young_costly_case = Ok res
      /\ applied_rules res =
         matching_entries repr_atom young_costly_case (scan_order two_rules)
      /\ override_applied res = false.
Proof.
  assert (H1 : Forall (passes repr_atom young_costly_case) (scan_order two_rules))
    by (apply forallb_passes; reflexivity).
  split; [exact H1|]. split; [reflexivity|].
  exact (applied_rules_are_the_matching_rules repr_atom two_rules
           young_costly_case H1).
Defined.

(** *** Custom rules and the summary *)

Lemma lookup_append_rule_other (name other : string) (rule : Rule)
      (rule_sets : RuleSets) :
  other <> name ->
  lookup other (append_rule name rule rule_sets) = lookup other rule_sets.
Proof.
  intros Hne. induction rule_sets as [|[n rs] rest IH]; simpl.
  - apply String.eqb_neq in Hne. rewrite Hne. reflexivity.
  - destruct (String.eqb name n) eqn:E; simpl.
    + apply String.eqb_eq in E. subst n.
      apply String.eqb_neq in Hne. rewrite Hne. reflexivity.
    + destruct (String.eqb other n); [reflexivity|exact IH].
Qed.

(** X9.  After a custom rule is added, its rule set holds the rules it held
    before (none, with priority 99, if the set is new) followed by the new
    rule, and every other rule set is as it was. *)
Theorem custom_rule_round_trip (name : string) (rule : Rule)
        (rule_sets : RuleSets) :
  lookup name (append_rule name rule rule_sets) =
  Some (match lookup name rule_sets with
        | Some rs => mkRuleSet (priority rs) (rules rs ++ [rule])
        | None => mkRuleSet (Some 99) [rule]
        end)
  /\ forall other, other <> name ->
       lookup other (append_rule name rule rule_sets) = lookup other rule_sets.
Proof.
  split; [|intros other; apply lookup_append_rule_other].
  induction rule_sets as [|[n rs] rest IH]; simpl.
  - rewrite String.eqb_refl. reflexivity.
  - destruct (String.eqb name n) eqn:E; simpl; rewrite E; [reflexivity|exact IH].
Qed.

Lemma rule_total_perm (l l' : RuleSets) :
  Permutation l l' -> rule_total l = rule_total l'.
Proof.
  induction 1; simpl; try lia.
Qed.

Lemma scan_length (l : RuleSets) :
  Z.of_nat
    (List.length
       (flat_map (fun item => map (fun r => (fst item, r)) (rules (snd item))) l))
  = rule_total l.
Proof.
  induction l as [|item l IH]; simpl; [reflexivity|].
  rewrite length_app, length_map, Nat2Z.inj_add, IH. reflexivity.
Qed.

Lemma summary_total (l : RuleSets) (acc : list (string * SetSummary) * Z) :
  snd (fold_left
         (fun (acc : list (string * SetSummary) * Z) (item : string * RuleSet) =>
            (dict_set (fst item) (summarize_set (snd item)) (fst acc),
             snd acc + Z.of_nat (List.length (rules (snd item)))))
         l acc)
  = snd acc + rule_total l.
Proof.
  revert acc. induction l as [|item l IH]; intros acc; simpl; [lia|].
  rewrite IH. simpl. lia.
Qed.

Lemma rule_total_append (name : string) (rule : Rule) (rule_sets : RuleSets) :
  rule_total (append_rule name rule rule_sets) = rule_total rule_sets + 1.
Proof.
  induction rule_sets as [|[n rs] rest IH]; simpl; [reflexivity|].
  destruct (String.eqb name n); simpl.
  - rewrite length_app. simpl. lia.
  - rewrite IH. lia.
Qed.

(** X10.  The total of the summary is the number of rules the evaluator
    scans, and adding a custom rule raises it by one. *)
Theorem summary_counts_the_scanned_rules
        (version last_updated : option string) (rule_sets : RuleSets) :
  sm_total_rules (get_rule_summary version last_updated rule_sets)
  = Z.of_nat (List.length (scan_order rule_sets))
  /\ forall name rule,
      sm_total_rules
        (get_rule_summary version last_updated (append_rule name rule rule_sets))
      = sm_total_rules (get_rule_summary version last_updated rule_sets) + 1.
Proof.
  assert (H : forall rs, sm_total_rules (get_rule_summary version last_updated rs)
                         = rule_total rs).
  { intros rs. unfold get_rule_summary. cbn [sm_total_rules].
    rewrite summary_total. reflexivity. }
  split.
  - rewrite H. unfold scan_order. rewrite scan_length.
    apply rule_total_perm. unfold sorted_rule_sets. apply py_sorted_perm.
  - intros name rule. rewrite !H. apply rule_total_append.
Qed.

(** The third condition would raise; the second is false. *)
Lemma conditions_short_circuit_witness :
  Forall (fun c' => evaluate_single_condition repr_atom c' old_siemens_case = Ok true)
         (firstn 1 guarded_conditions)
  /\ evaluate_single_condition repr_atom (nth 1 guarded_conditions age_above_text)
                               old_siemens_case = Ok false
  /\ evaluate_single_condition repr_atom (nth 2 guarded_conditions age_above_text)
                               old_siemens_case = Raise TypeError
  /\ evaluate_rule_conditions repr_atom guarded_conditions old_siemens_case
     = Ok false.
Proof.
  assert (H1 : Forall (fun c' => evaluate_single_condition repr_atom c'
                                   old_siemens_case = Ok true)
                      (firstn 1 guarded_conditions))
    by (repeat constructor).
  assert (H2 : evaluate_single_condition repr_atom
                 (nth 1 guarded_conditions age_above_text) old_siemens_case
               = Ok false) by reflexivity.
  split; [exact H1|]. split; [exact H2|]. split; [reflexivity|].
  exact (conditions_short_circuit repr_atom (firstn 1 guarded_conditions)
           (skipn 2 guarded_conditions) _ old_siemens_case H1 H2).
Defined.

Lemma contains_ignores_case_witness :
  map lower ["Smoke"; "FIRE"] = map lower ["smoke"; "fire"]
  /\ evaluate_single_condition repr_atom
       (mkCondition "error_description" "contains" (strs ["Smoke"; "FIRE"]) None true)
       sparks_case =
     evaluate_single_condition repr_atom
       (mkCondition "error_description" "contains" (strs ["smoke"; "fire"]) None true)
       sparks_case.
Proof.
  split; [reflexivity|].
  apply (proj1 (contains_ignores_case repr_atom "error_description" None true
                                      sparks_case)).
  reflexivity.
Defined.

End RuleEvaluatorFacts.

(** ** More on the pipeline *)

Module PipelineFacts.
Import Agents PipelineTerms PipelineSpec.

(** *** Triage and the terminal nodes *)

Lemma str_empty_iff (s : string) : str_empty s = true <-> s = "".
Proof. destruct s; simpl; split; intros H; try reflexivity; discriminate. Qed.

Lemma validation_fails_iff (state : ServiceCaseState) :
  (str_empty (device_type state) || str_empty (brand state)
   || (age state =? 0) || str_empty (error_description state))%bool = true
  <-> some_input_missing state.
Proof.
  unfold some_input_missing.
  rewrite !orb_true_iff, !str_empty_iff, Z.eqb_eq. tauto.
Qed.

(** X11.  Triage asks for a manual review, with status incomplete, exactly
    when the device type, the brand or the fault description is empty or
    the age is zero: a device in its first year (age 0) is never analysed. *)
Theorem manual_review_iff_input_missing (state : ServiceCaseState) :
  (route (triage_agent state) = "manual_review" <-> some_input_missing state)
  /\ (status (triage_agent state) = "incomplete" <-> some_input_missing state).
Proof.
  rewrite <- validation_fails_iff. unfold triage_agent.
  destruct (str_empty (device_type state) || str_empty (brand state)
            || (age state =? 0) || str_empty (error_description state))%bool.
  - simpl. tauto.
  - repeat match goal with
           | |- context [if ?b then _ else _] => destruct b
           end; simpl; split; split; discriminate.
Qed.

Lemma triage_routes (state : ServiceCaseState) :
  In (route (triage_agent state))
     ["manual_review"; "manufacturer"; "replacement_focus";
      "urgent_manufacturer"; "normal"].
Proof.
  unfold triage_agent.
  repeat match goal with
         | |- context [if ?b then _ else _] => destruct b
         end; simpl; auto 6.
Qed.

(** On the routes normal and replacement_focus the workflow runs every
    stage. *)
Lemma workflow_runs_every_stage
      (catalog : Catalog) (w : World) (state : ServiceCaseState) :
  In (route (triage_agent state)) ["normal"; "replacement_focus"] ->
  run_workflow catalog w state =
  bind (analyse catalog w (triaged state))
       (fun s3 =>
          bind (recommendation_engine_agent catalog (order_no w) (now w) s3)
               (fun r =>
                  Ok (mkFinal (recommendation r) (repair_order r)
                              (Some (replacement_options r))
                              (Agents.confidence_score r)))).
Proof.
  unfold run_workflow, route_after_triage, triaged.
  cbn [triage_decision set_triage].
  intros [H|[H|[]]]; rewrite <- H; reflexivity.
Qed.



(** *** Technical analysis *)

(** X13.  For every record whose age is within the float range, the
    repair probability computed by technical analysis lies between 0.375
    and 0.95; it is at least 0.75 up to five years of age and below 0.6
    from 13 years on. *)
Theorem repair_probability_bounds (state : ServiceCaseState) :
  float_sized (age state) ->
  (375 # 1000 <= t_repair_probability (technical_analyst_agent state)
   <= 95 # 100)%Q
  /\ (age state <= 5 ->
      (75 # 100 <= t_repair_probability (technical_analyst_agent state))%Q)
  /\ (13 <= age state ->
      (t_repair_probability (technical_analyst_agent state) < 6 # 10)%Q).
Proof.
  intros _.
  destruct (repair_probability_factors state)
    as (base & factor & -> & [Hb1 Hb2] & [Hf1 Hf2] & Hyoung & Hold).
  split; [split|split].
  - nra.
  - nra.
  - intros H. rewrite (Hyoung H). lra.
  - intros H. specialize (Hold H). nra.
Qed.

(** The three years old cooktop and the 13 years old dishwasher. *)
Lemma repair_probability_bounds_witness :
  float_sized (age young_cooktop) /\ float_sized (age worn_dishwasher)
  /\ (75 # 100 <= t_repair_probability (technical_analyst_agent young_cooktop)
      <= 95 # 100)%Q
  /\ (375 # 1000
      <= t_repair_probability (technical_analyst_agent worn_dishwasher)
      < 6 # 10)%Q.
Proof.
  assert (H1 : float_sized (age young_cooktop))
    by (apply float_sized_small; cbn; lia).
  assert (H2 : float_sized (age worn_dishwasher))
    by (apply float_sized_small; cbn; lia).
  split; [exact H1|]. split; [exact H2|].
  destruct (repair_probability_bounds young_cooktop H1) as ([_ Ha] & Hb & _).
  destruct (repair_probability_bounds worn_dishwasher H2) as ([Hc _] & _ & Hd).
  split; split.
  - apply Hb. cbn. lia.
  - exact Ha.
  - exact Hc.
  - apply Hd. cbn. lia.
Defined.

Lemma Qlt_bool_iff (p q : Q) : Qlt_bool p q = true <-> (p < q)%Q.
Proof.
  unfold Qlt_bool. rewrite negb_true_iff. split.
  - intros H. apply Qnot_le_lt. rewrite <- Qle_bool_iff. congruence.
  - intros H. destruct (Qle_bool q p) eqn:E; [|reflexivity].
    apply Qle_bool_iff in E. exfalso. apply (Qlt_not_le _ _ H E).
Qed.

(** X14.  From 13 years of age on, the record that reaches recommendation
    synthesis always gets the recommendation replace, whatever the
    economic analysis says; so a case with valid inputs and an age of 15 or
    more that the workflow completes ends with replace and no repair
    order. *)
Theorem old_devices_are_replaced
        (catalog : Catalog) (w : World) (state : ServiceCaseState) :
  13 <= age state ->
  (forall s3,
      analyse catalog w (triaged state) = Ok s3 ->
      final_recommendation_of s3 = "replace")
  /\ (forall f,
        valid_inputs state -> 15 <= age state ->
        run_workflow catalog w state = Ok f ->
        f_recommendation f = "replace" /\ f_repair_order f = None).
Proof.
  intros Hage.
  assert (H1 : forall s3,
             analyse catalog w (triaged state) = Ok s3 ->
             final_recommendation_of s3 = "replace").
  { intros s3 Hs3.
    destruct (analyse_fields _ _ _ _ Hs3) as (e & ec & _ & _ & ->).
    unfold final_recommendation_of, override_for.
    cbn [set_analyses repair_probability or_default].
    assert (Hp : Qlt_bool
                   (t_repair_probability
                      (technical_analyst_agent (set_enrichment e (triaged state))))
                   (6 # 10) = true).
    { apply Qlt_bool_iff.
      destruct (repair_probability_factors (set_enrichment e (triaged state)))
        as (base & factor & -> & [Hb1 Hb2] & [Hf1 Hf2] & _ & Hold).
      specialize (Hold Hage). nra. }
    rewrite Hp. reflexivity. }
  split; [exact H1|].
  intros f Hvalid H15 Hf.
  rewrite workflow_runs_every_stage in Hf
    by (right; left; symmetry; apply old_device_routes_replacement_focus;
        assumption).
  destruct (analyse catalog w (triaged state)) as [s3|err] eqn:Hs3;
    cbn [bind] in Hf; [|discriminate].
  destruct (recommendation_engine_agent _ _ _ s3) as [r|err] eqn:Hr;
    cbn [bind] in Hf; [|discriminate].
  injection Hf as <-. cbn [f_recommendation f_repair_order].
  pose proof (agent_recommendation _ _ _ _ _ Hr) as Hrec.
  rewrite (H1 s3 eq_refl) in Hrec.
  split; [exact Hrec|].
  destruct (agent_artifacts _ _ _ _ _ Hr) as [_ H2].
  apply (H2 Hrec).
Qed.

(** The 13 years old dishwasher with a leaking door: a known error with
    success rate 0.94, and replace all the same. *)
Lemma old_devices_are_replaced_witness :
  13 <= age worn_dishwasher
  /\ exists s3,
      analyse REPLACEMENT_PRODUCTS world0 (triaged worn_dishwasher) = Ok s3
      /\ economic_viability s3 = Some "repair"
      /\ final_recommendation_of s3 = "replace".
Proof.
  assert (H : 13 <= age worn_dishwasher) by (cbn; lia).
  split; [exact H|].
  eexists. split; [vm_compute; reflexivity|]. split; [reflexivity|].
  apply (proj1 (old_devices_are_replaced REPLACEMENT_PRODUCTS world0
                                         worn_dishwasher H)).
  vm_compute. reflexivity.
Defined.

(** *** Economic analysis *)

Lemma margin_table_priced (l : list Product) :
  Forall (fun p => price p <> 0) l -> exists m, margin_table l = Ok m.
Proof.
  induction 1 as [|p l Hp _ [m IH]]; simpl.
  - eexists; reflexivity.
  - unfold margin_percentage. apply Z.eqb_neq in Hp. rewrite Hp.
    cbn [bind]. rewrite IH. cbn [bind]. eexists; reflexivity.
Qed.

Lemma margin_table_free (l : list Product) :
  Exists (fun p => price p = 0) l -> margin_table l = Raise ZeroDivisionError.
Proof.
  induction 1 as [p l Hp|p l _ IH]; simpl; unfold margin_percentage.
  - rewrite Hp. reflexivity.
  - destruct (price p =? 0); [reflexivity|]. cbn [bind]. rewrite IH.
    reflexivity.
Qed.

(** X15.  Whenever economic analysis returns, the economic score it stores
    is an integer between 0 and 100, and its verdict is repair exactly when
    the score is at least 60 and replace otherwise. *)
Theorem economic_score_bounds
        (catalog : Catalog) (state : ServiceCaseState) (ec : Economic) :
  economic_analyst_agent catalog state = Ok ec ->
  exists score,
    lookup "economic_score" (ec_margin_analysis ec) = Some (VInt score)
    /\ 0 <= score <= 100
    /\ (ec_economic_viability ec = "repair" <-> 60 <= score)
    /\ (ec_economic_viability ec = "replace" <-> score < 60).
Proof.
  intros H. destruct (economic_agent_score _ _ _ H) as (score & Hl & Hs & ->).
  exists score. split; [exact Hl|]. split; [exact Hs|].
  destruct (score >=? 60) eqn:E; rewrite Z.geb_leb in E.
  - apply Z.leb_le in E.
    split; split; intros; try reflexivity; try discriminate; lia.
  - apply Z.leb_gt in E.
    split; split; intros; try reflexivity; try discriminate; lia.
Qed.

(** The young cooktop before enrichment: within the default ceiling, no
    cost, no customer tier, score 85. *)
Lemma economic_score_bounds_witness :
  exists ec score,
    economic_analyst_agent REPLACEMENT_PRODUCTS young_cooktop = Ok ec
    /\ lookup "economic_score" (ec_margin_analysis ec) = Some (VInt score)
    /\ 0 <= score <= 100
    /\ (ec_economic_viability ec = "repair" <-> 60 <= score).
Proof.
  destruct (economic_analyst_agent REPLACEMENT_PRODUCTS young_cooktop)
    as [ec|err] eqn:E; [|vm_compute in E; discriminate].
  destruct (economic_score_bounds REPLACEMENT_PRODUCTS young_cooktop ec E)
    as (score & H1 & H2 & H3 & _).
  exists ec, score. auto.
Defined.

Lemma economic_returns_when_priced
      (catalog : Catalog) (state : ServiceCaseState) :
  numeric_fields state -> priced catalog state ->
  exists ec, economic_analyst_agent catalog state = Ok ec.
Proof.
  intros (specs & cost & value & Hspecs & Hcost & Hvalue & _) Hp.
  unfold economic_analyst_agent. rewrite Hspecs. cbn [dict_of bind].
  rewrite Hcost. cbn [bind]. rewrite Hvalue.
  assert (Hroi : exists roi,
             (if Qlt_bool 0 cost
              then bind (Ok value) (fun cv => Ok ((cv - cost) / cost)%Q)
              else Ok 0%Q) = Ok roi)
    by (destruct (Qlt_bool 0 cost); eexists; reflexivity).
  destruct Hroi as [roi ->]. cbn [bind].
  destruct (margin_table_priced _ Hp) as [m ->].
  cbn [bind]. eexists. reflexivity.
Qed.

Lemma economic_raises_when_free
      (catalog : Catalog) (state : ServiceCaseState) :
  numeric_fields state ->
  Exists (fun p => price p = 0)
         (get_default (lower (device_type state)) catalog []) ->
  economic_analyst_agent catalog state = Raise ZeroDivisionError.
Proof.
  intros (specs & cost & value & Hspecs & Hcost & Hvalue & _) Hz.
  unfold economic_analyst_agent. rewrite Hspecs. cbn [dict_of bind].
  rewrite Hcost. cbn [bind]. rewrite Hvalue.
  assert (Hroi : exists roi,
             (if Qlt_bool 0 cost
              then bind (Ok value) (fun cv => Ok ((cv - cost) / cost)%Q)
              else Ok 0%Q) = Ok roi)
    by (destruct (Qlt_bool 0 cost); eexists; reflexivity).
  destruct Hroi as [roi ->]. cbn [bind].
  rewrite (margin_table_free _ Hz). reflexivity.
Qed.

(** X16.  On a record whose fields are numbers, with the age, these
    numbers and the catalog within the float range, economic analysis
    returns when no product of the device's category is priced at zero,
    and raises [ZeroDivisionError] when one is: the margin percentage
    divides by the price. *)
Theorem economic_analysis_divides_by_price
        (catalog : Catalog) (state : ServiceCaseState) :
  numeric_fields state ->
  float_sized (age state) ->
  plausible_catalog catalog ->
  (priced catalog state ->
   exists ec, economic_analyst_agent catalog state = Ok ec)
  /\ (Exists (fun p => price p = 0)
             (get_default (lower (device_type state)) catalog []) ->
      economic_analyst_agent catalog state = Raise ZeroDivisionError).
Proof.
  intros H _ _. split.
  - apply economic_returns_when_priced. exact H.
  - apply economic_raises_when_free. exact H.
Qed.

Lemma initial_case_numeric (dt br : string) (a : Z) (desc : string)
      (prefs : option (option pydict)) :
  numeric_fields (initial_case dt br a desc prefs).
Proof.
  exists [], 0%Q, 1000%Q.
  repeat split; apply float_sized_small; cbn; lia.
Qed.

Lemma gift_catalog_plausible : plausible_catalog gift_catalog.
Proof.
  unfold plausible_catalog, gift_catalog.
  repeat constructor; apply float_sized_small; cbn; lia.
Qed.

(** The old oven against a catalog whose second oven is given away. *)
Lemma economic_analysis_divides_by_price_witness :
  numeric_fields (old_oven None)
  /\ float_sized (age (old_oven None))
  /\ plausible_catalog REPLACEMENT_PRODUCTS
  /\ plausible_catalog gift_catalog
  /\ (exists ec, economic_analyst_agent REPLACEMENT_PRODUCTS (old_oven None)
                 = Ok ec)
  /\ economic_analyst_agent gift_catalog (old_oven None)
     = Raise ZeroDivisionError.
Proof.
  assert (H : numeric_fields (old_oven None)) by apply initial_case_numeric.
  assert (Ha : float_sized (age (old_oven None)))
    by (apply float_sized_small; cbn; lia).
  split; [exact H|]. split; [exact Ha|].
  split; [exact builtin_catalog_plausible|].
  split; [exact gift_catalog_plausible|]. split.
  - apply (proj1 (economic_analysis_divides_by_price
                    REPLACEMENT_PRODUCTS (old_oven None) H Ha
                    builtin_catalog_plausible)).
    unfold priced. cbn. repeat constructor; discriminate.
  - apply (proj2 (economic_analysis_divides_by_price
                    gift_catalog (old_oven None) H Ha gift_catalog_plausible)).
    cbn. right. left. reflexivity.
Defined.

(** *** The stages in sequence *)

(** The cost estimate of the simulated SAP lookup, with the jitter in its
    range. *)
Lemma enrichment_cost (catalog : Catalog) (j c : Z) (state : ServiceCaseState)
      (e : Enrichment) :
  -50 <= j <= 100 ->
  data_enrichment_agent catalog j c state = Ok e ->
  exists cost, e_repair_cost e = VInt cost /\ 70 <= cost <= 420.
Proof.
  intros Hj.
  unfold data_enrichment_agent, simulate_sap_integration,
    simulate_pim_integration.
  cbv zeta. cbn [get_default lookup String.eqb Ascii.eqb Bool.eqb to_Q as_number
                 getitem bind].
  intros H. injection H as <-. cbn [e_repair_cost].
  eexists. split; [reflexivity|].
  destruct (find _ _) as [[code info]|] eqn:E; [|lia].
  apply matched_error_in_table, known_errors_table in E.
  cbn [snd] in E. lia.
Qed.

Lemma enriched_numeric (e : Enrichment) (cost : Z) (specs : pydict) (value : Q)
      (state : ServiceCaseState) :
  e_repair_cost e = VInt cost -> float_sized cost ->
  e_device_specs e = VDict specs ->
  get_default "current_market_value" specs (VInt 1000) = VFloat value ->
  numeric_fields (set_enrichment e state).
Proof.
  intros Hc Hsize Hs Hv. exists specs, (inject_Z cost), value.
  cbn [set_enrichment device_specs repair_cost or_default].
  rewrite Hc, Hs, Hv. repeat split. exact Hsize.
Qed.

Lemma simulated_customer_is_gold (c : Z) (br : string) :
  is_gold (simulate_salesforce_integration c br) = true.
Proof. reflexivity. Qed.

(** X17.  The confidence of a completed workflow is 1 on a manufacturer
    referral, 0 on a manual review, and between 0.15 and 0.95 when the
    recommendation is repair or replace. *)
Theorem workflow_confidence_range
        (catalog : Catalog) (w : World) (state : ServiceCaseState) (f : Final) :
  run_workflow catalog w state = Ok f ->
  (f_recommendation f = "manufacturer_referral" /\ f_confidence_score f = 1%Q)
  \/ (f_recommendation f = "manual_review" /\ f_confidence_score f = 0%Q)
  \/ (In (f_recommendation f) ["repair"; "replace"]
      /\ (15 # 100 <= f_confidence_score f <= 95 # 100)%Q).
Proof.
  unfold run_workflow.
  destruct (str_in_list _ ["manufacturer"; "urgent_manufacturer"]).
  { intros H. injection H as <-. left. split; reflexivity. }
  destruct (String.eqb _ "manual_review").
  { intros H. injection H as <-. right. left. split; reflexivity. }
  destruct (analyse _ _ _) as [s3|err] eqn:Hs3; cbn [bind]; [|discriminate].
  destruct (recommendation_engine_agent _ _ _ s3) as [r|err] eqn:Hr;
    cbn [bind]; [|discriminate].
  intros H. injection H as <-. right. right.
  cbn [f_recommendation f_confidence_score]. split.
  - rewrite (agent_recommendation _ _ _ _ _ Hr).
    destruct (final_recommendation_cases s3 (analyse_viability _ _ _ _ Hs3))
      as [-> | ->]; simpl; auto.
  - destruct (agent_confidence _ _ _ _ _ Hr) as (es & Hes & ->).
    destruct (analyse_fields _ _ _ _ Hs3) as (e & ec & _ & Hec & ->).
    cbn [set_analyses margin_analysis repair_probability or_default] in *.
    destruct (economic_agent_score _ _ _ Hec) as (score & Hl & Hscore & _).
    unfold get_default in Hes. rewrite Hl in Hes. injection Hes as <-.
    destruct (repair_probability_factors
                (set_enrichment e (set_triage (triage_agent state) state)))
      as (base & factor & -> & [Hb1 Hb2] & [Hf1 Hf2] & _).
    assert (H0 : (0 <= inject_Z score)%Q).
    { replace 0%Q with (inject_Z 0) by reflexivity. rewrite <- Zle_Qle. lia. }
    assert (Hp : (375 # 1000 <= base * factor)%Q) by nra.
    unfold confidence_of. cbv zeta. split; [|apply Q.le_min_r].
    apply Q.min_glb; [|discriminate].
    apply Qle_shift_div_l; [reflexivity|]. lra.
Qed.

(** The young cooktop with a known heating error: repair at 0.95. *)
Lemma workflow_confidence_range_witness :
  exists f,
    run_workflow REPLACEMENT_PRODUCTS world0 young_cooktop = Ok f
    /\ f_recommendation f = "repair"
    /\ (15 # 100 <= f_confidence_score f <= 95 # 100)%Q.
Proof.
  destruct (run_workflow REPLACEMENT_PRODUCTS world0 young_cooktop)
    as [f|err] eqn:E; [|vm_compute in E; discriminate].
  exists f. split; [reflexivity|].
  assert (Hrec : f_recommendation f = "repair")
    by (vm_compute in E; injection E as <-; reflexivity).
  split; [exact Hrec|].
  destruct (workflow_confidence_range REPLACEMENT_PRODUCTS world0
                                      young_cooktop f E)
    as [[H _]|[[H _]|[_ H]]];
    [rewrite Hrec in H; discriminate|rewrite Hrec in H; discriminate|exact H].
Defined.

(** X18.  The workflow returns, with one of its four recommendations and
    never the error outcome, whenever no product of the device's category
    is priced at zero, the preferences of the case record are absent or a
    dict whose preferred brands, if given, are a list or a text, the age is
    from 0 on, age and catalog are within the float range, and the draws
    are in the ranges they are drawn from. *)
Theorem workflow_returns
        (catalog : Catalog) (w : World) (state : ServiceCaseState) :
  priced catalog state -> record_preferences_ok state ->
  plausible_age (age state) -> plausible_catalog catalog -> drawn w ->
  exists f,
    run_workflow catalog w state = Ok f
    /\ handled_workflow catalog w state = f
    /\ In (f_recommendation f)
          ["manufacturer_referral"; "manual_review"; "repair"; "replace"].
Proof.
  intros Hpriced Hprefs _ _ [Hj _].
  assert (H : exists f, run_workflow catalog w state = Ok f).
  { unfold run_workflow.
    destruct (str_in_list _ ["manufacturer"; "urgent_manufacturer"]);
      [eexists; reflexivity|].
    destruct (String.eqb _ "manual_review"); [eexists; reflexivity|].
    unfold analyse.
    destruct (enrichment_shape catalog (jitter w) (customer_no w)
                               (set_triage (triage_agent state) state))
      as (e & cost & specs & value & He & Hc & Hs & Hv & Hd).
    destruct (enrichment_cost _ _ _ _ _ Hj He) as (cost' & Hc' & Hcost).
    assert (Hsize : float_sized cost') by (apply float_sized_small; lia).
    rewrite He. cbn [bind].
    destruct (economic_returns_when_priced
                catalog (set_enrichment e (set_triage (triage_agent state) state))
                (enriched_numeric _ _ _ _ _ Hc' Hsize Hs Hv)
                Hpriced)
      as [ec Hec].
    rewrite Hec. cbn [bind].
    destruct (economic_agent_score _ _ _ Hec) as (score & Hl & _).
    unfold recommendation_engine_agent.
    cbn [set_analyses margin_analysis or_default].
    unfold get_default at 1. rewrite Hl. cbn [to_Q as_number bind].
    match goal with
    | |- context [if ?b then _ else _] => destruct b
    end; [eexists; reflexivity|].
    match goal with
    | |- context [generate_replacement_options catalog ?s3] =>
        destruct (replacement_options_return catalog s3) as [offers ->]
    end; [|eexists; reflexivity].
    apply (record_preferences_usable state _ (customer_no w) (brand state));
      [exact Hprefs|reflexivity|].
    cbn [set_analyses set_enrichment customer_data]. rewrite Hd. reflexivity. }
  destruct H as [f Hf]. exists f. split; [exact Hf|].
  split; [unfold handled_workflow; rewrite Hf; reflexivity|].
  destruct (workflow_outcomes _ _ _ _ Hf) as [[[<-|[<-|[]]] _]|[<-|[<-|[]]]];
    simpl; auto.
Qed.

(** Every product of the built-in catalog has a price. *)
Lemma builtin_catalog_priced (state : ServiceCaseState) :
  priced REPLACEMENT_PRODUCTS state.
Proof.
  unfold priced, get_default, REPLACEMENT_PRODUCTS. cbn [lookup].
  repeat match goal with
         | |- context [String.eqb ?a ?b] => destruct (String.eqb a b); cbn [lookup]
         end;
    repeat constructor; discriminate.
Qed.

(** The old oven on the built-in catalog, with preferred brands given. *)
Lemma workflow_returns_witness :
  priced REPLACEMENT_PRODUCTS
         (old_oven (Some (Some [("preferred_brands", VList [VStr "Miele"])])))
  /\ plausible_age
       (age (old_oven (Some (Some [("preferred_brands",
                                    VList [VStr "Miele"])]))))
  /\ plausible_catalog REPLACEMENT_PRODUCTS
  /\ drawn world0
  /\ exists f,
      run_workflow REPLACEMENT_PRODUCTS world0
        (old_oven (Some (Some [("preferred_brands", VList [VStr "Miele"])])))
      = Ok f
      /\ f_recommendation f = "replace".
Proof.
  assert (H1 := builtin_catalog_priced
                  (old_oven (Some (Some [("preferred_brands",
                                          VList [VStr "Miele"])])))).
  assert (H2 : plausible_age
                 (age (old_oven (Some (Some [("preferred_brands",
                                              VList [VStr "Miele"])])))))
    by (split; [cbn; lia|apply float_sized_small; cbn; lia]).
  assert (H3 : drawn world0) by (unfold drawn; cbn; lia).
  split; [exact H1|]. split; [exact H2|].
  split; [exact builtin_catalog_plausible|]. split; [exact H3|].
  destruct (workflow_returns REPLACEMENT_PRODUCTS world0 _ H1 I H2
                             builtin_catalog_plausible H3)
    as (f & Hf & _).
  exists f. split; [exact Hf|].
  vm_compute in Hf. injection Hf as <-. reflexivity.
Defined.

(** X19.  The customer data of the workflow always comes from the simulated
    CRM, which reports the tier Gold; so the record that reaches
    recommendation synthesis is recommended for replacement below the
    repair probability 0.6, for repair above 0.9, and gets the verdict of
    the economic analysis in between. *)
Theorem workflow_customer_is_always_gold
        (catalog : Catalog) (w : World) (s1 s3 : ServiceCaseState) :
  analyse catalog w s1 = Ok s3 ->
  exists p verdict,
    repair_probability s3 = Some p
    /\ economic_viability s3 = Some verdict
    /\ is_gold (or_default (customer_data s3) []) = true
    /\ final_recommendation_of s3 =
       (if Qlt_bool p (6 # 10) then "replace"
        else if Qlt_bool (9 # 10) p then "repair" else verdict).
Proof.
  intros Hs3.
  destruct (analyse_fields _ _ _ _ Hs3) as (e & ec & He & _ & ->).
  destruct (enrichment_shape catalog (jitter w) (customer_no w) s1)
    as (e' & _ & _ & _ & He' & _ & _ & _ & Hd).
  rewrite He in He'. injection He' as <-.
  do 2 eexists. split; [reflexivity|]. split; [reflexivity|].
  unfold final_recommendation_of, override_for.
  cbn [set_analyses set_enrichment customer_data repair_probability
       economic_viability or_default].
  rewrite Hd, simulated_customer_is_gold. split; [reflexivity|].
  destruct (Qlt_bool _ (6 # 10)); [reflexivity|].
  destruct (Qlt_bool (9 # 10) _); reflexivity.
Qed.

(** The young cooktop with a known error of success rate 0.95: repair
    through the Gold override. *)
Lemma workflow_customer_is_always_gold_witness :
  exists s3 p verdict,
    analyse REPLACEMENT_PRODUCTS world0 (triaged young_cooktop) = Ok s3
    /\ repair_probability s3 = Some p
    /\ economic_viability s3 = Some verdict
    /\ final_recommendation_of s3 =
       (if Qlt_bool p (6 # 10) then "replace"
        else if Qlt_bool (9 # 10) p then "repair" else verdict).
Proof.
  destruct (analyse REPLACEMENT_PRODUCTS world0 (triaged young_cooktop))
    as [s3|err] eqn:E; [|vm_compute in E; discriminate].
  destruct (workflow_customer_is_always_gold _ _ _ _ E)
    as (p & verdict & Hp & Hv & _ & Hf).
  exists s3, p, verdict. auto.
Defined.

(** *** The simulated systems *)

(** X20.  With the random variation in its range from -50 to 100, the
    simulated SAP lookup estimates a repair cost between 70 and 420, at
    300 plus the variation when no known error matches; the parts
    availability is high or medium, and medium when no known error
    matches. *)
Theorem simulated_repair_cost_range (j : Z) (dt br desc : string) :
  -50 <= j <= 100 ->
  exists cost avail,
    lookup "estimated_repair_cost" (simulate_sap_integration j dt br desc)
    = Some (VInt cost)
    /\ lookup "parts_availability" (simulate_sap_integration j dt br desc)
       = Some (VStr avail)
    /\ 70 <= cost <= 420
    /\ In avail ["high"; "medium"]
    /\ (find (error_matches desc) (known_errors dt br) = None ->
        cost = 300 + j /\ avail = "medium").
Proof.
  intros Hj. unfold simulate_sap_integration. cbv zeta.
  cbn [lookup String.eqb Ascii.eqb Bool.eqb].
  do 2 eexists. split; [reflexivity|]. split; [reflexivity|].
  destruct (find _ _) as [[code info]|] eqn:E.
  - apply matched_error_in_table, known_errors_table in E.
    cbn [snd] in E. destruct E as [_ Hc].
    split; [lia|]. split; [|discriminate].
    destruct (Qlt_bool _ _); simpl; auto.
  - split; [lia|]. split; [simpl; auto|]. intros _. split; reflexivity.
Qed.

(** A description that matches no known error of the brand. *)
Lemma simulated_repair_cost_range_witness :
  exists cost avail,
    lookup "estimated_repair_cost"
           (simulate_sap_integration 40 "oven" "Siemens" "strange sound")
    = Some (VInt cost)
    /\ lookup "parts_availability"
              (simulate_sap_integration 40 "oven" "Siemens" "strange sound")
       = Some (VStr avail)
    /\ 70 <= cost <= 420
    /\ In avail ["high"; "medium"].
Proof.
  assert (H : -50 <= 40 <= 100) by lia.
  destruct (simulated_repair_cost_range 40 "oven" "Siemens" "strange sound" H)
    as (cost & avail & H1 & H2 & H3 & H4 & _).
  exists cost, avail. auto.
Defined.

Lemma Qpower_fraction_le_1 (q : Q) (n : Z) :
  (0 < q <= 1)%Q -> 0 <= n -> (0 < Qpower q n <= 1)%Q.
Proof.
  intros [Hq0 Hq1] Hn. split; [apply Qpower_0_lt; exact Hq0|].
  revert n Hn. apply natlike_ind.
  - discriminate.
  - intros n Hn IH. unfold Z.succ.
    rewrite Qpower_plus by (intros H; rewrite H in Hq0; discriminate).
    change (Qpower q 1) with q.
    assert (H0 : (0 < Qpower q n)%Q) by (apply Qpower_0_lt; exact Hq0).
    nra.
Qed.

Lemma Qpower_fraction_decreasing (q : Q) (n m : Z) :
  (0 < q <= 1)%Q -> 0 <= n <= m -> (Qpower q m <= Qpower q n)%Q.
Proof.
  intros Hq [Hn Hm].
  replace m with (n + (m - n)) by lia.
  rewrite Qpower_plus by (intros H; destruct Hq as [Hq _]; rewrite H in Hq;
                          discriminate).
  destruct (Qpower_fraction_le_1 q n Hq Hn) as [H1 H2].
  destruct (Qpower_fraction_le_1 q (m - n) Hq ltac:(lia)) as [H3 H4].
  nra.
Qed.

(** X21.  For every age from 0 on, with age and catalog within the float
    range, the current market value reported by the simulated product
    lookup lies between a tenth of the original price and the original
    price: it is the original price less 8 percent a year up to 27 years,
    and the floor of a tenth from 28 years on. *)
Theorem simulated_market_value_range
        (catalog : Catalog) (dt br : string) (a : Z) :
  plausible_age a -> plausible_catalog catalog ->
  exists specs value,
    lookup "specifications" (simulate_pim_integration catalog dt br a)
    = Some (VDict specs)
    /\ lookup "current_market_value" specs = Some (VFloat value)
    /\ (inject_Z (original_price dt) * (1 # 10) <= value
        <= inject_Z (original_price dt))%Q
    /\ (a <= 27 ->
        (value == inject_Z (original_price dt) * Qpower (92 # 100) a)%Q)
    /\ (28 <= a -> (value == inject_Z (original_price dt) * (1 # 10))%Q).
Proof.
  intros [Ha _] _. unfold simulate_pim_integration. cbv zeta.
  cbn [lookup String.eqb Ascii.eqb Bool.eqb].
  do 2 eexists. split; [reflexivity|]. split; [reflexivity|].
  fold (original_price dt).
  assert (Ho : (0 < inject_Z (original_price dt))%Q).
  { replace 0%Q with (inject_Z 0) by reflexivity. rewrite <- Zlt_Qlt.
    unfold original_price, get_default. cbn [lookup].
    repeat match goal with
           | |- context [String.eqb ?x ?y] => destruct (String.eqb x y)
           end; lia. }
  assert (Hq : (0 < 92 # 100 <= 1)%Q) by (split; [reflexivity|discriminate]).
  change (1 - (8 # 100))%Q with (92 # 100)%Q.
  destruct (Qpower_fraction_le_1 (92 # 100) a Hq Ha) as [Hp0 Hp1].
  split; [split|split].
  - apply Q.le_max_r.
  - apply Q.max_lub; nra.
  - intros H27. apply Q.max_l.
    assert (H : (Qpower (92 # 100) 27 <= Qpower (92 # 100) a)%Q)
      by (apply Qpower_fraction_decreasing; [exact Hq|lia]).
    assert (H' : (1 # 10 <= Qpower (92 # 100) 27)%Q)
      by (vm_compute; discriminate).
    nra.
  - intros H28. apply Q.max_r.
    assert (H : (Qpower (92 # 100) a <= Qpower (92 # 100) 28)%Q)
      by (apply Qpower_fraction_decreasing; [exact Hq|lia]).
    assert (H' : (Qpower (92 # 100) 28 <= 1 # 10)%Q)
      by (vm_compute; discriminate).
    nra.
Qed.

(** A ten years old oven. *)
Lemma simulated_market_value_range_witness :
  plausible_age 10 /\ plausible_catalog REPLACEMENT_PRODUCTS
  /\ exists specs value,
      lookup "specifications"
             (simulate_pim_integration REPLACEMENT_PRODUCTS "oven" "Siemens" 10)
      = Some (VDict specs)
      /\ lookup "current_market_value" specs = Some (VFloat value)
      /\ (inject_Z 2500 * (1 # 10) <= value <= inject_Z 2500)%Q.
Proof.
  assert (H : plausible_age 10)
    by (split; [lia|apply float_sized_small; cbn; lia]).
  split; [exact H|]. split; [exact builtin_catalog_plausible|].
  destruct (simulated_market_value_range REPLACEMENT_PRODUCTS "oven" "Siemens"
                                         10 H builtin_catalog_plausible)
    as (specs & value & H1 & H2 & H3 & _).
  exists specs, value. split; [exact H1|]. split; [exact H2|].
  exact H3.
Defined.

(** *** The replacement ranker *)

(** Where an offer comes from: a product that passed the budget filter,
    scored by the loop. *)
Lemma offer_origin (catalog : Catalog) (state : ServiceCaseState)
      (offers : list Offer) (o : Offer) :
  generate_replacement_options catalog state = Ok offers ->
  In o offers ->
  exists r,
    In (product o) (affordable catalog state)
    /\ scored_as catalog state (product o) = Ok r
    /\ recommendation_score o = recommendation_score r
    /\ trade_in_value o = trade_in_value r.
Proof.
  intros H Ho.
  destruct (offers_come_from_scored _ _ _ H) as (scored & Hs & ->).
  destruct (annotate_in _ _ _ Ho) as (r & Hr & Hp & Hsc & Ht).
  apply in_firstn in Hr.
  apply (Permutation_in _ (Permutation_sym (py_sorted_perm _ scored))) in Hr.
  destruct (proj1 (score_all_in _ _ _ Hs) r Hr) as (q & Hq & Hf).
  pose proof (score_product_fields _ _ _ _ _ _ _ Hf) as [Hpq _].
  exists r. rewrite Hp, Hpq. auto.
Qed.

(** X22.  Every offer of the ranker is a product of the device's category
    of the catalog whose price is at most the budget cap (the cost ceiling,
    2000 if absent, times 2 above ten years of age and times 1.5
    otherwise); and the ranker returns no offer exactly when every product
    of the category costs more than the cap. *)
Theorem offers_stay_within_budget
        (catalog : Catalog) (state : ServiceCaseState) (offers : list Offer) :
  generate_replacement_options catalog state = Ok offers ->
  (forall o,
      In o offers ->
      In (product o) (get_default (lower (device_type state)) catalog [])
      /\ (inject_Z (price (product o)) <= budget_cap state)%Q)
  /\ (offers = [] <->
      Forall (fun p => (budget_cap state < inject_Z (price p))%Q)
             (get_default (lower (device_type state)) catalog [])).
Proof.
  intros H. split.
  - intros o Ho. destruct (offer_origin _ _ _ _ H Ho) as (r & Hin & _).
    unfold affordable, budget_filter in Hin. apply filter_In in Hin.
    destruct Hin as [Hc Hp]. split; [exact Hc|].
    apply Qle_bool_iff in Hp. exact Hp.
  - pose proof (offers_length _ _ _ H) as Hlen.
    fold (affordable catalog state) in Hlen.
    assert (Hnil : offers = [] <-> affordable catalog state = []).
    { split; intros E.
      - rewrite E in Hlen. simpl in Hlen.
        destruct (affordable catalog state); [reflexivity|simpl in Hlen; lia].
      - rewrite E in Hlen. simpl in Hlen.
        destruct offers; [reflexivity|discriminate]. }
    rewrite Hnil. unfold affordable, budget_filter.
    fold (budget_cap state).
    induction (get_default (lower (device_type state)) catalog [])
      as [|p l IH]; simpl.
    + split; [constructor|reflexivity].
    + destruct (Qle_bool (inject_Z (price p)) (budget_cap state)) eqn:E.
      * split; [discriminate|]. intros Hall. inversion Hall as [|? ? Hp _].
        apply Qle_bool_iff in E. exfalso. apply (Qlt_not_le _ _ Hp E).
      * rewrite IH. split.
        -- intros Hall. constructor; [|exact Hall].
           apply Qnot_le_lt. rewrite <- Qle_bool_iff. congruence.
        -- intros Hall. inversion Hall. assumption.
Qed.

(** The ranker on the old oven: some offers, each an oven within the
    budget cap. *)
Lemma offers_stay_within_budget_witness :
  exists offers,
    generate_replacement_options REPLACEMENT_PRODUCTS (old_oven None) = Ok offers
    /\ offers <> []
    /\ forall o,
        In o offers ->
        In (product o) (get_default "oven" REPLACEMENT_PRODUCTS [])
        /\ (inject_Z (price (product o)) <= budget_cap (old_oven None))%Q.
Proof.
  destruct (generate_replacement_options REPLACEMENT_PRODUCTS (old_oven None))
    as [offers|err] eqn:E; [|vm_compute in E; discriminate].
  exists offers. split; [reflexivity|]. split.
  - vm_compute in E. injection E as <-. discriminate.
  - apply (proj1 (offers_stay_within_budget REPLACEMENT_PRODUCTS (old_oven None)
                                            offers E)).
Defined.

Lemma sorted_app_cross {A : Type} (R : A -> A -> Prop) (l1 l2 : list A) :
  StronglySorted R (l1 ++ l2) ->
  forall x y, In x l1 -> In y l2 -> R x y.
Proof.
  induction l1 as [|a l1 IH]; simpl; intros Hs x y Hx Hy; [contradiction|].
  inversion Hs as [|? ? Hs' Hall]; subst.
  destruct Hx as [->|Hx].
  - rewrite Forall_forall in Hall. apply Hall, in_or_app. right. exact Hy.
  - apply IH; assumption.
Qed.

(** X23.  The offers are the best of the affordable products: each product
    that passed the budget filter is either among the offers, or its score
    is not above the score of any offer. *)
Theorem offers_are_the_best_scored
        (catalog : Catalog) (state : ServiceCaseState) (offers : list Offer) :
  generate_replacement_options catalog state = Ok offers ->
  forall p,
    In p (affordable catalog state) ->
    (exists o, In o offers /\ product o = p)
    \/ (exists r,
           scored_as catalog state p = Ok r
           /\ forall o, In o offers ->
                        (recommendation_score r <= recommendation_score o)%Q).
Proof.
  intros H p Hp.
  destruct (offers_come_from_scored _ _ _ H) as (scored & Hs & ->).
  destruct (proj2 (score_all_in _ _ _ Hs) p Hp) as (r & Hr & Hf).
  pose proof (score_product_fields _ _ _ _ _ _ _ Hf) as [Hpr _].
  assert (Hperm : Permutation scored (sort_by_score scored))
    by apply py_sorted_perm.
  apply (Permutation_in _ Hperm) in Hr.
  rewrite <- (firstn_skipn 3 (sort_by_score scored)) in Hr.
  apply in_app_or in Hr. destruct Hr as [Hr|Hr].
  - left. destruct (annotate_in_rev 0 _ _ Hr) as (o & Ho & Heq).
    exists o. split; [exact Ho|]. rewrite Heq. exact Hpr.
  - right. exists r. split; [exact Hf|].
    intros o Ho. destruct (annotate_in _ _ _ Ho) as (o' & Ho' & _ & -> & _).
    pose proof (sort_by_score_descending scored) as Hd. unfold descending in Hd.
    rewrite <- (firstn_skipn 3 (sort_by_score scored)) in Hd.
    apply (sorted_app_cross _ _ _ Hd o' r Ho' Hr).
Qed.

(** The old oven: the first oven of the catalog is affordable, and is
    offered or outscored by every offer. *)
Lemma offers_are_the_best_scored_witness :
  exists offers p,
    generate_replacement_options REPLACEMENT_PRODUCTS (old_oven None) = Ok offers
    /\ In p (affordable REPLACEMENT_PRODUCTS (old_oven None))
    /\ ((exists o, In o offers /\ product o = p)
        \/ (exists r,
               scored_as REPLACEMENT_PRODUCTS (old_oven None) p = Ok r
               /\ forall o, In o offers ->
                            (recommendation_score r <= recommendation_score o)%Q)).
Proof.
  destruct (generate_replacement_options REPLACEMENT_PRODUCTS (old_oven None))
    as [offers|err] eqn:E; [|vm_compute in E; discriminate].
  destruct (affordable REPLACEMENT_PRODUCTS (old_oven None)) as [|p l] eqn:Ha;
    [vm_compute in Ha; discriminate|].
  exists offers, p. split; [reflexivity|].
  assert (Hin : In p (affordable REPLACEMENT_PRODUCTS (old_oven None)))
    by (rewrite Ha; left; reflexivity).
  rewrite <- Ha. split; [exact Hin|].
  exact (offers_are_the_best_scored REPLACEMENT_PRODUCTS (old_oven None)
                                    offers E p Hin).
Defined.

(** Rounding stays between two integers that bound the number. *)
Lemma round_half_even_bounds (x : Q) (n m : Z) :
  (inject_Z n <= x <= inject_Z m)%Q -> n <= round_half_even x <= m.
Proof.
  intros [Hn Hm].
  assert (Hf1 : n <= Qfloor x)
    by (rewrite <- (Qfloor_Z n); apply Qfloor_resp_le; exact Hn).
  assert (Hf2 : Qfloor x <= m)
    by (rewrite <- (Qfloor_Z m); apply Qfloor_resp_le; exact Hm).
  unfold round_half_even. cbv zeta.
  destruct (Qlt_bool (x - inject_Z (Qfloor x)) (1 # 2)) eqn:E1; [lia|].
  assert (Hlt : Qfloor x < m).
  { destruct (Z.eq_dec (Qfloor x) m) as [Heq|Hne]; [|lia].
    exfalso. rewrite Heq in E1.
    assert (Hr : Qlt_bool (x - inject_Z m) (1 # 2) = true)
      by (apply Qlt_bool_iff; lra).
    congruence. }
  destruct (Qlt_bool (1 # 2) _); [lia|].
  destruct (Z.even _); lia.
Qed.

Lemma py_round_1_bounds (q : Q) (n m : Z) :
  (inject_Z n <= q <= inject_Z m)%Q ->
  (inject_Z n <= py_round q 1 <= inject_Z m)%Q.
Proof.
  intros [Hn Hm]. unfold py_round.
  change (Qpower 10 1) with 10%Q.
  destruct (round_half_even_bounds (q * 10) (n * 10) (m * 10)) as [H1 H2].
  { rewrite !inject_Z_mult. change (inject_Z 10) with 10%Q. split; lra. }
  rewrite Zle_Qle in H1, H2. rewrite inject_Z_mult in H1, H2.
  change (inject_Z 10) with 10%Q in H1, H2.
  split.
  - apply Qle_shift_div_l; [reflexivity|exact H1].
  - apply Qle_shift_div_r; [reflexivity|exact H2].
Qed.

Lemma fold_max_margin (l : list Product) (m : Z) :
  m <= fold_left (fun m x => Z.max m (margin x)) l m
  /\ forall x, In x l ->
               margin x <= fold_left (fun m x => Z.max m (margin x)) l m.
Proof.
  revert m. induction l as [|p l IH]; intros m; simpl.
  - split; [lia|intros x []].
  - destruct (IH (Z.max m (margin p))) as [H1 H2]. split; [lia|].
    intros x [<-|Hx]; [lia|apply H2; exact Hx].
Qed.

Lemma max_margin_of_ge (l : list Product) (p : Product) :
  In p l -> margin p <= max_margin_of l.
Proof.
  destruct l as [|q l]; [intros []|]. simpl.
  destruct (fold_max_margin l (margin q)) as [H1 H2].
  intros [<-|H]; [exact H1|apply H2; exact H].
Qed.

Lemma margin_score_range (m M : Z) :
  0 <= m <= M -> 0 < M ->
  (0 <= inject_Z m / inject_Z M * 25 <= 25)%Q.
Proof.
  intros [H0 H1] HM.
  assert (HM' : (0 < inject_Z M)%Q)
    by (replace 0%Q with (inject_Z 0) by reflexivity; rewrite <- Zlt_Qlt; lia).
  assert (H0' : (0 <= inject_Z m)%Q)
    by (replace 0%Q with (inject_Z 0) by reflexivity; rewrite <- Zle_Qle; lia).
  assert (H1' : (inject_Z m <= inject_Z M)%Q) by (rewrite <- Zle_Qle; lia).
  assert (Ha : (0 <= inject_Z m / inject_Z M)%Q)
    by (apply Qle_shift_div_l; [exact HM'|lra]).
  assert (Hb : (inject_Z m / inject_Z M <= 1)%Q)
    by (apply Qle_shift_div_r; [exact HM'|lra]).
  split; lra.
Qed.

Lemma score_product_range (bf : list Product) (prefs : option pydict)
      (cdata : pydict) (a : Z) (dt : string) (p : Product) (o : Offer) :
  score_product bf prefs cdata a dt p = Ok o ->
  In p bf -> Forall (fun x => 0 <= margin x) bf ->
  (inject_Z 13 <= recommendation_score o <= inject_Z 100)%Q.
Proof.
  unfold score_product. destruct prefs as [preferences|]; [|discriminate].
  destruct (py_in _ _) as [preferred|e]; cbn [bind]; [|discriminate].
  destruct (get_recommendation_reason _ _ _) as [reason|e]; cbn [bind];
    [|discriminate].
  intros H Hin Hall. injection H as <-. cbn [recommendation_score].
  apply py_round_1_bounds.
  assert (Hm : 0 <= margin p <= max_margin_of bf).
  { split; [|apply max_margin_of_ge; exact Hin].
    rewrite Forall_forall in Hall. apply Hall. exact Hin. }
  match goal with
  | |- (_ <= ?b + ?ms + inject_Z ?st + inject_Z ?en + inject_Z ?up
             + inject_Z ?pr <= _)%Q =>
      assert (Hb : (10 <= b <= 25)%Q)
        by (destruct preferred; split; discriminate);
      assert (Hms : (0 <= ms <= 25)%Q);
      [|assert (Hst : 0 <= st <= 20);
        [|assert (Hen : 0 <= en <= 15);
          [|assert (Hup : 2 <= up <= 10);
            [|assert (Hpr : 1 <= pr <= 5);
              [|generalize dependent b; generalize dependent ms;
                generalize dependent st; generalize dependent en;
                generalize dependent up; generalize dependent pr]]]]]
  end.
  - destruct (max_margin_of bf >? 0) eqn:E; [|split; discriminate].
    apply Z.gtb_lt in E. apply margin_score_range; [exact Hm|lia].
  - unfold get_default. cbn [lookup].
    repeat match goal with
           | |- context [String.eqb ?x ?y] => destruct (String.eqb x y)
           end; lia.
  - unfold get_default. cbn [lookup].
    repeat match goal with
           | |- context [String.eqb ?x ?y] => destruct (String.eqb x y)
           end; lia.
  - repeat match goal with
           | |- context [if ?c then _ else _] => destruct c
           end; lia.
  - repeat match goal with
           | |- context [if ?c then _ else _] => destruct c
           end; lia.
  - intros pr [Hpr1 Hpr2] up [Hup1 Hup2] en [Hen1 Hen2] st [Hst1 Hst2]
           ms [Hms1 Hms2] b [Hb1 Hb2].
    rewrite Zle_Qle in Hpr1, Hpr2, Hup1, Hup2, Hen1, Hen2, Hst1, Hst2.
    change (inject_Z 13) with 13%Q. change (inject_Z 100) with 100%Q.
    change (inject_Z 0) with 0%Q in *. change (inject_Z 1) with 1%Q in *.
    change (inject_Z 2) with 2%Q in *. change (inject_Z 5) with 5%Q in *.
    change (inject_Z 10) with 10%Q in *. change (inject_Z 15) with 15%Q in *.
    change (inject_Z 20) with 20%Q in *.
    split; lra.
Qed.

(** X24.  When no product of the device's category has a negative margin,
    the recommendation score of every offer lies between 13 and 100. *)
Theorem offer_scores_range
        (catalog : Catalog) (state : ServiceCaseState) (offers : list Offer) :
  Forall (fun p => 0 <= margin p)
         (get_default (lower (device_type state)) catalog []) ->
  generate_replacement_options catalog state = Ok offers ->
  forall o,
    In o offers ->
    (inject_Z 13 <= recommendation_score o <= inject_Z 100)%Q.
Proof.
  intros Hall H o Ho.
  destruct (offer_origin _ _ _ _ H Ho) as (r & Hin & Hf & -> & _).
  apply (score_product_range _ _ _ _ _ _ _ Hf Hin).
  unfold affordable, budget_filter. rewrite Forall_forall in *.
  intros x Hx. apply filter_In in Hx. apply Hall, Hx.
Qed.

(** The ranker on the old oven. *)
Lemma offer_scores_range_witness :
  exists offers,
    generate_replacement_options REPLACEMENT_PRODUCTS (old_oven None) = Ok offers
    /\ offers <> []
    /\ forall o,
        In o offers ->
        (inject_Z 13 <= recommendation_score o <= inject_Z 100)%Q.
Proof.
  destruct (generate_replacement_options REPLACEMENT_PRODUCTS (old_oven None))
    as [offers|err] eqn:E; [|vm_compute in E; discriminate].
  exists offers. split; [reflexivity|]. split.
  - vm_compute in E. injection E as <-. discriminate.
  - apply (offer_scores_range REPLACEMENT_PRODUCTS (old_oven None) offers);
      [|exact E].
    cbn. repeat constructor; discriminate.
Defined.

Lemma py_int_floor (x : Q) : (0 <= x)%Q -> py_int x = Qfloor x.
Proof.
  intros H. unfold py_int. destruct x as [n d]. simpl.
  apply Z.quot_div_nonneg; [|reflexivity].
  unfold Qle in H. simpl in H. lia.
Qed.

(** X25.  For a device age from 0 on within the float range, the trade-in
    value is between a tenth of the base value of the category and the
    base value (so between 20 and 300), and it is the tenth from 15 years
    on. *)
Theorem trade_in_value_range (device_age : Z) (dt : string) :
  plausible_age device_age ->
  trade_in_base dt / 10 <= estimate_trade_in_value device_age dt
  <= trade_in_base dt
  /\ 20 <= estimate_trade_in_value device_age dt <= 300
  /\ (15 <= device_age ->
      estimate_trade_in_value device_age dt = trade_in_base dt / 10).
Proof.
  intros [Ha _]. unfold estimate_trade_in_value. cbv zeta.
  fold (trade_in_base dt).
  change (1 - (15 # 100))%Q with (85 # 100)%Q.
  assert (Hq : (0 < 85 # 100 <= 1)%Q) by (split; [reflexivity|discriminate]).
  destruct (Qpower_fraction_le_1 (85 # 100) device_age Hq Ha) as [Hp0 Hp1].
  set (f := Qmax (1 # 10) (Qpower (85 # 100) device_age)).
  assert (Hf : (1 # 10 <= f <= 1)%Q).
  { split; [apply Q.le_max_l|]. apply Q.max_lub; [discriminate|exact Hp1]. }
  assert (Hf15 : 15 <= device_age -> (f == 1 # 10)%Q).
  { intros H15. apply Q.max_l.
    assert (H : (Qpower (85 # 100) device_age <= Qpower (85 # 100) 15)%Q)
      by (apply Qpower_fraction_decreasing; [exact Hq|lia]).
    assert (H' : (Qpower (85 # 100) 15 <= 1 # 10)%Q)
      by (vm_compute; discriminate).
    lra. }
  clearbody f.
  assert (Hbase : exists b, trade_in_base dt = 10 * b /\ 20 <= b <= 30).
  { unfold trade_in_base, get_default. cbn [lookup].
    repeat match goal with
           | |- context [String.eqb ?x ?y] => destruct (String.eqb x y)
           end;
      [exists 20|exists 30|exists 25|exists 20]; lia. }
  destruct Hbase as (b & -> & Hb).
  replace (10 * b / 10) with b by (rewrite Z.mul_comm, Z.div_mul; lia).
  assert (Hb' : (20 <= inject_Z b)%Q)
    by (change 20%Q with (inject_Z 20); rewrite <- Zle_Qle; lia).
  assert (Hx : (inject_Z b <= inject_Z (10 * b) * f <= inject_Z (10 * b))%Q).
  { rewrite inject_Z_mult. change (inject_Z 10) with 10%Q. split; nra. }
  rewrite py_int_floor by nra.
  pose proof (Qfloor_resp_le _ _ (proj1 Hx)) as H1.
  pose proof (Qfloor_resp_le _ _ (proj2 Hx)) as H2.
  rewrite Qfloor_Z in H1, H2.
  split; [lia|]. split; [lia|].
  intros H15.
  assert (He : (inject_Z (10 * b) * f == inject_Z b)%Q).
  { rewrite (Hf15 H15), inject_Z_mult. change (inject_Z 10) with 10%Q.
    field. }
  rewrite (Qfloor_comp _ _ He). apply Qfloor_Z.
Qed.

(** A twelve years old dishwasher: 250 * 0.85^12 is about 35.6. *)
Lemma trade_in_value_range_witness :
  plausible_age 12
  /\ estimate_trade_in_value 12 "dishwasher" = 35
  /\ 25 <= estimate_trade_in_value 12 "dishwasher" <= 250.
Proof.
  assert (H : plausible_age 12)
    by (split; [lia|apply float_sized_small; cbn; lia]).
  split; [exact H|]. split; [reflexivity|].
  apply (proj1 (trade_in_value_range 12 "dishwasher" H)).
Defined.

(** *** The repair order *)

(** X26.  In a repair order written for a record that went through the
    analyses, the total cost is the estimate of the simulated SAP lookup
    with parts at 60 and labour at 40 percent of it, and the skill level
    required of the technician is always standard, also when the
    technical analysis asks for a specialist: the order reads a key
    complexity that the technical analysis never writes. *)
Theorem repair_order_of_analysed_record
        (catalog : Catalog) (w : World) (s1 s3 : ServiceCaseState)
        (order_no : Z) (now : string) :
  analyse catalog w s1 = Ok s3 ->
  exists assignment breakdown cost expertise,
    lookup "technician_assignment" (generate_repair_order order_no now s3)
    = Some (VDict assignment)
    /\ lookup "skill_level_required" assignment = Some (VStr "standard")
    /\ lookup "required_expertise" (or_default (technical_analysis s3) [])
       = Some (VStr expertise)
    /\ In expertise ["specialist"; "standard"]
    /\ lookup "cost_breakdown" (generate_repair_order order_no now s3)
       = Some (VDict breakdown)
    /\ lookup "total_cost" breakdown = Some (VInt cost)
    /\ lookup "parts_cost" breakdown = Some (VFloat (inject_Z cost * (6 # 10)))
    /\ lookup "labor_cost" breakdown = Some (VFloat (inject_Z cost * (4 # 10))).
Proof.
  unfold analyse, data_enrichment_agent, simulate_sap_integration,
    simulate_pim_integration.
  cbv zeta. cbn [get_default lookup String.eqb Ascii.eqb Bool.eqb to_Q as_number
                 getitem bind].
  destruct (economic_analyst_agent _ _) as [ec|err]; cbn [bind];
    [|discriminate].
  intros H. injection H as <-.
  unfold generate_repair_order, technical_analyst_agent. cbv zeta.
  cbn [set_analyses set_enrichment technical_analysis sap_data repair_cost
       or_default t_technical_analysis e_sap_data e_repair_cost
       get_default lookup String.eqb Ascii.eqb Bool.eqb].
  do 4 eexists.
  split; [reflexivity|]. split; [reflexivity|]. split; [reflexivity|].
  split; [|repeat split].
  match goal with
  | |- In (if ?b then _ else _) _ => destruct b; simpl; auto
  end.
Qed.

(** The seven years old oven with an unknown error: recommended for
    repair, a specialist asked for, and the order says standard. *)
Lemma repair_order_of_analysed_record_witness :
  exists s3 assignment,
    analyse REPLACEMENT_PRODUCTS world0 (triaged aging_oven) = Ok s3
    /\ final_recommendation_of s3 = "repair"
    /\ lookup "required_expertise" (or_default (technical_analysis s3) [])
       = Some (VStr "specialist")
    /\ lookup "technician_assignment"
              (generate_repair_order 100000 "2024-01-01T00:00:00" s3)
       = Some (VDict assignment)
    /\ lookup "skill_level_required" assignment = Some (VStr "standard").
Proof.
  destruct (analyse REPLACEMENT_PRODUCTS world0 (triaged aging_oven))
    as [s3|err] eqn:E; [|vm_compute in E; discriminate].
  destruct (repair_order_of_analysed_record
              REPLACEMENT_PRODUCTS world0 (triaged aging_oven) s3
              100000 "2024-01-01T00:00:00" E)
    as (assignment & _ & _ & _ & H1 & H2 & _).
  exists s3, assignment. split; [reflexivity|].
  split; [vm_compute in E; injection E as <-; reflexivity|].
  split; [vm_compute in E; injection E as <-; reflexivity|].
  split; [exact H1|exact H2].
Defined.

End PipelineFacts.

(** ** Roles and permissions *)

Module AccessFacts.
Import Py Agents Access.

Lemma str_in_list_In (x : string) (l : list string) :
  str_in_list x l = true <-> In x l.
Proof.
  unfold str_in_list. rewrite existsb_exists. split.
  - intros (y & Hy & E). apply String.eqb_eq in E. subst. exact Hy.
  - intros H. exists x. split; [exact H|apply String.eqb_refl].
Qed.

Lemma set_update_spec (l s : list string) (x : string) :
  In x (set_update s l) <-> In x s \/ In x l.
Proof.
  revert s. induction l as [|y l IH]; intros s; simpl.
  - tauto.
  - rewrite IH. destruct (str_in_list y s) eqn:E.
    + apply str_in_list_In in E. split; [tauto|].
      intros [H|[<-|H]]; auto.
    + rewrite in_app_iff. simpl. tauto.
Qed.

Lemma star_only_for_the_administrator (role : string) :
  In "*" (get_default role permission_mapping []) -> role = "SystemAdmin".
Proof.
  unfold get_default, permission_mapping. cbn [lookup].
  destruct (String.eqb role "ServiceAgent");
    [simpl; intuition discriminate|].
  destruct (String.eqb role "SalesConsultant");
    [simpl; intuition discriminate|].
  destruct (String.eqb role "ServiceManager");
    [simpl; intuition discriminate|].
  destruct (String.eqb role "SystemAdmin") eqn:E; [|intros []].
  intros _. apply String.eqb_eq. exact E.
Qed.

Lemma listed_in_a_row (perm role : string) :
  role <> "SystemAdmin" ->
  In perm (get_default role permission_mapping []) -> listed perm = true.
Proof.
  intros Hrole. unfold listed, get_default, permission_mapping.
  cbn [lookup existsb fst snd String.eqb Ascii.eqb Bool.eqb negb andb].
  destruct (String.eqb role "ServiceAgent");
    [intros H; apply str_in_list_In in H; rewrite H; reflexivity|].
  destruct (String.eqb role "SalesConsultant");
    [intros H; apply str_in_list_In in H; rewrite H;
     rewrite !orb_true_r; reflexivity|].
  destruct (String.eqb role "ServiceManager");
    [intros H; apply str_in_list_In in H; rewrite H;
     rewrite !orb_true_r; reflexivity|].
  destruct (String.eqb role "SystemAdmin") eqn:E; [|intros []].
  apply String.eqb_eq in E. contradiction.
Qed.

Lemma permissions_loop_administrator (roles acc : list string) :
  In "SystemAdmin" roles -> permissions_loop acc roles = ["*"].
Proof.
  revert acc. induction roles as [|role roles IH]; intros acc; [intros []|].
  simpl. destruct (str_in_list "*" _) eqn:E; [reflexivity|].
  intros [->|H]; [discriminate|]. apply IH. exact H.
Qed.

Lemma permissions_loop_others (roles acc : list string) (x : string) :
  ~ In "SystemAdmin" roles ->
  In x (permissions_loop acc roles) ->
  In x acc
  \/ exists role, In role roles /\ role <> "SystemAdmin"
                  /\ In x (get_default role permission_mapping []).
Proof.
  revert acc. induction roles as [|role roles IH]; intros acc Hno; simpl.
  - auto.
  - destruct (str_in_list "*" _) eqn:E.
    + apply str_in_list_In, star_only_for_the_administrator in E.
      exfalso. apply Hno. left. exact E.
    + intros H. apply IH in H; [|intros Hin; apply Hno; right; exact Hin].
      assert (Hrole : role <> "SystemAdmin")
        by (intros ->; apply Hno; left; reflexivity).
      destruct H as [H|(r & Hr & Hne & Hx)].
      * apply set_update_spec in H. destruct H as [H|H]; [left; exact H|].
        right. exists role. auto.
      * right. exists r. auto.
Qed.

Lemma permissions_loop_keeps (roles acc : list string) (x : string) :
  In x acc -> permitted x (permissions_loop acc roles) = true.
Proof.
  revert acc. induction roles as [|role roles IH]; intros acc H; simpl.
  - unfold permitted. apply str_in_list_In in H. rewrite H. reflexivity.
  - destruct (str_in_list "*" _); [unfold permitted; apply orb_true_r|].
    apply IH, set_update_spec. left. exact H.
Qed.

Lemma role_of_group (name : string) (role : string) :
  lookup name role_mapping = Some role ->
  In role ["ServiceAgent"; "SalesConsultant"; "ServiceManager"; "SystemAdmin"]
  /\ (role = "SystemAdmin" <-> name = "System-Administrators").
Proof.
  unfold role_mapping. cbn [lookup].
  destruct (String.eqb name "Service-Agents") eqn:E1.
  { intros H. injection H as <-. apply String.eqb_eq in E1. subst.
    split; [simpl; auto|]. split; discriminate. }
  destruct (String.eqb name "Sales-Consultants") eqn:E2.
  { intros H. injection H as <-. apply String.eqb_eq in E2. subst.
    split; [simpl; auto|]. split; discriminate. }
  destruct (String.eqb name "Service-Managers") eqn:E3.
  { intros H. injection H as <-. apply String.eqb_eq in E3. subst.
    split; [simpl; auto|]. split; discriminate. }
  destruct (String.eqb name "System-Administrators") eqn:E4; [|discriminate].
  intros H. injection H as <-. apply String.eqb_eq in E4.
  split; [simpl; auto 6|]. split; auto.
Qed.

Lemma has_admin_group_cons (group : pydict) (groups : list pydict) :
  has_admin_group (group :: groups)
  <-> get_default "displayName" group (VStr "") = VStr "System-Administrators"
      \/ has_admin_group groups.
Proof.
  unfold has_admin_group. split.
  - intros (g & [<-|Hin] & Hn); [left; exact Hn|right; exists g; auto].
  - intros [Hn|(g & Hin & Hn)].
    + exists group. split; [left; reflexivity|exact Hn].
    + exists g. split; [right; exact Hin|exact Hn].
Qed.

(** The roles collected from groups whose names can be hashed. *)
Lemma collect_roles_spec (groups : list pydict) :
  hashable_names groups ->
  exists roles,
    collect_roles groups = Ok roles
    /\ (forall role,
           In role roles ->
           In role ["ServiceAgent"; "SalesConsultant"; "ServiceManager";
                    "SystemAdmin"])
    /\ (In "SystemAdmin" roles <-> has_admin_group groups).
Proof.
  unfold hashable_names.
  induction 1 as [|group groups Hg _ (roles & Hc & Hk & Ha)];
    cbn [collect_roles].
  - exists []. split; [reflexivity|]. split; [intros r []|].
    split; [intros []|intros (g & [] & _)].
  - rewrite Hc.
    destruct (get_default "displayName" group (VStr ""))
      as [|b|z|q|name|l|d] eqn:E;
      try contradiction; cbn [bind app].
    1-4: exists roles; split; [reflexivity|]; split; [exact Hk|];
      rewrite has_admin_group_cons, Ha; split;
      [tauto|intros [?|?]; [congruence|assumption]].
    destruct (lookup name role_mapping) as [role|] eqn:El.
    + destruct (role_of_group _ _ El) as [Hrole Hadmin].
      exists (role :: roles). split; [reflexivity|]. split.
      * intros r [<-|Hr]; [exact Hrole|apply Hk; exact Hr].
      * simpl. rewrite has_admin_group_cons, Ha, Hadmin. split.
        -- intros [->|Hg']; auto.
        -- intros [Hn|Hg']; [left; congruence|right; exact Hg'].
    + exists roles. split; [reflexivity|]. split; [exact Hk|].
      rewrite has_admin_group_cons, Ha. split; [tauto|].
      intros [Hn|Hg']; [|exact Hg'].
      rewrite E in Hn. injection Hn as ->. discriminate.
Qed.

(** The roles returned by [_extract_roles_from_groups]: never empty. *)
Lemma extract_roles_spec (groups : list pydict) :
  hashable_names groups ->
  exists role roles,
    extract_roles_from_groups groups = Ok (role :: roles)
    /\ (forall r,
           In r (role :: roles) ->
           In r ["ServiceAgent"; "SalesConsultant"; "ServiceManager";
                 "SystemAdmin"])
    /\ (In "SystemAdmin" (role :: roles) <-> has_admin_group groups).
Proof.
  intros H. destruct (collect_roles_spec groups H) as (roles & Hc & Hk & Ha).
  unfold extract_roles_from_groups. rewrite Hc. cbn [bind].
  destruct roles as [|role roles].
  - exists "ServiceAgent", []. split; [reflexivity|]. split.
    + intros r [<-|[]]. simpl. auto.
    + rewrite <- Ha. split; [intros [E|[]]; discriminate|intros []].
  - exists role, roles. auto.
Qed.

(** X27.  Whatever the groups of an authenticated user are (their names
    being hashable), the roles are not empty and the permissions let the
    user read customer data and create service orders: no group set locks
    a user out of the service-case endpoint. *)
Theorem every_user_may_create_service_orders (groups : list pydict) :
  hashable_names groups ->
  exists role roles permissions,
    extract_roles_from_groups groups = Ok (role :: roles)
    /\ permissions_of_groups groups = Ok permissions
    /\ permitted "read_customer_data" permissions = true
    /\ permitted "create_service_orders" permissions = true.
Proof.
  intros H.
  destruct (extract_roles_spec groups H) as (role & roles & He & Hk & _).
  exists role, roles. eexists. split; [exact He|].
  unfold permissions_of_groups. rewrite He. cbn [bind].
  split; [reflexivity|].
  unfold get_permissions_for_roles.
  destruct (Hk role (or_introl eq_refl)) as [<-|[<-|[<-|[<-|[]]]]];
    cbn [permissions_loop get_default lookup permission_mapping String.eqb
         Ascii.eqb Bool.eqb str_in_list existsb orb];
    try (split; reflexivity);
    split; apply permissions_loop_keeps; vm_compute; tauto.
Qed.

(** A sales consultant who is also in two groups without a role. *)
Lemma every_user_may_create_service_orders_witness :
  hashable_names sales_groups
  /\ exists permissions,
      permissions_of_groups sales_groups = Ok permissions
      /\ permitted "create_service_orders" permissions = true.
Proof.
  assert (H : hashable_names sales_groups)
    by (unfold hashable_names, sales_groups; repeat constructor).
  split; [exact H|].
  destruct (every_user_may_create_service_orders sales_groups H)
    as (role & roles & permissions & _ & Hp & _ & Hc).
  exists permissions. split; [exact Hp|exact Hc].
Defined.

(** X28.  A permission that no role but the administrator's lists, such as
    view_system_config, is granted exactly to the users with the group
    System-Administrators, whose permissions are the single wildcard. *)
Theorem unlisted_permissions_need_an_administrator
        (groups : list pydict) (permissions : list string) (perm : string) :
  hashable_names groups ->
  permissions_of_groups groups = Ok permissions ->
  listed perm = false ->
  (permitted perm permissions = true <-> has_admin_group groups)
  /\ (has_admin_group groups -> permissions = ["*"]).
Proof.
  intros H Hp Hl.
  destruct (extract_roles_spec groups H) as (role & roles & He & _ & Ha).
  unfold permissions_of_groups in Hp. rewrite He in Hp. cbn [bind] in Hp.
  injection Hp as <-. unfold get_permissions_for_roles.
  assert (Hadmin : has_admin_group groups ->
                   permissions_loop [] (role :: roles) = ["*"]).
  { intros Hg. apply permissions_loop_administrator, Ha. exact Hg. }
  split; [|exact Hadmin]. split.
  - intros Hperm.
    destruct (in_dec string_dec "SystemAdmin" (role :: roles)) as [Hin|Hno];
      [apply Ha; exact Hin|].
    exfalso. unfold permitted in Hperm. apply orb_true_iff in Hperm.
    destruct Hperm as [Hx|Hx]; apply str_in_list_In in Hx;
      apply (permissions_loop_others _ _ _ Hno) in Hx;
      destruct Hx as [[]|(r & Hr & Hne & Hx)].
    + rewrite (listed_in_a_row _ _ Hne Hx) in Hl. discriminate.
    + apply star_only_for_the_administrator in Hx. contradiction.
  - intros Hg. rewrite (Hadmin Hg). unfold permitted.
    apply orb_true_r.
Qed.

(** The sales consultant may not see the system configuration; the
    administrator may. *)
Lemma unlisted_permissions_need_an_administrator_witness :
  (exists permissions,
      permissions_of_groups sales_groups = Ok permissions
      /\ permitted "view_system_config" permissions = false)
  /\ exists permissions,
      permissions_of_groups admin_groups = Ok permissions
      /\ permitted "view_system_config" permissions = true.
Proof.
  split.
  - exists ["read_customer_data"; "create_service_orders"; "view_pricing";
            "create_opportunities"].
    split; reflexivity.
  - assert (H : hashable_names admin_groups)
      by (unfold hashable_names, admin_groups; repeat constructor).
    assert (Hp : permissions_of_groups admin_groups = Ok ["*"])
      by reflexivity.
    assert (Hl : listed "view_system_config" = false) by reflexivity.
    exists ["*"]. split; [exact Hp|].
    apply (proj1 (unlisted_permissions_need_an_administrator
                    admin_groups ["*"] "view_system_config" H Hp Hl)).
    exists [("displayName", VStr "System-Administrators")].
    split; [right; left; reflexivity|reflexivity].
Defined.

End AccessFacts.

(** ** The cost estimate of the SAP connector and the guard of the graph *)

Module ConnectorFacts.
Import Py Agents Access Sap PipelineTerms PipelineSpec PipelineFacts.

Lemma py_round_2_bounds (q : Q) (n m : Z) :
  (inject_Z n / 100 <= q <= inject_Z m / 100)%Q ->
  (inject_Z n / 100 <= py_round q 2 <= inject_Z m / 100)%Q.
Proof.
  intros [Hn Hm]. unfold py_round.
  change (Qpower 10 2) with 100%Q.
  destruct (round_half_even_bounds (q * 100) n m) as [H1 H2].
  { split.
    - apply (Qmult_le_compat_r _ _ 100) in Hn; [|discriminate].
      assert (E : (inject_Z n / 100 * 100 == inject_Z n)%Q) by field.
      lra.
    - apply (Qmult_le_compat_r _ _ 100) in Hm; [|discriminate].
      assert (E : (inject_Z m / 100 * 100 == inject_Z m)%Q) by field.
      lra. }
  rewrite Zle_Qle in H1, H2.
  split.
  - apply Qle_shift_div_l; [reflexivity|].
    assert (E : (inject_Z n / 100 * 100 == inject_Z n)%Q) by field.
    lra.
  - apply Qle_shift_div_r; [reflexivity|].
    assert (E : (inject_Z m / 100 * 100 == inject_Z m)%Q) by field.
    lra.
Qed.

Lemma base_cost_range (dt br : string) : 180 <= base_cost_for dt br <= 350.
Proof.
  unfold base_cost_for, get_default, base_costs. cbn [lookup].
  repeat match goal with
         | |- context [String.eqb ?x ?y] => destruct (String.eqb x y); cbn [lookup]
         end; lia.
Qed.

Lemma multiplier_range (error_description : string) :
  (8 # 10 <= multiplier_for error_description <= 18 # 10)%Q.
Proof.
  unfold multiplier_for, error_multipliers. cbn [find fst].
  repeat match goal with
         | |- context [str_contains ?k ?d] => destruct (str_contains k d)
         end; split; discriminate.
Qed.

(** X29.  The simulated cost estimate of the SAP connector has a total
    between 0.88 and 1.48 times the base cost of the device, which lies
    between 180 and 350; and a description that mentions neither
    electronic nor display gets the parts availability high and the lead
    time of 2-3 days. *)
Theorem connector_estimate_range (dt br error_description : string) :
  exists breakdown total,
    lookup "cost_breakdown" (simulate_sap_repair_costs dt br error_description)
    = Some (VDict breakdown)
    /\ lookup "total_cost" breakdown = Some (VFloat total)
    /\ 180 <= base_cost_for dt br <= 350
    /\ (inject_Z (88 * base_cost_for dt br) / 100 <= total
        <= inject_Z (148 * base_cost_for dt br) / 100)%Q
    /\ (str_contains "electronic" (lower error_description) = false ->
        str_contains "display" (lower error_description) = false ->
        lookup "parts_availability"
               (simulate_sap_repair_costs dt br error_description)
        = Some (VStr "high")
        /\ lookup "lead_time"
                  (simulate_sap_repair_costs dt br error_description)
           = Some (VStr "2-3 days")).
Proof.
  unfold simulate_sap_repair_costs. cbv zeta.
  cbn [lookup String.eqb Ascii.eqb Bool.eqb].
  do 2 eexists. split; [reflexivity|]. split; [reflexivity|].
  pose proof (base_cost_range dt br) as Hb.
  split; [exact Hb|]. split.
  - apply py_round_2_bounds.
    destruct (multiplier_range error_description) as [Hm1 Hm2].
    assert (Hb1 : (180 <= inject_Z (base_cost_for dt br))%Q)
      by (change 180%Q with (inject_Z 180); rewrite <- Zle_Qle; lia).
    rewrite !inject_Z_mult.
    change (inject_Z 88) with 88%Q. change (inject_Z 148) with 148%Q.
    split.
    + apply Qle_shift_div_r; [reflexivity|]. nra.
    + apply Qle_shift_div_l; [reflexivity|]. nra.
  - intros He Hd.
    assert (Hm : Qlt_bool (multiplier_for error_description) (15 # 10) = true).
    { unfold multiplier_for, error_multipliers. cbn [find fst].
      rewrite He, Hd.
      repeat match goal with
             | |- context [str_contains ?k ?d] => destruct (str_contains k d)
             end; reflexivity. }
    rewrite Hm. split; reflexivity.
Qed.

(** X30.  The guard [should_continue_to_recommendation] answers
    recommendation for every record the two analyses have written to, and
    missing_technical for a record that has only been triaged and
    enriched. *)
Theorem guard_after_the_analyses
        (catalog : Catalog) (w : World) (s1 s3 : ServiceCaseState) :
  analyse catalog w s1 = Ok s3 ->
  should_continue_to_recommendation s3 = "recommendation"
  /\ forall e,
      repair_probability s1 = None ->
      should_continue_to_recommendation (set_enrichment e s1)
      = "missing_technical".
Proof.
  intros H. split.
  - destruct (analyse_fields _ _ _ _ H) as (e & ec & _ & _ & ->).
    reflexivity.
  - intros e Hp. unfold should_continue_to_recommendation.
    cbn [set_enrichment repair_probability]. rewrite Hp. reflexivity.
Qed.

(** The young cooktop after the analyses. *)
Lemma guard_after_the_analyses_witness :
  exists s3,
    analyse REPLACEMENT_PRODUCTS world0 (triaged young_cooktop) = Ok s3
    /\ should_continue_to_recommendation s3 = "recommendation".
Proof.
  destruct (analyse REPLACEMENT_PRODUCTS world0 (triaged young_cooktop))
    as [s3|err] eqn:E; [|vm_compute in E; discriminate].
  exists s3. split; [reflexivity|].
  apply (proj1 (guard_after_the_analyses _ _ _ _ E)).
Defined.

End ConnectorFacts.
